(** * Availability resolution and slot reservation

    A shallow embedding of the booking form ([AppointmentForm.tsx]) and of the
    service availability manager ([ServiceAvailabilityManager]), the two
    components that read and write the four tables [available_dates],
    [available_times], [service_availability] and [appointments].

    The store client is an external collaborator; every awaited call on it is
    modelled as one atomic step on an in-memory database, whose outcome (data,
    an error reported in the result object, or a rejected promise) is taken
    from a schedule carried by the world. *)

From Stdlib Require Import List String Ascii ZArith NArith Lia Bool Arith.
From Stdlib Require Import Permutation Sorted.
Import ListNotations.

Local Open Scope string_scope.
Local Open Scope list_scope.

(** ** Strings as JavaScript compares them

    [a >= b] and the default [Array.prototype.sort] order strings code unit
    by code unit; [String.compare] is that order. [localeCompare] is not that
    order: it is the collation of the browser's locale, which the handlers
    that call it take as a parameter. *)

Definition str_leb (a b : string) : bool := String.leb a b.

Definition str_geb (a b : string) : bool := String.leb b a.

(** [!s] for a string: the empty string is the only falsy one. *)
Definition falsy (s : string) : bool :=
  match s with EmptyString => true | _ => false end.

(** ** Stable sorting

    [Array.prototype.sort] and the store's [order(...)] are modelled by a
    stable insertion sort: an element is placed before the first element that
    is not smaller than it. The store orders the [date] and [time] columns;
    on their fixed-width texts ([YYYY-MM-DD], [HH:MM]) that is the order of
    the strings. *)

Section SortingDefinitions.
Context {A : Type}.
Variable le : A -> A -> bool.

Fixpoint insert_sorted (x : A) (l : list A) : list A :=
  match l with
  | [] => [x]
  | y :: l' => if le x y then x :: y :: l' else y :: insert_sorted x l'
  end.

Fixpoint sort_by (l : list A) : list A :=
  match l with
  | [] => []
  | x :: l' => insert_sorted x (sort_by l')
  end.

Definition ascending (l : list A) : Prop :=
  StronglySorted (fun a b => le a b = true) l.
End SortingDefinitions.

(** ** The clock

    [new Date().toISOString().split('T')[0]]: the calendar date, in UTC, of the
    current instant (milliseconds since the epoch), as [YYYY-MM-DD]. *)

Definition ms_per_day : Z := 86400000.

(** Days since 1970-01-01 to (year, month, day) in the proleptic Gregorian
    calendar, by 400-year eras starting on 1 March. *)
Definition civil_from_days (days : Z) : Z * Z * Z :=
  let z := (days + 719468)%Z in
  let era := (z / 146097)%Z in
  let doe := (z - era * 146097)%Z in
  let yoe := ((doe - doe / 1460 + doe / 36524 - doe / 146096) / 365)%Z in
  let doy := (doe - (365 * yoe + yoe / 4 - yoe / 100))%Z in
  let mp := ((5 * doy + 2) / 153)%Z in
  let d := (doy - (153 * mp + 2) / 5 + 1)%Z in
  let m := (if mp <? 10 then mp + 3 else mp - 9)%Z in
  let y := (yoe + era * 400 + (if m <=? 2 then 1 else 0))%Z in
  (y, m, d).

Fixpoint digits (width : nat) (n : Z) : string :=
  match width with
  | O => EmptyString
  | S w =>
      digits w (n / 10)
      ++ String (ascii_of_N (48 + Z.to_N (n mod 10))) EmptyString
  end.

Definition year_string (y : Z) : string :=
  if ((0 <=? y) && (y <=? 9999))%Z then digits 4 y
  else if (y <? 0)%Z then "-" ++ digits 6 (- y)
  else "+" ++ digits 6 y.

Definition toISODate (ms : Z) : string :=
  let '(y, m, d) := civil_from_days (ms / ms_per_day) in
  year_string y ++ "-" ++ digits 2 m ++ "-" ++ digits 2 d.

(** The calendar date the caller's wall clock shows, for a time zone
    [offset_minutes] east of UTC. The components never compute it. *)
Definition localDate (ms offset_minutes : Z) : string :=
  toISODate (ms + offset_minutes * 60000).

(** ** Data model: the rows of the four tables (and the service catalog) *)

(** Primary keys. The components only compare them; the store's identifiers
    are numbered here. *)
Definition Id := nat.

(** [available_dates]: a calendar date registered as a bookable day. *)
Record DateRecord := mkDate { ad_id : Id; ad_date : string }.

(** [available_times]: a slot of the general tier. *)
Record GeneralSlot := mkGeneral {
  at_id : Id;
  at_date_id : Id;
  at_time : string;
  at_is_available : bool
}.

(** [service_availability]: a slot of the service-specific tier. *)
Record ServiceSlot := mkServiceSlot {
  sa_id : Id;
  sa_service_id : string;
  sa_date_id : Id;
  sa_time : string;
  sa_is_available : bool
}.

(** [appointments]. *)
Record Appointment := mkAppointment {
  ap_client_name : string;
  ap_service_id : string;
  ap_date : string;
  ap_time : string;
  ap_status : string
}.

(** [Service], as far as the two components read it. *)
Record Service := mkService { sv_id : string; sv_name : string }.

Record Db := mkDb {
  available_dates : list DateRecord;
  available_times : list GeneralSlot;
  service_availability : list ServiceSlot;
  appointments : list Appointment;
  services_table : list Service
}.

Definition with_available_times (f : list GeneralSlot -> list GeneralSlot)
    (d : Db) : Db :=
  mkDb (available_dates d) (f (available_times d)) (service_availability d)
       (appointments d) (services_table d).

Definition with_service_availability (f : list ServiceSlot -> list ServiceSlot)
    (d : Db) : Db :=
  mkDb (available_dates d) (available_times d) (f (service_availability d))
       (appointments d) (services_table d).

Definition with_available_dates (f : list DateRecord -> list DateRecord)
    (d : Db) : Db :=
  mkDb (f (available_dates d)) (available_times d) (service_availability d)
       (appointments d) (services_table d).

Definition with_appointments (f : list Appointment -> list Appointment)
    (d : Db) : Db :=
  mkDb (available_dates d) (available_times d) (service_availability d)
       (f (appointments d)) (services_table d).

(** The store allocates the primary key of an inserted row. *)
Definition fresh_id (ids : list Id) : Id := S (list_max ids).

(** [.maybeSingle()]: the row when exactly one row matches; [null] when none
    does, and also when several do (the error is in a field the callers do not
    read). *)
Definition maybeSingle {A : Type} (rows : list A) : option A :=
  match rows with
  | [r] => Some r
  | _ => None
  end.

(** ** Component state *)

(** [formData]. *)
Record FormData := mkFormData {
  fd_name : string;
  fd_service : string;
  fd_date : string;
  fd_time : string
}.

(** A row as [TimeSelector] receives it: [{ time, is_available }]. *)
Definition TimeRow : Type := string * bool.

(** The text of [serviceSuggestion], before it is rendered in Portuguese:
    [''], "<service> disponivel no dia <date> as <time>", or
    "<service> selecionado. Escolha uma data ...". *)
Inductive Suggestion :=
| NoSuggestion
| EarliestSlot (serviceName date time : string)
| PickADate (serviceName : string).

Record FormState := mkForm {
  availableTimes : list TimeRow;
  loadingTimes : bool;
  selectedTime : string;
  serviceSuggestion : Suggestion;
  availableDates : list string;
  hasServiceConfigurationState : bool;
  submitting : bool
}.

(** A row of the manager's [serviceAvailability] list. *)
Record ManagedTime := mkManaged {
  mt_id : Id;
  mt_time : string;
  mt_is_available : bool;
  mt_service_name : string
}.

Record ManagerState := mkManager {
  timeInput : string;
  loading : bool;
  errorMessage : string;
  successMessage : string;
  serviceAvailabilityList : list ManagedTime
}.

(** What a handler does besides writing state and the store. *)
Inductive Effect :=
| consoleLog (label : string)
| consoleError (label : string)
| alert (message : string)
| onSubmit (data : FormData).

(** ** The world and the handler monad *)

(** How one awaited store call ends: with data, with [{ data: null, error }],
    or with a rejected promise. *)
Inductive Outcome := Fulfilled | ErrorResult | Rejected.

Record World := mkWorld {
  db : Db;
  now : Z;
  schedule : list Outcome;
  journal : list Outcome;
  effects : list Effect;
  form : FormState;
  manager : ManagerState
}.

Inductive Res (A : Type) :=
| Val (a : A)
| Thrown (message : string).
Arguments Val {A} a.
Arguments Thrown {A} message.

Definition M (A : Type) : Type := World -> Res A * World.

Definition ret {A : Type} (a : A) : M A := fun w => (Val a, w).

Definition bind {A B : Type} (c : M A) (k : A -> M B) : M B :=
  fun w =>
    match c w with
    | (Val a, w') => k a w'
    | (Thrown e, w') => (Thrown e, w')
    end.

Definition throw {A : Type} (message : string) : M A :=
  fun w => (Thrown message, w).

(** [try { body } catch (error) { handler }]. *)
Definition try_catch {A : Type} (body : M A) (handler : string -> M A) : M A :=
  fun w =>
    match body w with
    | (Val a, w') => (Val a, w')
    | (Thrown e, w') => handler e w'
    end.

(** [... finally { cleanup }]. *)
Definition finally {A : Type} (body : M A) (cleanup : M unit) : M A :=
  fun w =>
    let '(r, w') := body w in
    let '(_, w'') := cleanup w' in
    (r, w'').

Declare Scope handler_scope.
Delimit Scope handler_scope with handler.
Notation "x <- c ;; k" := (bind c (fun x => k))
  (at level 61, c at next level, right associativity) : handler_scope.
Notation "c ;; k" := (bind c (fun _ => k))
  (at level 61, right associativity) : handler_scope.
Local Open Scope handler_scope.

Definition modify (f : World -> World) : M unit := fun w => (Val tt, f w).

Definition with_db (f : Db -> Db) (w : World) : World :=
  mkWorld (f (db w)) (now w) (schedule w) (journal w) (effects w)
          (form w) (manager w).

Definition with_form (f : FormState -> FormState) (w : World) : World :=
  mkWorld (db w) (now w) (schedule w) (journal w) (effects w)
          (f (form w)) (manager w).

Definition with_manager (f : ManagerState -> ManagerState) (w : World) : World :=
  mkWorld (db w) (now w) (schedule w) (journal w) (effects w)
          (form w) (f (manager w)).

Definition emit (e : Effect) : M unit :=
  modify (fun w =>
    mkWorld (db w) (now w) (schedule w) (journal w) (effects w ++ [e])
            (form w) (manager w)).

(** [new Date().toISOString().split('T')[0]]. *)
Definition today : M string := fun w => (Val (toISODate (now w)), w).

(** The outcome of the next store call: the head of the schedule, [Fulfilled]
    once the schedule is used up. Every call is entered in the journal. *)
Definition next_outcome (w : World) : Outcome * World :=
  let o := match schedule w with [] => Fulfilled | o :: _ => o end in
  (o, mkWorld (db w) (now w) (tl (schedule w)) (journal w ++ [o]) (effects w)
              (form w) (manager w)).

Definition fetch_error : string := "Failed to fetch".

(** A read: [const { data } = await supabase.from(...).select(...)...]. *)
Definition select {A : Type} (query : Db -> A) : M (option A) :=
  fun w =>
    let '(o, w') := next_outcome w in
    match o with
    | Fulfilled => (Val (Some (query (db w'))), w')
    | ErrorResult => (Val None, w')
    | Rejected => (Thrown fetch_error, w')
    end.

(** A read ended by [.maybeSingle()]. *)
Definition selectMaybeSingle {A : Type} (query : Db -> list A) : M (option A) :=
  fun w =>
    let '(o, w') := next_outcome w in
    match o with
    | Fulfilled => (Val (maybeSingle (query (db w'))), w')
    | ErrorResult => (Val None, w')
    | Rejected => (Thrown fetch_error, w')
    end.

(** A write: [const { error } = await supabase.from(...).update/insert/delete].
    The result is the [error] field: [true] when the store reported one, in
    which case nothing was written. *)
Definition mutate (change : Db -> Db) : M bool :=
  fun w =>
    let '(o, w') := next_outcome w in
    match o with
    | Fulfilled => (Val false, with_db change w')
    | ErrorResult => (Val true, w')
    | Rejected => (Thrown fetch_error, w')
    end.

(** [insert([row]).select().single()]: the inserted row comes back as [data]. *)
Definition insertReturning {A : Type} (row : Db -> A)
    (change : A -> Db -> Db) : M (option A * bool) :=
  fun w =>
    let '(o, w') := next_outcome w in
    match o with
    | Fulfilled =>
        let r := row (db w') in (Val (Some r, false), with_db (change r) w')
    | ErrorResult => (Val (None, true), w')
    | Rejected => (Thrown fetch_error, w')
    end.

(** ** State setters of the booking form *)

Definition setAvailableTimes (v : list TimeRow) : M unit :=
  modify (with_form (fun f =>
    mkForm v (loadingTimes f) (selectedTime f) (serviceSuggestion f)
           (availableDates f) (hasServiceConfigurationState f) (submitting f))).

Definition setLoadingTimes (v : bool) : M unit :=
  modify (with_form (fun f =>
    mkForm (availableTimes f) v (selectedTime f) (serviceSuggestion f)
           (availableDates f) (hasServiceConfigurationState f) (submitting f))).

Definition setSelectedTime (v : string) : M unit :=
  modify (with_form (fun f =>
    mkForm (availableTimes f) (loadingTimes f) v (serviceSuggestion f)
           (availableDates f) (hasServiceConfigurationState f) (submitting f))).

Definition setServiceSuggestion (v : Suggestion) : M unit :=
  modify (with_form (fun f =>
    mkForm (availableTimes f) (loadingTimes f) (selectedTime f) v
           (availableDates f) (hasServiceConfigurationState f) (submitting f))).

Definition setAvailableDates (v : list string) : M unit :=
  modify (with_form (fun f =>
    mkForm (availableTimes f) (loadingTimes f) (selectedTime f)
           (serviceSuggestion f) v (hasServiceConfigurationState f)
           (submitting f))).

Definition setHasServiceConfiguration (v : bool) : M unit :=
  modify (with_form (fun f =>
    mkForm (availableTimes f) (loadingTimes f) (selectedTime f)
           (serviceSuggestion f) (availableDates f) v (submitting f))).

Definition setSubmitting (v : bool) : M unit :=
  modify (with_form (fun f =>
    mkForm (availableTimes f) (loadingTimes f) (selectedTime f)
           (serviceSuggestion f) (availableDates f)
           (hasServiceConfigurationState f) v)).

(** ** Queries of the booking form *)

(** [from('available_dates').select('id').eq('date', date)]. *)
Definition dates_with_date (date : string) (d : Db) : list DateRecord :=
  filter (fun r => String.eqb (ad_date r) date) (available_dates d).

(** [from('service_availability').select('id').eq('service_id', s).limit(1)]. *)
Definition service_config_probe (serviceId : string) (d : Db) : list Id :=
  firstn 1 (map sa_id
    (filter (fun r => String.eqb (sa_service_id r) serviceId)
            (service_availability d))).

(** The [available_dates!inner(date)] embedding: the date rows a slot row
    points to; a slot row without one is dropped by the inner join. *)
Definition joined_dates (r : ServiceSlot) (d : Db) : list DateRecord :=
  filter (fun a => Nat.eqb (ad_id a) (sa_date_id r)) (available_dates d).

(** The dates of the available slot rows of a service. *)
Definition service_dates_query (serviceId : string) (d : Db) : list string :=
  flat_map (fun r => map ad_date (joined_dates r d))
    (filter (fun r => String.eqb (sa_service_id r) serviceId
                      && Bool.eqb (sa_is_available r) true)
            (service_availability d)).

(** [from('available_dates').select('date').order('date')]. *)
Definition general_dates_query (d : Db) : list string :=
  sort_by str_leb (map ad_date (available_dates d)).

(** The (date, time) of the available slot rows of a service whose date is
    not before [todayDate] ([gte('available_dates.date', today)]). *)
Definition qualifying_slots (serviceId todayDate : string) (d : Db) :
    list (string * string) :=
  flat_map (fun r =>
      map (fun a => (ad_date a, sa_time r))
          (filter (fun a => str_geb (ad_date a) todayDate) (joined_dates r d)))
    (filter (fun r => String.eqb (sa_service_id r) serviceId
                      && Bool.eqb (sa_is_available r) true)
            (service_availability d)).

(** The suggestion scan: [.limit(100)] of the qualifying rows. *)
Definition suggestion_query (serviceId todayDate : string) (d : Db) :
    list (string * string) :=
  firstn 100 (qualifying_slots serviceId todayDate d).

Definition service_time_le (a b : ServiceSlot) : bool :=
  str_leb (sa_time a) (sa_time b).

Definition general_time_le (a b : GeneralSlot) : bool :=
  str_leb (at_time a) (at_time b).

(** Available slot rows of one service on one date, [order('time')]. *)
Definition service_times_query (serviceId : string) (dateId : Id) (d : Db) :
    list TimeRow :=
  map (fun r => (sa_time r, sa_is_available r))
    (sort_by service_time_le
      (filter (fun r => String.eqb (sa_service_id r) serviceId
                        && Nat.eqb (sa_date_id r) dateId
                        && Bool.eqb (sa_is_available r) true)
              (service_availability d))).

(** Available general rows of one date, [order('time')]. *)
Definition general_times_query (dateId : Id) (d : Db) : list TimeRow :=
  map (fun r => (at_time r, at_is_available r))
    (sort_by general_time_le
      (filter (fun r => Nat.eqb (at_date_id r) dateId
                        && Bool.eqb (at_is_available r) true)
              (available_times d))).

(** [from('service_availability').select('time').eq('date_id', id)]: the times
    of every slot row of the date, whatever the service and the flag. *)
Definition all_service_times_query (dateId : Id) (d : Db) : list string :=
  map sa_time
    (filter (fun r => Nat.eqb (sa_date_id r) dateId) (service_availability d)).

(** [new Set(times).has(t)]. *)
Definition set_has (times : list string) (t : string) : bool :=
  existsb (String.eqb t) times.

Definition or_empty {A : Type} (data : option (list A)) : list A :=
  match data with Some l => l | None => [] end.

(** ** The booking form: dates *)

Definition fetchAvailableDatesForService (serviceId : string) : M unit :=
  try_catch
    (serviceAvailabilityData <- select (service_dates_query serviceId) ;;
     let serviceDates := or_empty serviceAvailabilityData in
     todayDate <- today ;;
     let futureDates := filter (fun date => str_geb date todayDate) serviceDates in
     setAvailableDates (sort_by str_leb futureDates))
    (fun _ =>
       emit (consoleError "Error fetching available dates for service:") ;;
       setAvailableDates []).

Definition fetchGeneralAvailableDates : M unit :=
  try_catch
    (generalDatesData <- select general_dates_query ;;
     let generalDates := or_empty generalDatesData in
     todayDate <- today ;;
     let futureDates := filter (fun date => str_geb date todayDate) generalDates in
     setAvailableDates (sort_by str_leb futureDates))
    (fun _ =>
       emit (consoleError "Error fetching general available dates:") ;;
       setAvailableDates []).

(** ** The booking form: suggestion *)

(** The comparator given to [sort]:
    [const dateComparison = a.date.localeCompare(b.date);
     if (dateComparison !== 0) return dateComparison;
     return a.time.localeCompare(b.time)].
    [localeCompare] is the collation of the locale the browser runs in; its
    sign is all the comparator uses. *)
Definition slot_compare (localeCompare : string -> string -> comparison)
    (a b : string * string) : comparison :=
  match localeCompare (fst a) (fst b) with
  | Eq => localeCompare (snd a) (snd b)
  | c => c
  end.

(** [sort] places [a] before [b] unless the comparator is positive. *)
Definition slot_le (localeCompare : string -> string -> comparison)
    (a b : string * string) : bool :=
  match slot_compare localeCompare a b with Gt => false | _ => true end.

(** [services.find(s => s.id === serviceId)?.name || 'Serviço']. *)
Definition serviceNameOf (services : list Service) (serviceId : string) : string :=
  match find (fun s => String.eqb (sv_id s) serviceId) services with
  | Some s => if falsy (sv_name s) then "Serviço" else sv_name s
  | None => "Serviço"
  end.

(** [hasServiceConfiguration] is the value the render closure captured. *)
Definition generateServiceSuggestion
    (localeCompare : string -> string -> comparison) (services : list Service)
    (hasServiceConfiguration : bool) (serviceId : string) : M unit :=
  try_catch
    (let serviceName := serviceNameOf services serviceId in
     if negb hasServiceConfiguration then ret tt
     else
       todayDate <- today ;;
       serviceAvailabilityData <- select (suggestion_query serviceId todayDate) ;;
       match serviceAvailabilityData with
       | Some (item :: items) =>
           let sortedData := sort_by (slot_le localeCompare) (item :: items) in
           let earliestSlot := hd item sortedData in
           setServiceSuggestion
             (EarliestSlot serviceName (fst earliestSlot) (snd earliestSlot))
       | _ => setServiceSuggestion (PickADate serviceName)
       end)
    (fun _ =>
       emit (consoleError "Error generating service suggestion:") ;;
       setServiceSuggestion NoSuggestion).

Definition checkServiceConfiguration
    (localeCompare : string -> string -> comparison) (services : list Service)
    (hasServiceConfiguration : bool) (serviceId : string) : M unit :=
  try_catch
    (serviceConfig <- select (service_config_probe serviceId) ;;
     let hasConfig :=
       match serviceConfig with Some (_ :: _) => true | _ => false end in
     setHasServiceConfiguration hasConfig ;;
     if hasConfig then
       fetchAvailableDatesForService serviceId ;;
       generateServiceSuggestion localeCompare services hasServiceConfiguration
                                 serviceId
     else
       fetchGeneralAvailableDates ;;
       setServiceSuggestion NoSuggestion)
    (fun _ =>
       emit (consoleError "Error checking service configuration:") ;;
       setHasServiceConfiguration false ;;
       setAvailableDates [] ;;
       setServiceSuggestion NoSuggestion).

(** ** The booking form: times *)

Definition fetchServiceSpecificTimes (date serviceId : string) : M unit :=
  finally
    (try_catch
       (setLoadingTimes true ;;
        setSelectedTime "" ;;
        dateData <- selectMaybeSingle (dates_with_date date) ;;
        match dateData with
        | Some dateRow =>
            serviceConfig <- select (service_config_probe serviceId) ;;
            match serviceConfig with
            | Some (_ :: _) =>
                serviceTimesData <-
                  select (service_times_query serviceId (ad_id dateRow)) ;;
                setAvailableTimes (or_empty serviceTimesData)
            | _ =>
                generalTimesData <- select (general_times_query (ad_id dateRow)) ;;
                match generalTimesData with
                | Some generalTimes =>
                    allServiceTimes <-
                      select (all_service_times_query (ad_id dateRow)) ;;
                    let serviceSpecificTimes := or_empty allServiceTimes in
                    let availableGeneralTimes :=
                      filter (fun time => negb (set_has serviceSpecificTimes (fst time)))
                             generalTimes in
                    setAvailableTimes availableGeneralTimes
                | None => setAvailableTimes []
                end
            end
        | None => setAvailableTimes []
        end)
       (fun _ =>
          emit (consoleError "Error fetching service-specific times:") ;;
          setAvailableTimes []))
    (setLoadingTimes false).

Definition fetchAvailableTimes (date : string) : M unit :=
  finally
    (try_catch
       (setLoadingTimes true ;;
        setSelectedTime "" ;;
        dateData <- selectMaybeSingle (dates_with_date date) ;;
        match dateData with
        | Some dateRow =>
            timesData <- select (general_times_query (ad_id dateRow)) ;;
            match timesData with
            | Some times =>
                allServiceTimes <-
                  select (all_service_times_query (ad_id dateRow)) ;;
                let serviceSpecificTimes := or_empty allServiceTimes in
                let availableGeneralTimes :=
                  filter (fun time => negb (set_has serviceSpecificTimes (fst time)))
                         times in
                setAvailableTimes availableGeneralTimes
            | None => setAvailableTimes []
            end
        | None => setAvailableTimes []
        end)
       (fun _ =>
          emit (consoleError "Error fetching times:") ;;
          setAvailableTimes []))
    (setLoadingTimes false).

(** ** The booking form: submission *)

Definition appointment_of (formData : FormData) : Appointment :=
  mkAppointment (fd_name formData) (fd_service formData) (fd_date formData)
                (fd_time formData) "pending".

(** [from('service_availability').select('id').eq('service_id', s)
    .eq('date_id', id).eq('time', t)]. *)
Definition service_slot_lookup (serviceId : string) (dateId : Id)
    (time : string) (d : Db) : list ServiceSlot :=
  filter (fun r => String.eqb (sa_service_id r) serviceId
                   && Nat.eqb (sa_date_id r) dateId
                   && String.eqb (sa_time r) time)
         (service_availability d).

(** A row with its [is_available] column set. *)
Definition service_slot_flagged (v : bool) (r : ServiceSlot) : ServiceSlot :=
  mkServiceSlot (sa_id r) (sa_service_id r) (sa_date_id r) (sa_time r) v.

Definition general_slot_flagged (v : bool) (r : GeneralSlot) : GeneralSlot :=
  mkGeneral (at_id r) (at_date_id r) (at_time r) v.

(** [update({ is_available: v }).eq('id', id)] on [service_availability]. *)
Definition set_service_available (id : Id) (v : bool) : Db -> Db :=
  with_service_availability
    (map (fun r => if Nat.eqb (sa_id r) id then service_slot_flagged v r else r)).

(** [update({ is_available: false }).eq('date_id', id).eq('time', t)] on
    [available_times]. *)
Definition set_general_unavailable (dateId : Id) (time : string) : Db -> Db :=
  with_available_times
    (map (fun r =>
       if Nat.eqb (at_date_id r) dateId && String.eqb (at_time r) time
       then general_slot_flagged false r
       else r)).

Definition storage_error_message : string := "storage error".

Definition handleSubmit (formData : FormData) : M unit :=
  if falsy (fd_name formData) || falsy (fd_service formData)
     || falsy (fd_date formData) || falsy (fd_time formData)
  then emit (alert "Por favor, preencha todos os campos obrigatórios")
  else
    setSubmitting true ;;
    finally
      (try_catch
         (emit (consoleLog "Form data:") ;;
          inserted <- insertReturning (fun _ => appointment_of formData)
                        (fun row => with_appointments (fun l => l ++ [row])) ;;
          let '(appointmentData, appointmentError) := inserted in
          (if appointmentError then
             emit (consoleError "Error creating appointment:") ;;
             throw ("Erro ao criar agendamento: " ++ storage_error_message)
           else ret tt) ;;
          emit (consoleLog "Appointment created successfully:") ;;
          match appointmentData with
          | Some _ =>
              dateData <- selectMaybeSingle (dates_with_date (fd_date formData)) ;;
              match dateData with
              | Some dateRow =>
                  serviceAvailability <-
                    selectMaybeSingle
                      (service_slot_lookup (fd_service formData) (ad_id dateRow)
                                           (fd_time formData)) ;;
                  match serviceAvailability with
                  | Some slot =>
                      updateServiceError <-
                        mutate (set_service_available (sa_id slot) false) ;;
                      if updateServiceError
                      then emit (consoleError "Error updating service availability:")
                      else ret tt
                  | None =>
                      updateError <-
                        mutate (set_general_unavailable (ad_id dateRow)
                                                        (fd_time formData)) ;;
                      if updateError
                      then emit (consoleError "Error updating time availability:")
                      else ret tt
                  end
              | None => ret tt
              end
          | None => ret tt
          end ;;
          emit (onSubmit formData))
         (fun message =>
            emit (consoleError "Error in appointment submission:") ;;
            emit (alert message)))
      (setSubmitting false).

(** ** The availability manager *)

Definition setTime (v : string) : M unit :=
  modify (with_manager (fun m =>
    mkManager v (loading m) (errorMessage m) (successMessage m)
              (serviceAvailabilityList m))).

Definition setLoading (v : bool) : M unit :=
  modify (with_manager (fun m =>
    mkManager (timeInput m) v (errorMessage m) (successMessage m)
              (serviceAvailabilityList m))).

Definition setError (v : string) : M unit :=
  modify (with_manager (fun m =>
    mkManager (timeInput m) (loading m) v (successMessage m)
              (serviceAvailabilityList m))).

Definition setSuccess (v : string) : M unit :=
  modify (with_manager (fun m =>
    mkManager (timeInput m) (loading m) (errorMessage m) v
              (serviceAvailabilityList m))).

Definition setServiceAvailability (v : list ManagedTime) : M unit :=
  modify (with_manager (fun m =>
    mkManager (timeInput m) (loading m) (errorMessage m) (successMessage m) v)).

(** The slot rows of (service, date) with the name of their service
    ([services!inner(name)]), [order('time')]. *)
Definition managed_times_query (serviceId : string) (dateId : Id) (d : Db) :
    list ManagedTime :=
  flat_map (fun r =>
      map (fun s => mkManaged (sa_id r) (sa_time r) (sa_is_available r) (sv_name s))
          (filter (fun s => String.eqb (sv_id s) (sa_service_id r))
                  (services_table d)))
    (sort_by service_time_le
      (filter (fun r => String.eqb (sa_service_id r) serviceId
                        && Nat.eqb (sa_date_id r) dateId)
              (service_availability d))).

Definition fetchServiceAvailability (selectedService selectedDate : string) :
    M unit :=
  try_catch
    (dateData <- selectMaybeSingle (dates_with_date selectedDate) ;;
     match dateData with
     | Some dateRow =>
         availability <-
           select (managed_times_query selectedService (ad_id dateRow)) ;;
         setServiceAvailability (or_empty availability)
     | None => setServiceAvailability []
     end)
    (fun _ =>
       emit (consoleError "Error fetching service availability:") ;;
       setServiceAvailability []).

(** [from('available_times').select('id').eq('date_id', id).eq('time', t)]. *)
Definition general_slot_lookup (dateId : Id) (time : string) (d : Db) :
    list GeneralSlot :=
  filter (fun r => Nat.eqb (at_date_id r) dateId && String.eqb (at_time r) time)
         (available_times d).

Definition delete_general (id : Id) : Db -> Db :=
  with_available_times (filter (fun r => negb (Nat.eqb (at_id r) id))).

Definition delete_service_slot (id : Id) : Db -> Db :=
  with_service_availability (filter (fun r => negb (Nat.eqb (sa_id r) id))).

Definition insert_general (dateId : Id) (time : string) : Db -> Db :=
  with_available_times (fun l =>
    l ++ [mkGeneral (fresh_id (map at_id l)) dateId time true]).

Definition insert_service_slot (serviceId : string) (dateId : Id)
    (time : string) : Db -> Db :=
  with_service_availability (fun l =>
    l ++ [mkServiceSlot (fresh_id (map sa_id l)) serviceId dateId time true]).

Definition removeFromGeneralAvailability (dateId : Id) (timeToRemove : string) :
    M unit :=
  try_catch
    (generalTime <- selectMaybeSingle (general_slot_lookup dateId timeToRemove) ;;
     match generalTime with
     | Some row =>
         deleteError <- mutate (delete_general (at_id row)) ;;
         if deleteError
         then emit (consoleError "Error removing from general availability:")
         else setSuccess ("Horário " ++ timeToRemove
                          ++ " removido dos horários gerais automaticamente")
     | None => ret tt
     end)
    (fun _ => emit (consoleError "Error removing from general availability:")).

(** The part of [handleAddTime] after the date entry is known; on a duplicate
    the handler sets the error and returns. *)
Definition addTimeForDate (selectedService selectedDate time : string)
    (dateId : Id) : M unit :=
  existingTime <-
    selectMaybeSingle (service_slot_lookup selectedService dateId time) ;;
  match existingTime with
  | Some _ => setError "Este horário já está cadastrado para este serviço"
  | None =>
      timeError <- mutate (insert_service_slot selectedService dateId time) ;;
      (if timeError then throw storage_error_message else ret tt) ;;
      removeFromGeneralAvailability dateId time ;;
      fetchServiceAvailability selectedService selectedDate ;;
      setTime "" ;;
      setSuccess "Horário adicionado com sucesso!"
  end.

Definition handleAddTime (selectedService selectedDate time : string) : M unit :=
  if falsy selectedService || falsy selectedDate || falsy time
  then setError "Selecione um serviço, data e horário"
  else
    setLoading true ;;
    setError "" ;;
    setSuccess "" ;;
    finally
      (try_catch
         (existingDate <- selectMaybeSingle (dates_with_date selectedDate) ;;
          match existingDate with
          | Some dateRow =>
              addTimeForDate selectedService selectedDate time (ad_id dateRow)
          | None =>
              inserted <-
                insertReturning
                  (fun d => mkDate (fresh_id (map ad_id (available_dates d)))
                                   selectedDate)
                  (fun row => with_available_dates (fun l => l ++ [row])) ;;
              match inserted with
              | (Some newDate, false) =>
                  addTimeForDate selectedService selectedDate time (ad_id newDate)
              | _ => throw storage_error_message
              end
          end)
         (fun message => setError message))
      (setLoading false).

(** [confirmed] is the operator's answer to the [confirm(...)] dialog. *)
Definition handleRemoveTime (confirmed : bool)
    (selectedService selectedDate : string)
    (timeId : Id) (timeValue : string) : M unit :=
  if negb confirmed then ret tt
  else
    finally
      (try_catch
         (setLoading true ;;
          setError "" ;;
          setSuccess "" ;;
          mutate (delete_service_slot timeId) ;;
          dateData <- selectMaybeSingle (dates_with_date selectedDate) ;;
          match dateData with
          | Some dateRow =>
              existingGeneral <-
                selectMaybeSingle (general_slot_lookup (ad_id dateRow) timeValue) ;;
              match existingGeneral with
              | Some _ => ret tt
              | None =>
                  mutate (insert_general (ad_id dateRow) timeValue) ;;
                  ret tt
              end
          | None => ret tt
          end ;;
          fetchServiceAvailability selectedService selectedDate ;;
          setSuccess "Horário removido e adicionado de volta aos horários gerais")
         (fun message => setError message))
      (setLoading false).

Definition handleToggleAvailability (selectedService selectedDate : string)
    (timeId : Id) (currentAvailability : bool) : M unit :=
  finally
    (try_catch
       (setLoading true ;;
        setError "" ;;
        setSuccess "" ;;
        updateError <-
          mutate (set_service_available timeId (negb currentAvailability)) ;;
        (if updateError then throw storage_error_message else ret tt) ;;
        fetchServiceAvailability selectedService selectedDate ;;
        setSuccess (if negb currentAvailability
                    then "Horário ativado com sucesso"
                    else "Horário desativado com sucesso"))
       (fun message => setError message))
    (setLoading false).

(** ** The operations the callers see *)

Definition initialForm : FormState := mkForm [] false "" NoSuggestion [] false false.

Definition initialManager : ManagerState := mkManager "" false "" "" [].

(** A world in which the store answers every call ([schedule] is empty). *)
Definition quiet_world (d : Db) (clock : Z) : World :=
  mkWorld d clock [] [] [] initialForm initialManager.

Definition exec {A : Type} (c : M A) (w : World) : World := snd (c w).

(** [slotsFor(service, date)]: what the form offers once both are selected. *)
Definition slotsFor (serviceId date : string) (w : World) : list TimeRow :=
  availableTimes (form (exec (fetchServiceSpecificTimes date serviceId) w)).

(** [datesFor(service)]: the dates the form offers once a service is selected. *)
Definition datesFor (localeCompare : string -> string -> comparison)
    (services : list Service) (hasServiceConfiguration : bool)
    (serviceId : string) (w : World) : list string :=
  availableDates
    (form (exec (checkServiceConfiguration localeCompare services
                   hasServiceConfiguration serviceId) w)).

(** [suggest(service)]. *)
Definition suggest (localeCompare : string -> string -> comparison)
    (services : list Service) (hasServiceConfiguration : bool)
    (serviceId : string) (w : World) : Suggestion :=
  serviceSuggestion
    (form (exec (generateServiceSuggestion localeCompare services
                   hasServiceConfiguration serviceId) w)).

(** [hasConfiguration(service)]: some slot row of the service exists. *)
Definition hasConfiguration (serviceId : string) (d : Db) : bool :=
  existsb (fun r => String.eqb (sa_service_id r) serviceId)
          (service_availability d).

(** [book] reports success by calling [onSubmit]. *)
Definition is_onSubmit (e : Effect) : bool :=
  match e with onSubmit _ => true | _ => false end.

Definition book_succeeded (before after : World) : bool :=
  existsb is_onSubmit (skipn (List.length (effects before)) (effects after)).

(** ** The general tier as the specification words it *)

(** A time is claimed on a date when some slot row of that date, of whatever
    service and flag, carries it. *)
Definition claimed (dateId : Id) (time : string) (d : Db) : bool :=
  existsb (fun s => Nat.eqb (sa_date_id s) dateId && String.eqb (sa_time s) time)
          (service_availability d).

(** The available general rows of a date whose time no service claims. *)
Definition open_general_rows (dateId : Id) (d : Db) : list GeneralSlot :=
  filter (fun r => Nat.eqb (at_date_id r) dateId
                   && at_is_available r
                   && negb (claimed dateId (at_time r) d))
         (available_times d).

Definition time_row_le (a b : TimeRow) : bool := str_leb (fst a) (fst b).

(** ** Example stores *)

(** One date; the service [corte] owns 09:00 there, and the general tier
    lists 09:00 and 10:00 as available. *)
Definition salon_db : Db :=
  mkDb [mkDate 1 "2026-11-10"]
       [mkGeneral 1 1 "09:00" true; mkGeneral 2 1 "10:00" true]
       [mkServiceSlot 1 "corte" 1 "09:00" true]
       []
       [mkService "corte" "Corte"; mkService "barba" "Barba"].

(** 2026-11-01T12:00:00Z. *)
Definition noon_utc : Z := 1793534400000.

(** ** Observing a booking *)

(** The four required fields are present. *)
Definition valid_form (formData : FormData) : bool :=
  negb (falsy (fd_name formData) || falsy (fd_service formData)
        || falsy (fd_date formData) || falsy (fd_time formData)).

(** The effects a handler added. *)
Definition new_effects (before after : World) : list Effect :=
  skipn (List.length (effects before)) (effects after).

(** Anything a caller or operator could notice as a warning or an error. *)
Definition is_signal (e : Effect) : bool :=
  match e with
  | consoleError _ | alert _ => true
  | consoleLog _ | onSubmit _ => false
  end.

(** Rows whose flag went from available to unavailable. Updates keep the
    rows of a table in place, so the tables are compared position by
    position. *)
Definition general_flips (before after : Db) : nat :=
  List.length
    (filter (fun p => at_is_available (fst p) && negb (at_is_available (snd p)))
            (combine (available_times before) (available_times after))).

Definition service_flips (before after : Db) : nat :=
  List.length
    (filter (fun p => sa_is_available (fst p) && negb (sa_is_available (snd p)))
            (combine (service_availability before) (service_availability after))).

Definition slot_flips (before after : Db) : nat :=
  general_flips before after + service_flips before after.

Definition ana_at_eleven : FormData :=
  mkFormData "Ana" "barba" "2026-11-10" "11:00".

Definition ana_at_nine : FormData :=
  mkFormData "Ana" "corte" "2026-11-10" "09:00".

(** ** Observing the general tier *)

(** How many general rows a (date, time) has. *)
Definition general_count (dateId : Id) (time : string) (d : Db) : nat :=
  List.length (general_slot_lookup dateId time d).

(** How often a list of offered times carries [time]. *)
Definition times_offered (time : string) (rows : list TimeRow) : nat :=
  List.length (filter (fun row => String.eqb (fst row) time) rows).

(** Two general rows for 09:00 on the one date, next to the slot of [corte]. *)
Definition doubled_db : Db :=
  mkDb [mkDate 1 "2026-11-10"]
       [mkGeneral 1 1 "09:00" true; mkGeneral 2 1 "09:00" true]
       [mkServiceSlot 1 "corte" 1 "09:00" true]
       []
       [mkService "corte" "Corte"; mkService "barba" "Barba"].

(** The general row for 09:00 exists and is unavailable. *)
Definition closed_general_db : Db :=
  mkDb [mkDate 1 "2026-11-10"]
       [mkGeneral 1 1 "09:00" false]
       [mkServiceSlot 1 "corte" 1 "09:00" true]
       []
       [mkService "corte" "Corte"; mkService "barba" "Barba"].

(** A date with a record and no slot of either tier. *)
Definition empty_day_db : Db :=
  mkDb [mkDate 1 "2026-11-10"] [] [] [] [mkService "corte" "Corte"].

(** ** Example clocks *)

(** 2026-11-01T23:30:00Z, which is 08:30 on 2 November in a zone nine hours
    east of UTC. *)
Definition late_evening_utc : Z := 1793575800000.

Definition nine_hours_east : Z := 540.

(** The service [corte] has an available time on 1 November 2026; [barba]
    has no time of its own. *)
Definition november_db : Db :=
  mkDb [mkDate 1 "2026-11-01"; mkDate 2 "2026-11-03"]
       [mkGeneral 1 1 "09:00" true]
       [mkServiceSlot 1 "corte" 1 "10:00" true]
       []
       [mkService "corte" "Corte"; mkService "barba" "Barba"].

(** ** Observing the suggestion *)

(** What [sort] needs of the comparator it is given, and what every
    collation provides: comparing the other way round gives the opposite
    sign, and "not after" is transitive. *)
Definition consistent_collation
    (localeCompare : string -> string -> comparison) : Prop :=
  (forall a b, localeCompare b a = CompOpp (localeCompare a b))
  /\ (forall a b c, localeCompare a b <> Gt -> localeCompare b c <> Gt ->
                    localeCompare a c <> Gt).

(** The instants from 1970 to 9999. For them [toISOString] writes the year
    with four digits, so that today is a [YYYY-MM-DD] text like the dates the
    store returns, and the store's comparison of dates ([gte]) is the
    comparison of these texts. *)
Definition four_digit_year (clock : Z) : Prop :=
  (0 <= clock < 253402300800000)%Z.

(** The collation used in the examples: the order of the code units, which
    is a consistent collation. *)
Definition code_unit_compare : string -> string -> comparison := String.compare.

(** 2026-11-01T23:59:59.999Z and 2026-11-02T00:00:00.000Z. *)
Definition last_instant_of_day : Z := 1793577599999.

Definition midnight_utc : Z := 1793577600000.

(** ** Observing the date catalog *)

(** Ascending, and no date before [todayDate]. *)
Definition dates_ok (todayDate : string) (dates : list string) : Prop :=
  ascending str_leb dates
  /\ forall date, In date dates -> str_leb todayDate date = true.

(** ** Observing storage errors *)

(** A world whose store ends its next calls as [outcomes] says. *)
Definition scheduled_world (d : Db) (clock : Z) (outcomes : list Outcome) : World :=
  mkWorld d clock outcomes [] [] initialForm initialManager.

(** The outcomes of the store calls a handler made. *)
Definition new_journal (before after : World) : list Outcome :=
  skipn (List.length (journal before)) (journal after).

Definition is_rejected (o : Outcome) : bool :=
  match o with Rejected => true | _ => false end.

Definition is_failure (o : Outcome) : bool :=
  match o with Fulfilled => false | _ => true end.

(** Some store call of the handler threw (its promise was rejected). *)
Definition rejected_during (before after : World) : bool :=
  existsb is_rejected (new_journal before after).

(** Some store call of the handler failed, by throwing or by reporting an
    error in its result object. *)
Definition failed_during (before after : World) : bool :=
  existsb is_failure (new_journal before after).

(** The handler returned to its caller instead of throwing. *)
Definition returns_normally {A : Type} (c : M A) (w : World) : bool :=
  match fst (c w) with Val _ => true | Thrown _ => false end.

(** ** Observing what a booking reads *)

(** The store with every availability flag overwritten: two stores with the
    same image differ in their flags only. *)
Definition forget_flags (d : Db) : Db :=
  with_available_times (map (general_slot_flagged true))
    (with_service_availability (map (service_slot_flagged true)) d).

(** The writes of a booking all of whose store calls succeed: the
    appointment, then the flag of the slot found. [handleSubmit_quiet] shows
    that this is what [handleSubmit] leaves. *)
Definition booked_db (formData : FormData) (d : Db) : Db :=
  let booked :=
    with_appointments (fun l => l ++ [appointment_of formData]) d in
  match maybeSingle (dates_with_date (fd_date formData) d) with
  | Some dateRow =>
      match maybeSingle (service_slot_lookup (fd_service formData)
                           (ad_id dateRow) (fd_time formData) d) with
      | Some slot => set_service_available (sa_id slot) false booked
      | None => set_general_unavailable (ad_id dateRow) (fd_time formData) booked
      end
  | None => booked
  end.

(** ** Two sessions booking at once

    Each session runs in a browser of its own: it has its own component
    state, console and callbacks, and shares only the store with the other
    one. Between two awaited store calls a handler runs alone; the store
    calls of two sessions interleave in any order. So [handleSubmit] is cut
    at its awaits: a [Pc] names the store call that a suspended booking is
    about to make, [begin] is the code before the first call, and [segment]
    is the code from one call to the next. [handleSubmit_by_segments] runs
    them one after the other, and is [handleSubmit]. *)

Inductive Pc :=
| AtInsert
| AtDateLookup
| AtSlotLookup (dateRow : DateRecord)
| AtServiceUpdate (slot : ServiceSlot)
| AtGeneralUpdate (dateRow : DateRecord)
| Finished.

(** From the entry of [handleSubmit] to the insert. *)
Definition begin (formData : FormData) : M Pc :=
  if falsy (fd_name formData) || falsy (fd_service formData)
     || falsy (fd_date formData) || falsy (fd_time formData)
  then
    emit (alert "Por favor, preencha todos os campos obrigatórios") ;;
    ret Finished
  else
    setSubmitting true ;;
    emit (consoleLog "Form data:") ;;
    ret AtInsert.

(** From the store call at [p] to the next store call, or to the end of the
    [try] block. *)
Definition segment (formData : FormData) (p : Pc) : M Pc :=
  match p with
  | AtInsert =>
      inserted <- insertReturning (fun _ => appointment_of formData)
                    (fun row => with_appointments (fun l => l ++ [row])) ;;
      let '(appointmentData, appointmentError) := inserted in
      (if appointmentError then
         emit (consoleError "Error creating appointment:") ;;
         throw ("Erro ao criar agendamento: " ++ storage_error_message)
       else ret tt) ;;
      emit (consoleLog "Appointment created successfully:") ;;
      match appointmentData with
      | Some _ => ret AtDateLookup
      | None => emit (onSubmit formData) ;; ret Finished
      end
  | AtDateLookup =>
      dateData <- selectMaybeSingle (dates_with_date (fd_date formData)) ;;
      match dateData with
      | Some dateRow => ret (AtSlotLookup dateRow)
      | None => emit (onSubmit formData) ;; ret Finished
      end
  | AtSlotLookup dateRow =>
      serviceAvailability <-
        selectMaybeSingle
          (service_slot_lookup (fd_service formData) (ad_id dateRow)
                               (fd_time formData)) ;;
      match serviceAvailability with
      | Some slot => ret (AtServiceUpdate slot)
      | None => ret (AtGeneralUpdate dateRow)
      end
  | AtServiceUpdate slot =>
      updateServiceError <- mutate (set_service_available (sa_id slot) false) ;;
      (if updateServiceError
       then emit (consoleError "Error updating service availability:")
       else ret tt) ;;
      emit (onSubmit formData) ;;
      ret Finished
  | AtGeneralUpdate dateRow =>
      updateError <-
        mutate (set_general_unavailable (ad_id dateRow) (fd_time formData)) ;;
      (if updateError
       then emit (consoleError "Error updating time availability:")
       else ret tt) ;;
      emit (onSubmit formData) ;;
      ret Finished
  | Finished => ret Finished
  end.

(** A segment where it stands in [handleSubmit]: inside the [try], whose
    [catch] ends the booking with an alert, and before the [finally], which
    runs when the booking ends. *)
Definition resume (formData : FormData) (p : Pc) : M Pc :=
  match p with
  | Finished => ret Finished
  | _ =>
      next <- try_catch (segment formData p)
                (fun message =>
                   emit (consoleError "Error in appointment submission:") ;;
                   emit (alert message) ;;
                   ret Finished) ;;
      match next with
      | Finished => setSubmitting false ;; ret Finished
      | _ => ret next
      end
  end.

(** A booking makes four store calls at most. *)
Definition handleSubmit_by_segments (formData : FormData) : M unit :=
  atInsert <- begin formData ;;
  afterInsert <- resume formData atInsert ;;
  afterDateLookup <- resume formData afterInsert ;;
  afterSlotLookup <- resume formData afterDateLookup ;;
  resume formData afterSlotLookup ;;
  ret tt.

(** Modelled from the spec: the concurrency control that the design asks of
    the store (section 5), which is no part of the components. The store is
    to provide at least one of (a) a conditional update of [is_available],
    which succeeds only if the prior value was true, and (b) a unique
    constraint on the (service, date, time, status) of an appointment. *)
Record StoreGuard := mkGuard {
  conditional_update : bool;
  unique_appointment : bool
}.

Definition same_slot (a b : Appointment) : bool :=
  String.eqb (ap_service_id a) (ap_service_id b)
  && String.eqb (ap_date a) (ap_date b)
  && String.eqb (ap_time a) (ap_time b)
  && String.eqb (ap_status a) (ap_status b).

(** Modelled from the spec: how the store answers the call that a suspended
    booking is about to make. Under (b) an insert is refused when the table
    holds an appointment for the slot; under (a) an update of [is_available]
    is refused when a row it addresses is not available; a refusal is
    reported in the result object. Every other call is answered. *)
Definition store_outcome (guard : StoreGuard) (formData : FormData) (p : Pc)
    (d : Db) : Outcome :=
  match p with
  | AtInsert =>
      if unique_appointment guard
         && existsb (same_slot (appointment_of formData)) (appointments d)
      then ErrorResult else Fulfilled
  | AtServiceUpdate slot =>
      if conditional_update guard
         && existsb (fun r => Nat.eqb (sa_id r) (sa_id slot)
                              && negb (sa_is_available r))
                    (service_availability d)
      then ErrorResult else Fulfilled
  | AtGeneralUpdate dateRow =>
      if conditional_update guard
         && existsb (fun r => Nat.eqb (at_date_id r) (ad_id dateRow)
                              && String.eqb (at_time r) (fd_time formData)
                              && negb (at_is_available r))
                    (available_times d)
      then ErrorResult else Fulfilled
  | AtDateLookup | AtSlotLookup _ | Finished => Fulfilled
  end.

(** A session: where its booking stands, and the world of its browser. *)
Record Session := mkSession { pc : Pc; view : World }.

Record Sessions := mkSessions {
  first : Session;
  second : Session;
  shared : Db
}.

(** The world in which a session makes its next call: its own, with the
    shared store in it and the answer of the store to that call. *)
Definition attach (guard : StoreGuard) (formData : FormData) (s : Session)
    (d : Db) : World :=
  mkWorld d (now (view s)) [store_outcome guard formData (pc s) d]
          (journal (view s)) (effects (view s)) (form (view s))
          (manager (view s)).

(** One step of a session: its next store call and the code up to the call
    after it. *)
Definition step (guard : StoreGuard) (formData : FormData) (s : Session)
    (d : Db) : Session * Db :=
  match pc s with
  | Finished => (s, d)
  | _ =>
      match resume formData (pc s) (attach guard formData s d) with
      | (Val next, w) => (mkSession next w, db w)
      | (Thrown _, w) => (mkSession Finished w, db w)
      end
  end.

(** A session that has submitted its form and is about to make its first
    call. *)
Definition start (formData : FormData) (d : Db) (clock : Z) : Session :=
  match begin formData (quiet_world d clock) with
  | (Val p, w) => mkSession p w
  | (Thrown _, w) => mkSession Finished w
  end.

(** One turn: the first session steps when [turn] is [true]. *)
Definition turn_of (guard : StoreGuard) (firstForm secondForm : FormData)
    (turn : bool) (st : Sessions) : Sessions :=
  if turn then
    let '(s, d) := step guard firstForm (first st) (shared st) in
    mkSessions s (second st) d
  else
    let '(s, d) := step guard secondForm (second st) (shared st) in
    mkSessions (first st) s d.

(** An interleaving is the list of whose turn it is. *)
Fixpoint interleave (guard : StoreGuard) (firstForm secondForm : FormData)
    (turns : list bool) (st : Sessions) : Sessions :=
  match turns with
  | [] => st
  | t :: turns' =>
      interleave guard firstForm secondForm turns'
                 (turn_of guard firstForm secondForm t st)
  end.

Definition both_book (guard : StoreGuard) (firstForm secondForm : FormData)
    (turns : list bool) (d : Db) (clock : Z) : Sessions :=
  interleave guard firstForm secondForm turns
    (mkSessions (start firstForm d clock) (start secondForm d clock) d).

Definition succeeded (s : Session) : bool :=
  existsb is_onSubmit (effects (view s)).

Definition alerted (s : Session) : bool :=
  existsb (fun e => match e with alert _ => true | _ => false end)
          (effects (view s)).

Definition finished (s : Session) : bool :=
  match pc s with Finished => true | _ => false end.

(** A session has at most four store calls to make. *)
Definition rank (s : Session) : nat :=
  match pc s with
  | AtInsert => 0
  | AtDateLookup => 1
  | AtSlotLookup _ => 2
  | AtServiceUpdate _ | AtGeneralUpdate _ => 3
  | Finished => 4
  end.

(** The appointment a session has written, if it has. *)
Definition written (formData : FormData) (s : Session) : list Appointment :=
  match pc s with
  | AtInsert => []
  | Finished => if succeeded s then [appointment_of formData] else []
  | _ => [appointment_of formData]
  end.

(** The session ended without reporting success. *)
Definition failed (s : Session) : bool := finished s && negb (succeeded s).

(** Both sessions alternate, the first one starting. *)
Definition alternating : list bool :=
  [true; false; true; false; true; false; true; false].

Definition bia_at_nine : FormData :=
  mkFormData "Bia" "corte" "2026-11-10" "09:00".

(** The store of the design with the conditional update only, and with the
    unique constraint only. *)
Definition conditional_only : StoreGuard := mkGuard true false.

Definition unique_only : StoreGuard := mkGuard false true.

(** What every interleaving maintains. The appointments added to the table
    are those the two sessions have written, in some order; a session that
    has not made its insert has neither succeeded nor been alerted; a
    session fails only with an alert. Without the unique constraint no
    session fails; with it at most one session writes, and a session fails
    only when the other one has written. *)
Definition booking_invariant (guard : StoreGuard)
    (firstForm secondForm : FormData) (old : list Appointment)
    (st : Sessions) : Prop :=
  (exists added,
     appointments (shared st) = old ++ added
     /\ Permutation added (written firstForm (first st)
                           ++ written secondForm (second st)))
  /\ (pc (first st) = AtInsert -> succeeded (first st) = false)
  /\ (pc (second st) = AtInsert -> succeeded (second st) = false)
  /\ (failed (first st) = true -> alerted (first st) = true)
  /\ (failed (second st) = true -> alerted (second st) = true)
  /\ (if unique_appointment guard
      then List.length (written firstForm (first st)
                        ++ written secondForm (second st)) <= 1
           /\ (failed (first st) = true -> written secondForm (second st) <> [])
           /\ (failed (second st) = true -> written firstForm (first st) <> [])
      else failed (first st) = false /\ failed (second st) = false).

(** How many turns a session gets. *)
Definition turns_of (who : bool) (turns : list bool) : nat :=
  List.length (filter (Bool.eqb who) turns).

(** ** Observing a resolution *)

(** How many store calls a handler made. *)
Definition calls_made (before after : World) : nat :=
  List.length (new_journal before after).

(** The available slot rows of one service on one date. *)
Definition open_service_rows (serviceId : string) (dateId : Id) (d : Db) :
    list ServiceSlot :=
  filter (fun r => String.eqb (sa_service_id r) serviceId
                   && Nat.eqb (sa_date_id r) dateId
                   && sa_is_available r)
         (service_availability d).

(** ** Observing a submission *)

Definition is_alert (e : Effect) : bool :=
  match e with alert _ => true | _ => false end.

(** A row after a booking: untouched, or the same row set unavailable. *)
Definition general_kept_or_lowered (before after : GeneralSlot) : Prop :=
  after = before \/ after = general_slot_flagged false before.

Definition service_kept_or_lowered (before after : ServiceSlot) : Prop :=
  after = before \/ after = service_slot_flagged false before.

(** ** Observing the availability manager *)

(** The three inputs of [handleAddTime] are present. *)
Definition valid_slot_input (selectedService selectedDate time : string) : bool :=
  negb (falsy selectedService || falsy selectedDate || falsy time).

(** The general tier after a time was added for a service on a date: the
    general row found for (date, time), if exactly one is found, is gone. *)
Definition displaced (dateId : Id) (time : string) (rows : list GeneralSlot) :
    list GeneralSlot :=
  match maybeSingle
          (filter (fun r => Nat.eqb (at_date_id r) dateId
                            && String.eqb (at_time r) time) rows) with
  | Some g => filter (fun r => negb (Nat.eqb (at_id r) (at_id g))) rows
  | None => rows
  end.

(** Every slot row of either tier points to a date record that exists. *)
Definition slots_have_dates (d : Db) : Prop :=
  (forall r, In r (service_availability d) ->
     exists a, In a (available_dates d) /\ ad_id a = sa_date_id r)
  /\ (forall g, In g (available_times d) ->
        exists a, In a (available_dates d) /\ ad_id a = at_date_id g).

(** A day that is not registered yet. *)
Definition christmas : string := "2026-12-25".

Definition managed_time_le (a b : ManagedTime) : bool :=
  str_leb (mt_time a) (mt_time b).

(** The services of the catalog table with a given id. *)
Definition services_with_id (serviceId : string) (d : Db) : list Service :=
  filter (fun s => String.eqb (sv_id s) serviceId) (services_table d).

(** ** The form data and what follows its changes *)

(** [isFormValid]: the four fields are truthy. *)
Definition isFormValid (formData : FormData) : bool :=
  negb (falsy (fd_name formData)) && negb (falsy (fd_service formData))
  && negb (falsy (fd_date formData)) && negb (falsy (fd_time formData)).

(** The [disabled] attribute of the submit button. *)
Definition submitDisabled (formData : FormData) (isSubmitting : bool) : bool :=
  negb (isFormValid formData) || isSubmitting.

(** The text of the submit button while nothing is being submitted. *)
Definition submitLabel (formData : FormData) : string :=
  if falsy (fd_name formData) || falsy (fd_service formData)
  then "Preencha nome e serviço"
  else if falsy (fd_date formData) then "Selecione uma data"
  else if falsy (fd_time formData) then "Selecione um horário"
  else "Agendar Horário".

(** The handlers that replace [formData] return the new value. *)
Definition handleTimeSelect (formData : FormData) (time : string) : M FormData :=
  setSelectedTime time ;;
  ret (mkFormData (fd_name formData) (fd_service formData) (fd_date formData)
                  time).

Definition handleServiceChange (formData : FormData) (serviceId : string) :
    M FormData :=
  setSelectedTime "" ;;
  ret (mkFormData (fd_name formData) serviceId "" "").

(** The [onDateSelect] callback given to [DateSelector]. *)
Definition onDateSelect (formData : FormData) (date : string) : M FormData :=
  setSelectedTime "" ;;
  ret (mkFormData (fd_name formData) (fd_service formData) date "").

(** The effect that runs when [formData.service] changes. *)
Definition serviceEffect (localeCompare : string -> string -> comparison)
    (services : list Service)
    (hasServiceConfiguration : bool) (formData : FormData) : M unit :=
  if falsy (fd_service formData) then
    setAvailableDates [] ;;
    setServiceSuggestion NoSuggestion ;;
    setHasServiceConfiguration false
  else
    checkServiceConfiguration localeCompare services hasServiceConfiguration
                              (fd_service formData).

(** The effect that runs when [formData.date] or [formData.service] changes. *)
Definition timesEffect (formData : FormData) : M unit :=
  if negb (falsy (fd_date formData)) && negb (falsy (fd_service formData)) then
    fetchServiceSpecificTimes (fd_date formData) (fd_service formData)
  else if negb (falsy (fd_date formData)) then
    fetchAvailableTimes (fd_date formData)
  else
    setAvailableTimes [] ;;
    setSelectedTime "".

(** A filled form. *)
Definition ana_form : FormData := mkFormData "Ana" "corte" "2026-11-10" "09:00".
(** * Properties

    ** String order *)

Lemma ascii_compare_refl (a : ascii) : Ascii.compare a a = Eq.
Proof. unfold Ascii.compare. apply N.compare_refl. Qed.

Lemma string_compare_refl (s : string) : String.compare s s = Eq.
Proof.
  induction s as [|a s IH]; simpl; [reflexivity|].
  now rewrite ascii_compare_refl.
Qed.

Lemma ascii_compare_lt_trans (a b c : ascii) :
  Ascii.compare a b = Lt -> Ascii.compare b c = Lt -> Ascii.compare a c = Lt.
Proof.
  unfold Ascii.compare. rewrite !N.compare_lt_iff. lia.
Qed.

Lemma string_compare_lt_trans (s1 : string) :
  forall s2 s3,
    String.compare s1 s2 = Lt -> String.compare s2 s3 = Lt ->
    String.compare s1 s3 = Lt.
Proof.
  induction s1 as [|a s1 IH]; intros [|b s2] [|c s3]; simpl; try congruence.
  destruct (Ascii.compare a b) eqn:Hab; try congruence.
  - apply Ascii.compare_eq_iff in Hab; subst b.
    destruct (Ascii.compare a c) eqn:Hac; try congruence.
    apply IH.
  - intros _.
    destruct (Ascii.compare b c) eqn:Hbc; try congruence.
    + apply Ascii.compare_eq_iff in Hbc; subst c. now rewrite Hab.
    + intros _. now rewrite (ascii_compare_lt_trans a b c).
Qed.

Lemma str_leb_refl (s : string) : str_leb s s = true.
Proof. unfold str_leb, String.leb. now rewrite string_compare_refl. Qed.

Lemma str_leb_iff (a b : string) :
  str_leb a b = true <-> String.compare a b = Lt \/ a = b.
Proof.
  unfold str_leb, String.leb.
  destruct (String.compare a b) eqn:H; split; intros H'; auto; try discriminate.
  - right. now apply String.compare_eq_iff.
  - destruct H' as [H'|H']; [discriminate|].
    subst. rewrite string_compare_refl in H. discriminate.
Qed.

Lemma str_leb_trans (a b c : string) :
  str_leb a b = true -> str_leb b c = true -> str_leb a c = true.
Proof.
  rewrite !str_leb_iff. intros [Hab | ->] [Hbc | ->]; auto.
  left. eapply string_compare_lt_trans; eauto.
Qed.

Lemma str_leb_total (a b : string) : str_leb a b = true \/ str_leb b a = true.
Proof. apply String.leb_total. Qed.

Lemma str_leb_false (a b : string) : str_leb a b = false -> str_leb b a = true.
Proof. destruct (str_leb_total a b); congruence. Qed.

(** ** Sorting *)

Section Sorting.
Context {A : Type}.
Variable le : A -> A -> bool.

Lemma insert_sorted_perm (x : A) (l : list A) :
  Permutation (x :: l) (insert_sorted le x l).
Proof.
  induction l as [|y l IH]; simpl; [reflexivity|].
  destruct (le x y); [reflexivity|].
  rewrite perm_swap. now constructor.
Qed.

Lemma sort_by_perm (l : list A) : Permutation l (sort_by le l).
Proof.
  induction l as [|x l IH]; simpl; [constructor|].
  rewrite <- insert_sorted_perm. now constructor.
Qed.

Lemma sort_by_in (l : list A) (x : A) : In x (sort_by le l) <-> In x l.
Proof.
  split; apply Permutation_in;
    [apply Permutation_sym|]; apply sort_by_perm.
Qed.

Lemma sort_by_length (l : list A) :
  List.length (sort_by le l) = List.length l.
Proof. symmetry. apply Permutation_length, sort_by_perm. Qed.

Hypothesis le_total : forall a b, le a b = false -> le b a = true.
Hypothesis le_trans :
  forall a b c, le a b = true -> le b c = true -> le a c = true.

Lemma insert_sorted_ascending (x : A) (l : list A) :
  ascending le l -> ascending le (insert_sorted le x l).
Proof.
  unfold ascending.
  induction l as [|y l IH]; simpl; intros Hl.
  - repeat constructor.
  - inversion Hl as [|? ? Hl' Hy]; subst.
    destruct (le x y) eqn:Hxy.
    + constructor; [assumption|].
      constructor; [assumption|].
      rewrite Forall_forall in *. eauto.
    + constructor; [auto|].
      rewrite Forall_forall in *. intros z Hz.
      apply (Permutation_in _ (Permutation_sym (insert_sorted_perm x l))) in Hz.
      destruct Hz as [<-|Hz]; auto.
Qed.

Lemma sort_by_ascending (l : list A) : ascending le (sort_by le l).
Proof.
  induction l as [|x l IH]; simpl.
  - constructor.
  - now apply insert_sorted_ascending.
Qed.

Lemma ascending_filter (p : A -> bool) (l : list A) :
  ascending le l -> ascending le (filter p l).
Proof.
  unfold ascending.
  induction 1 as [|x l Hl IH Hx]; simpl; [constructor|].
  destruct (p x); [|assumption].
  constructor; [assumption|].
  rewrite Forall_forall in *. intros y Hy.
  apply filter_In in Hy. now apply Hx.
Qed.

Lemma ascending_head (x : A) (l : list A) (y : A) :
  ascending le (x :: l) -> In y l -> le x y = true.
Proof.
  intros H Hy. inversion H as [|? ? _ Hx]; subst.
  rewrite Forall_forall in Hx. auto.
Qed.
End Sorting.

Lemma ascending_map {A B : Type} (f : A -> B)
    (leA : A -> A -> bool) (leB : B -> B -> bool) (l : list A) :
  (forall a b, leA a b = true -> leB (f a) (f b) = true) ->
  ascending leA l -> ascending leB (map f l).
Proof.
  intros Hf. unfold ascending.
  induction 1 as [|x l Hl IH Hx]; simpl; constructor; auto.
  rewrite Forall_forall in *. intros y Hy.
  apply in_map_iff in Hy. destruct Hy as (a & <- & Ha). auto.
Qed.

(** ** Lists *)

Lemma filter_permutation {A : Type} (p : A -> bool) (l l' : list A) :
  Permutation l l' -> Permutation (filter p l) (filter p l').
Proof.
  induction 1 as [|x l l' _ IH|x y l|l l' l'' _ IH1 _ IH2]; simpl.
  - constructor.
  - destruct (p x); [now constructor|assumption].
  - destruct (p x), (p y); try reflexivity. apply perm_swap.
  - now transitivity (filter p l').
Qed.

Lemma filter_twice {A : Type} (p q : A -> bool) (l : list A) :
  filter p (filter q l) = filter (fun x => q x && p x) l.
Proof.
  induction l as [|x l IH]; simpl; [reflexivity|].
  destruct (q x); simpl; [destruct (p x)|]; now rewrite IH.
Qed.

Lemma filter_of_map {A B : Type} (f : A -> B) (p : B -> bool) (l : list A) :
  filter p (map f l) = map f (filter (fun x => p (f x)) l).
Proof.
  induction l as [|x l IH]; simpl; [reflexivity|].
  destruct (p (f x)); simpl; now rewrite IH.
Qed.

Lemma existsb_of_map {A B : Type} (f : A -> B) (p : B -> bool) (l : list A) :
  existsb p (map f l) = existsb (fun x => p (f x)) l.
Proof.
  induction l as [|x l IH]; simpl; [reflexivity|]. now rewrite IH.
Qed.

Lemma existsb_of_filter {A : Type} (p q : A -> bool) (l : list A) :
  existsb p (filter q l) = existsb (fun x => q x && p x) l.
Proof.
  induction l as [|x l IH]; simpl; [reflexivity|].
  destruct (q x); simpl; now rewrite IH.
Qed.

Lemma filter_none {A : Type} (p : A -> bool) (l : list A) :
  existsb p l = false -> filter p l = [].
Proof.
  induction l as [|x l IH]; simpl; [reflexivity|].
  destruct (p x); simpl; [discriminate|exact IH].
Qed.

Lemma bool_eqb_true (b : bool) : Bool.eqb b true = b.
Proof. now destruct b. Qed.

Lemma skipn_own_length {A : Type} (l added : list A) :
  skipn (List.length l) (l ++ added) = added.
Proof. now rewrite skipn_app, skipn_all, Nat.sub_diag. Qed.

(** ** Running a handler when the store answers every call *)

Lemma next_outcome_quiet (w : World) :
  schedule w = [] ->
  next_outcome w =
    (Fulfilled,
     mkWorld (db w) (now w) [] (journal w ++ [Fulfilled]) (effects w)
             (form w) (manager w)).
Proof. intros H. unfold next_outcome. now rewrite H. Qed.

Ltac unfold_handler :=
  unfold exec, finally, try_catch, bind, ret, throw, emit, today, modify,
    select, selectMaybeSingle, mutate, insertReturning,
    setAvailableTimes, setLoadingTimes, setSelectedTime, setServiceSuggestion,
    setAvailableDates, setHasServiceConfiguration, setSubmitting,
    setTime, setLoading, setError, setSuccess, setServiceAvailability,
    next_outcome, with_form, with_manager, with_db.

(** ** The general tier of [slotsFor] *)

Lemma probe_without_configuration (serviceId : string) (d : Db) :
  hasConfiguration serviceId d = false -> service_config_probe serviceId d = [].
Proof.
  unfold hasConfiguration, service_config_probe. intros H.
  now rewrite (filter_none _ _ H).
Qed.

Lemma set_has_all_service_times (dateId : Id) (time : string) (d : Db) :
  set_has (all_service_times_query dateId d) time = claimed dateId time d.
Proof.
  unfold set_has, all_service_times_query, claimed.
  rewrite existsb_of_map, existsb_of_filter.
  induction (service_availability d) as [|s l IH]; simpl; [reflexivity|].
  rewrite IH. f_equal. f_equal. apply String.eqb_sym.
Qed.

Lemma slotsFor_general_tier (w : World) (serviceId date : string)
    (dateRow : DateRecord) :
  schedule w = [] ->
  maybeSingle (dates_with_date date (db w)) = Some dateRow ->
  hasConfiguration serviceId (db w) = false ->
  slotsFor serviceId date w =
    filter (fun row => negb (claimed (ad_id dateRow) (fst row) (db w)))
           (general_times_query (ad_id dateRow) (db w)).
Proof.
  intros Hq Hdate Hcfg.
  destruct w as [d t s j e f m]; simpl in *; subst s.
  unfold slotsFor, fetchServiceSpecificTimes. unfold_handler. simpl.
  rewrite Hdate. simpl.
  rewrite (probe_without_configuration _ _ Hcfg). simpl.
  apply filter_ext. intros row. now rewrite set_has_all_service_times.
Qed.


(** ** Booking when the store answers every call *)

Lemma handleSubmit_quiet (w : World) (formData : FormData) :
  schedule w = [] ->
  valid_form formData = true ->
  let w' := exec (handleSubmit formData) w in
  let booked :=
    with_appointments (fun l => l ++ [appointment_of formData]) (db w) in
  effects w' =
    effects w ++ [consoleLog "Form data:";
                  consoleLog "Appointment created successfully:";
                  onSubmit formData]
  /\ db w' =
    match maybeSingle (dates_with_date (fd_date formData) (db w)) with
    | Some dateRow =>
        match maybeSingle (service_slot_lookup (fd_service formData)
                             (ad_id dateRow) (fd_time formData) (db w)) with
        | Some slot => set_service_available (sa_id slot) false booked
        | None => set_general_unavailable (ad_id dateRow) (fd_time formData) booked
        end
    | None => booked
    end
  /\ schedule w' = [].
Proof.
  intros Hq Hvalid.
  destruct w as [d t s j e f m]; simpl in *; subst s.
  unfold handleSubmit.
  unfold valid_form in Hvalid. apply negb_true_iff in Hvalid. rewrite Hvalid.
  unfold_handler. simpl.
  change (dates_with_date (fd_date formData)
            (with_appointments (fun l => l ++ [appointment_of formData]) d))
    with (dates_with_date (fd_date formData) d).
  destruct (maybeSingle (dates_with_date (fd_date formData) d)) as [dateRow|];
    simpl.
  - change (service_slot_lookup (fd_service formData) (ad_id dateRow)
              (fd_time formData)
              (with_appointments (fun l => l ++ [appointment_of formData]) d))
      with (service_slot_lookup (fd_service formData) (ad_id dateRow)
              (fd_time formData) d).
    destruct (maybeSingle (service_slot_lookup (fd_service formData)
                (ad_id dateRow) (fd_time formData) d)) as [slot|]; simpl;
      rewrite <- !app_assoc; simpl; auto.
  - rewrite <- !app_assoc; simpl; auto.
Qed.

(** ** Counting the rows a booking flips *)

Lemma no_flip_without_change {A : Type} (flag : A -> bool) (l : list A) :
  List.length
    (filter (fun p => flag (fst p) && negb (flag (snd p))) (combine l l)) = 0.
Proof.
  induction l as [|x l IH]; simpl; [reflexivity|].
  destruct (flag x); simpl; exact IH.
Qed.

Lemma flips_of_update {A : Type} (flag hit : A -> bool) (lower : A -> A)
    (l : list A) :
  (forall x, flag (lower x) = false) ->
  List.length
    (filter (fun p => flag (fst p) && negb (flag (snd p)))
            (combine l (map (fun x => if hit x then lower x else x) l)))
  = List.length (filter (fun x => hit x && flag x) l).
Proof.
  intros Hlower.
  induction l as [|x l IH]; simpl; [reflexivity|].
  destruct (hit x); simpl.
  - rewrite Hlower. simpl. destruct (flag x); simpl; now rewrite IH.
  - destruct (flag x); simpl; exact IH.
Qed.

Lemma general_flips_same (d d' : Db) :
  available_times d' = available_times d -> general_flips d d' = 0.
Proof.
  unfold general_flips. intros ->. apply no_flip_without_change.
Qed.

Lemma service_flips_same (d d' : Db) :
  service_availability d' = service_availability d -> service_flips d d' = 0.
Proof.
  unfold service_flips. intros ->. apply no_flip_without_change.
Qed.

Lemma service_flips_of_booking (d : Db) (f : list Appointment -> list Appointment)
    (id : Id) :
  service_flips d (set_service_available id false (with_appointments f d))
  = List.length
      (filter (fun r => Nat.eqb (sa_id r) id && sa_is_available r)
              (service_availability d)).
Proof.
  unfold service_flips. simpl.
  apply (flips_of_update sa_is_available (fun r => Nat.eqb (sa_id r) id)
           (service_slot_flagged false)).
  reflexivity.
Qed.

Lemma general_flips_of_booking (d : Db) (f : list Appointment -> list Appointment)
    (dateId : Id) (time : string) :
  general_flips d (set_general_unavailable dateId time (with_appointments f d))
  = List.length (filter at_is_available (general_slot_lookup dateId time d)).
Proof.
  unfold general_flips, general_slot_lookup. simpl.
  rewrite filter_twice.
  apply (flips_of_update at_is_available
           (fun r => Nat.eqb (at_date_id r) dateId && String.eqb (at_time r) time)
           (general_slot_flagged false)).
  reflexivity.
Qed.

Lemma book_succeeded_iff (w w' : World) (added : list Effect) :
  effects w' = effects w ++ added ->
  book_succeeded w w' = existsb is_onSubmit added.
Proof.
  intros H. unfold book_succeeded. rewrite H.
  rewrite skipn_app, skipn_all, Nat.sub_diag. reflexivity.
Qed.

(** C2, as the code has it. A successful booking writes one tier, never
    both: when exactly one slot row matches (service, date, time), the rows
    with its id are set unavailable and no general row changes; otherwise the
    general rows matching (date, time) are set unavailable and no slot row of
    a service changes. The number of rows flipped is the number of matching
    rows that were available, so it is zero when no row matches or the date
    has no record. *)
Theorem C2_book_writes_one_tier (w : World) (formData : FormData) :
  schedule w = [] ->
  valid_form formData = true ->
  let w' := exec (handleSubmit formData) w in
  book_succeeded w w' = true
  /\ (general_flips (db w) (db w') = 0 \/ service_flips (db w) (db w') = 0)
  /\ (forall dateRow slot,
        maybeSingle (dates_with_date (fd_date formData) (db w)) = Some dateRow ->
        maybeSingle (service_slot_lookup (fd_service formData) (ad_id dateRow)
                       (fd_time formData) (db w)) = Some slot ->
        available_times (db w') = available_times (db w)
        /\ service_flips (db w) (db w')
           = List.length
               (filter (fun r => Nat.eqb (sa_id r) (sa_id slot) && sa_is_available r)
                       (service_availability (db w))))
  /\ (forall dateRow,
        maybeSingle (dates_with_date (fd_date formData) (db w)) = Some dateRow ->
        maybeSingle (service_slot_lookup (fd_service formData) (ad_id dateRow)
                       (fd_time formData) (db w)) = None ->
        service_availability (db w') = service_availability (db w)
        /\ general_flips (db w) (db w')
           = List.length
               (filter at_is_available
                  (general_slot_lookup (ad_id dateRow) (fd_time formData) (db w))))
  /\ (maybeSingle (dates_with_date (fd_date formData) (db w)) = None ->
        available_times (db w') = available_times (db w)
        /\ service_availability (db w') = service_availability (db w)).
Proof.
  intros Hq Hvalid w'.
  destruct (handleSubmit_quiet w formData Hq Hvalid) as (Heff & Hdb & _).
  fold w' in Heff, Hdb.
  split; [now rewrite (book_succeeded_iff _ _ _ Heff)|].
  destruct (maybeSingle (dates_with_date (fd_date formData) (db w)))
    as [dateRow|] eqn:Hdate.
  - destruct (maybeSingle (service_slot_lookup (fd_service formData)
                (ad_id dateRow) (fd_time formData) (db w))) as [slot|] eqn:Hslot.
    + assert (Hgen : available_times (db w') = available_times (db w))
        by now rewrite Hdb.
      split; [left; now apply general_flips_same|].
      split; [|split; [|discriminate]].
      * intros ? ? [= <-]. rewrite Hslot. intros [= <-].
        split; [exact Hgen|]. rewrite Hdb. apply service_flips_of_booking.
      * intros ? [= <-]. rewrite Hslot. discriminate.
    + assert (Hsvc : service_availability (db w') = service_availability (db w))
        by now rewrite Hdb.
      split; [right; now apply service_flips_same|].
      split; [|split; [|discriminate]].
      * intros ? ? [= <-]. rewrite Hslot. discriminate.
      * intros ? [= <-] _.
        split; [exact Hsvc|]. rewrite Hdb. apply general_flips_of_booking.
  - assert (Hgen : available_times (db w') = available_times (db w))
      by now rewrite Hdb.
    split; [left; now apply general_flips_same|].
    split; [discriminate|]. split; [discriminate|].
    intros _. split; [exact Hgen|now rewrite Hdb].
Qed.

Lemma C2_book_writes_one_tier_witness :
  let w := quiet_world salon_db noon_utc in
  let w' := exec (handleSubmit ana_at_nine) w in
  book_succeeded w w' = true
  /\ available_times (db w') = available_times (db w)
  /\ service_flips (db w) (db w') = 1.
Proof.
  pose proof (C2_book_writes_one_tier (quiet_world salon_db noon_utc)
                ana_at_nine eq_refl eq_refl) as (Hok & _ & Hsvc & _).
  split; [exact Hok|].
  exact (Hsvc (mkDate 1 "2026-11-10")
              (mkServiceSlot 1 "corte" 1 "09:00" true) eq_refl eq_refl).
Defined.

(** C2 as stated fails: booking a time that has no slot row of either tier
    succeeds and flips no record. *)
Lemma C2_counterexample :
  let w := quiet_world salon_db noon_utc in
  let w' := exec (handleSubmit ana_at_eleven) w in
  valid_form ana_at_eleven = true
  /\ book_succeeded w w' = true
  /\ slot_flips (db w) (db w') = 0.
Proof. repeat split; reflexivity. Qed.

Lemma new_effects_app (w w' : World) (added : list Effect) :
  effects w' = effects w ++ added -> new_effects w w' = added.
Proof.
  intros H. unfold new_effects. rewrite H.
  rewrite skipn_app, skipn_all, Nat.sub_diag. reflexivity.
Qed.

Lemma maybeSingle_nil {A : Type} (l : list A) : l = [] -> maybeSingle l = None.
Proof. now intros ->. Qed.

Lemma set_general_unavailable_no_match (dateId : Id) (time : string) (d : Db) :
  general_slot_lookup dateId time d = [] ->
  available_times (set_general_unavailable dateId time d) = available_times d.
Proof.
  unfold general_slot_lookup. simpl. intros H.
  induction (available_times d) as [|r l IH]; simpl in *; [reflexivity|].
  destruct (Nat.eqb (at_date_id r) dateId && String.eqb (at_time r) time);
    [discriminate|].
  now rewrite IH.
Qed.




(** ** Removing a service-specific time when the store answers every call *)

Lemma handleRemoveTime_quiet (w : World) (selectedService selectedDate : string)
    (timeId : Id) (timeValue : string) :
  schedule w = [] ->
  let w' := exec (handleRemoveTime true selectedService selectedDate
                                   timeId timeValue) w in
  schedule w' = []
  /\ available_dates (db w') = available_dates (db w)
  /\ service_availability (db w')
     = filter (fun r => negb (Nat.eqb (sa_id r) timeId))
              (service_availability (db w))
  /\ available_times (db w')
     = available_times (db w)
       ++ match maybeSingle (dates_with_date selectedDate (db w)) with
          | Some dateRow =>
              match maybeSingle (general_slot_lookup (ad_id dateRow) timeValue
                                                     (db w)) with
              | Some _ => []
              | None =>
                  [mkGeneral (fresh_id (map at_id (available_times (db w))))
                             (ad_id dateRow) timeValue true]
              end
          | None => []
          end.
Proof.
  intros Hq.
  destruct w as [d t s j e f m]; simpl in *; subst s.
  unfold handleRemoveTime, fetchServiceAvailability. unfold_handler. simpl.
  change (dates_with_date selectedDate (delete_service_slot timeId d))
    with (dates_with_date selectedDate d).
  destruct (maybeSingle (dates_with_date selectedDate d)) as [dateRow|] eqn:Hd;
    simpl.
  - change (general_slot_lookup (ad_id dateRow) timeValue
              (delete_service_slot timeId d))
      with (general_slot_lookup (ad_id dateRow) timeValue d).
    destruct (maybeSingle (general_slot_lookup (ad_id dateRow) timeValue d))
      as [g|]; simpl.
    + change (dates_with_date selectedDate (delete_service_slot timeId d))
        with (dates_with_date selectedDate d).
      rewrite Hd. simpl. rewrite app_nil_r. auto.
    + change (dates_with_date selectedDate
                (insert_general (ad_id dateRow) timeValue
                   (delete_service_slot timeId d)))
        with (dates_with_date selectedDate d).
      rewrite Hd. simpl. auto.
  - change (dates_with_date selectedDate (delete_service_slot timeId d))
      with (dates_with_date selectedDate d).
    rewrite Hd. simpl. rewrite app_nil_r. auto.
Qed.

Lemma general_slot_lookup_new_row (dateId : Id) (time : string) (id : Id) :
  filter (fun r => Nat.eqb (at_date_id r) dateId && String.eqb (at_time r) time)
         [mkGeneral id dateId time true]
  = [mkGeneral id dateId time true].
Proof. simpl. now rewrite Nat.eqb_refl, String.eqb_refl. Qed.

Lemma handleRemoveTime_quiet_frame (w : World)
    (selectedService selectedDate : string) (timeId : Id) (timeValue : string) :
  schedule w = [] ->
  let w' := exec (handleRemoveTime true selectedService selectedDate
                                   timeId timeValue) w in
  appointments (db w') = appointments (db w)
  /\ services_table (db w') = services_table (db w).
Proof.
  intros Hq.
  destruct w as [d t s j e f m]; simpl in *; subst s.
  unfold handleRemoveTime, fetchServiceAvailability. unfold_handler. simpl.
  change (dates_with_date selectedDate (delete_service_slot timeId d))
    with (dates_with_date selectedDate d).
  destruct (maybeSingle (dates_with_date selectedDate d)) as [dateRow|] eqn:Hd;
    simpl.
  - change (general_slot_lookup (ad_id dateRow) timeValue
              (delete_service_slot timeId d))
      with (general_slot_lookup (ad_id dateRow) timeValue d).
    destruct (maybeSingle (general_slot_lookup (ad_id dateRow) timeValue d))
      as [g|]; simpl.
    + change (dates_with_date selectedDate (delete_service_slot timeId d))
        with (dates_with_date selectedDate d).
      rewrite Hd. simpl. auto.
    + change (dates_with_date selectedDate
                (insert_general (ad_id dateRow) timeValue
                   (delete_service_slot timeId d)))
        with (dates_with_date selectedDate d).
      rewrite Hd. simpl. auto.
  - change (dates_with_date selectedDate (delete_service_slot timeId d))
      with (dates_with_date selectedDate d).
    rewrite Hd. simpl. auto.
Qed.

Lemma db_ext (d d' : Db) :
  available_dates d = available_dates d' ->
  available_times d = available_times d' ->
  service_availability d = service_availability d' ->
  appointments d = appointments d' ->
  services_table d = services_table d' ->
  d = d'.
Proof. destruct d, d'. simpl. now intros -> -> -> -> ->. Qed.

Lemma filter_again {A : Type} (p : A -> bool) (l : list A) :
  filter p (filter p l) = filter p l.
Proof.
  rewrite filter_twice. apply filter_ext. intros x. now destruct (p x).
Qed.

(** On the general tier a time that no slot row claims is offered once for
    each available general row of the date that carries it. *)
Lemma general_tier_offers (w : World) (serviceId date time : string)
    (dateRow : DateRecord) :
  schedule w = [] ->
  maybeSingle (dates_with_date date (db w)) = Some dateRow ->
  hasConfiguration serviceId (db w) = false ->
  claimed (ad_id dateRow) time (db w) = false ->
  times_offered time (slotsFor serviceId date w)
  = List.length (filter at_is_available
                   (general_slot_lookup (ad_id dateRow) time (db w))).
Proof.
  intros Hq Hdate Hcfg Hclaim.
  rewrite (slotsFor_general_tier _ _ _ _ Hq Hdate Hcfg).
  unfold times_offered, general_times_query, general_slot_lookup.
  rewrite !filter_of_map, length_map, filter_twice. cbn [fst].
  rewrite (Permutation_length
             (filter_permutation _ _ _
                (Permutation_sym (sort_by_perm general_time_le _)))).
  rewrite !filter_twice. f_equal. apply filter_ext. intros r.
  rewrite bool_eqb_true.
  destruct (String.eqb (at_time r) time) eqn:E.
  - apply String.eqb_eq in E. rewrite E, Hclaim. simpl.
    now rewrite !andb_true_r.
  - now rewrite !andb_false_r.
Qed.

(** C4, as the code has it. Take a slot row of a service on a date that has
    one record, a store that answers, and at most one general row for that
    date and time. Removing the slot deletes its row and keeps every other
    slot row; it creates an available general row for (date, time) when
    there is none and leaves the existing one as it is otherwise. So the
    general table holds exactly one row for the time after the removal, and
    running the removal a second time changes nothing in the store. What the
    general tier then offers follows that one row: a service without slot
    rows of its own is offered the time exactly once when the row is
    available, as it is when the removal created it, and not at all when the
    row that was already there is unavailable. *)
Theorem C4_release_restores_once (w : World)
    (selectedService selectedDate : string)
    (slot : ServiceSlot) (dateRow : DateRecord) :
  schedule w = [] ->
  In slot (service_availability (db w)) ->
  maybeSingle (dates_with_date selectedDate (db w)) = Some dateRow ->
  sa_date_id slot = ad_id dateRow ->
  general_count (ad_id dateRow) (sa_time slot) (db w) <= 1 ->
  let release :=
    exec (handleRemoveTime true selectedService selectedDate
                           (sa_id slot) (sa_time slot)) in
  let w1 := release w in
  let w2 := release w1 in
  let before := general_slot_lookup (ad_id dateRow) (sa_time slot) (db w) in
  service_availability (db w1)
  = filter (fun r => negb (Nat.eqb (sa_id r) (sa_id slot)))
           (service_availability (db w))
  /\ ~ In slot (service_availability (db w1))
  /\ (forall g, before = [g] -> available_times (db w1) = available_times (db w))
  /\ (before = [] ->
        available_times (db w1)
        = available_times (db w)
          ++ [mkGeneral (fresh_id (map at_id (available_times (db w))))
                        (ad_id dateRow) (sa_time slot) true])
  /\ general_count (ad_id dateRow) (sa_time slot) (db w1) = 1
  /\ db w2 = db w1
  /\ exists row,
       general_slot_lookup (ad_id dateRow) (sa_time slot) (db w1) = [row]
       /\ (before = [] -> at_is_available row = true)
       /\ (forall g, before = [g] -> row = g)
       /\ forall serviceId,
            hasConfiguration serviceId (db w1) = false ->
            claimed (ad_id dateRow) (sa_time slot) (db w1) = false ->
            let once := if at_is_available row then 1 else 0 in
            times_offered (sa_time slot) (slotsFor serviceId selectedDate w1)
            = once
            /\ times_offered (sa_time slot)
                 (slotsFor serviceId selectedDate w2) = once.
Proof.
  intros Hq Hslot Hdate _ Hcount release w1 w2 before.
  destruct (handleRemoveTime_quiet w selectedService selectedDate (sa_id slot)
              (sa_time slot) Hq) as (Hq1 & Hdates1 & Hsvc1 & Hgen1).
  fold release in Hq1, Hdates1, Hsvc1, Hgen1. fold w1 in Hq1, Hdates1, Hsvc1, Hgen1.
  rewrite Hdate in Hgen1.
  assert (Hdate1 : maybeSingle (dates_with_date selectedDate (db w1)) = Some dateRow).
  { unfold dates_with_date in *. now rewrite Hdates1. }
  destruct (handleRemoveTime_quiet w1 selectedService selectedDate (sa_id slot)
              (sa_time slot) Hq1) as (Hq2 & Hdates2 & Hsvc2 & Hgen2).
  destruct (handleRemoveTime_quiet_frame w1 selectedService selectedDate
              (sa_id slot) (sa_time slot) Hq1) as (Happ2 & Hcat2).
  fold release in Hq2, Hdates2, Hsvc2, Hgen2, Happ2, Hcat2.
  fold w2 in Hq2, Hdates2, Hsvc2, Hgen2, Happ2, Hcat2.
  rewrite Hdate1 in Hgen2.
  assert (Hrow : exists row,
            general_slot_lookup (ad_id dateRow) (sa_time slot) (db w1) = [row]
            /\ (before = [] -> at_is_available row = true)
            /\ (forall g, before = [g] -> row = g)).
  { unfold general_count in Hcount. fold before in Hcount, Hgen1.
    unfold general_slot_lookup in *. rewrite Hgen1.
    destruct before as [|g [|g' l]] eqn:Hl;
      simpl in Hcount; try lia; simpl maybeSingle.
    - rewrite filter_app. fold before. rewrite Hl, general_slot_lookup_new_row.
      eexists. split; [reflexivity|]. split; [reflexivity|discriminate].
    - rewrite app_nil_r. fold before. rewrite Hl.
      exists g. split; [reflexivity|]. split; [discriminate|].
      now intros g0 [= ->]. }
  destruct Hrow as (row & Hrow & Hnew & Hold).
  assert (Hsame : available_times (db w2) = available_times (db w1)).
  { rewrite Hgen2, Hrow. simpl. apply app_nil_r. }
  assert (Hdb2 : db w2 = db w1).
  { apply db_ext; try assumption.
    rewrite Hsvc2, Hsvc1. apply filter_again. }
  split; [exact Hsvc1|].
  split.
  { rewrite Hsvc1. intros Hin. apply filter_In in Hin.
    destruct Hin as [_ Hin]. now rewrite Nat.eqb_refl in Hin. }
  split.
  { intros g Hg. rewrite Hgen1. fold before. rewrite Hg. simpl. apply app_nil_r. }
  split.
  { intros Hnil. rewrite Hgen1. fold before. rewrite Hnil. reflexivity. }
  split; [unfold general_count; now rewrite Hrow|].
  split; [exact Hdb2|].
  exists row. split; [exact Hrow|]. split; [exact Hnew|]. split; [exact Hold|].
  intros serviceId Hcfg Hclaim once.
  assert (Hdate2 : maybeSingle (dates_with_date selectedDate (db w2)) = Some dateRow)
    by now rewrite Hdb2.
  rewrite (general_tier_offers w1 serviceId selectedDate (sa_time slot) dateRow
             Hq1 Hdate1 Hcfg Hclaim).
  rewrite (general_tier_offers w2 serviceId selectedDate (sa_time slot) dateRow
             Hq2 Hdate2); [|now rewrite Hdb2|now rewrite Hdb2].
  rewrite Hdb2, Hrow. subst once. simpl.
  destruct (at_is_available row); split; reflexivity.
Qed.

Lemma C4_release_restores_once_witness :
  let release := exec (handleRemoveTime true "corte" "2026-11-10" 1 "09:00") in
  let w1 := release (quiet_world salon_db noon_utc) in
  general_count 1 "09:00" (db w1) = 1
  /\ db (release w1) = db w1
  /\ times_offered "09:00" (slotsFor "barba" "2026-11-10" w1) = 1
  /\ times_offered "09:00" (slotsFor "barba" "2026-11-10" (release w1)) = 1.
Proof.
  pose proof (C4_release_restores_once (quiet_world salon_db noon_utc)
                "corte" "2026-11-10" (mkServiceSlot 1 "corte" 1 "09:00" true)
                (mkDate 1 "2026-11-10") eq_refl (or_introl eq_refl) eq_refl
                eq_refl (le_n 1))
    as (_ & _ & _ & _ & H1 & H2 & row & Hrow & _ & Hold & Hoffer).
  split; [exact H1|]. split; [exact H2|].
  rewrite (Hold (mkGeneral 1 1 "09:00" true) eq_refl) in Hoffer.
  exact (Hoffer "barba" eq_refl eq_refl).
Defined.

(** C4 as stated fails in two ways. With two general rows for the time
    already there, the removal finds no single row and creates a third, and
    a fourth when run again, and the time is offered three times. With the
    one general row there but unavailable, the removal leaves it untouched:
    the table holds one row for the time and the general tier does not offer
    it. *)
Lemma C4_counterexample :
  let release := exec (handleRemoveTime true "corte" "2026-11-10" 1 "09:00") in
  let doubled := release (quiet_world doubled_db noon_utc) in
  let closed := release (quiet_world closed_general_db noon_utc) in
  general_count 1 "09:00" doubled_db = 2
  /\ general_count 1 "09:00" (db doubled) = 3
  /\ general_count 1 "09:00" (db (release doubled)) = 4
  /\ times_offered "09:00" (slotsFor "barba" "2026-11-10" doubled) = 3
  /\ available_times (db closed) = available_times closed_general_db
  /\ service_availability (db closed) = []
  /\ general_count 1 "09:00" (db closed) = 1
  /\ times_offered "09:00" (slotsFor "barba" "2026-11-10" closed) = 0.
Proof. vm_compute. repeat split; reflexivity. Qed.




(** ** The date catalog *)

Lemma dates_ok_nil (todayDate : string) : dates_ok todayDate [].
Proof. split; [constructor|intros ? []]. Qed.

Lemma future_dates_ok (todayDate : string) (dates : list string) :
  dates_ok todayDate
    (sort_by str_leb (filter (fun date => str_geb date todayDate) dates)).
Proof.
  split.
  - apply sort_by_ascending.
    + intros a b. apply str_leb_false.
    + intros a b c. apply str_leb_trans.
  - intros date Hin. apply sort_by_in, filter_In in Hin. apply Hin.
Qed.

Lemma fetchAvailableDatesForService_ok (serviceId : string) (w : World) :
  let w' := exec (fetchAvailableDatesForService serviceId) w in
  dates_ok (toISODate (now w)) (availableDates (form w')) /\ now w' = now w.
Proof.
  destruct w as [d t s j e f m].
  unfold fetchAvailableDatesForService. unfold_handler. simpl.
  destruct s as [|[] s]; simpl;
    (split; [try apply future_dates_ok; apply dates_ok_nil|reflexivity]).
Qed.

Lemma fetchGeneralAvailableDates_ok (w : World) :
  let w' := exec fetchGeneralAvailableDates w in
  dates_ok (toISODate (now w)) (availableDates (form w')) /\ now w' = now w.
Proof.
  destruct w as [d t s j e f m].
  unfold fetchGeneralAvailableDates. unfold_handler. simpl.
  destruct s as [|[] s]; simpl;
    (split; [try apply future_dates_ok; apply dates_ok_nil|reflexivity]).
Qed.

Lemma generateServiceSuggestion_keeps_dates
    (localeCompare : string -> string -> comparison) (services : list Service)
    (hasServiceConfiguration : bool) (serviceId : string) (w : World) :
  availableDates
    (form (exec (generateServiceSuggestion localeCompare services
                   hasServiceConfiguration serviceId) w))
  = availableDates (form w).
Proof.
  destruct w as [d t s j e f m].
  unfold generateServiceSuggestion. unfold_handler.
  destruct hasServiceConfiguration; simpl; [|reflexivity].
  destruct s as [|[] s]; simpl; try reflexivity;
    destruct (suggestion_query serviceId (toISODate t) d); reflexivity.
Qed.

Lemma fetchAvailableDatesForService_returns (serviceId : string) (w : World) :
  fst (fetchAvailableDatesForService serviceId w) = Val tt.
Proof.
  destruct w as [d t s j e f m].
  unfold fetchAvailableDatesForService. unfold_handler. simpl.
  destruct s as [|[] s]; reflexivity.
Qed.

Lemma fetchGeneralAvailableDates_returns (w : World) :
  fst (fetchGeneralAvailableDates w) = Val tt.
Proof.
  destruct w as [d t s j e f m].
  unfold fetchGeneralAvailableDates. unfold_handler. simpl.
  destruct s as [|[] s]; reflexivity.
Qed.

Lemma exec_bind {A B : Type} (c : M A) (k : A -> M B) (a : A) (w : World) :
  fst (c w) = Val a -> exec (bind c k) w = exec (k a) (exec c w).
Proof.
  unfold exec, bind. destruct (c w) as [r w']. simpl. now intros ->.
Qed.

Lemma exec_try_catch_val {A : Type} (body : M A) (handler : string -> M A)
    (a : A) (w : World) :
  fst (body w) = Val a -> exec (try_catch body handler) w = exec body w.
Proof.
  unfold exec, try_catch. destruct (body w) as [r w']. simpl. now intros ->.
Qed.

Lemma fst_bind {A B : Type} (c : M A) (k : A -> M B) (a : A) (w : World) :
  fst (c w) = Val a -> fst (bind c k w) = fst (k a (exec c w)).
Proof.
  unfold exec, bind. destruct (c w) as [r w']. simpl. now intros ->.
Qed.

Lemma datesFor_ok (localeCompare : string -> string -> comparison)
    (services : list Service) (hasServiceConfiguration : bool)
    (serviceId : string) (w : World) :
  dates_ok (toISODate (now w))
           (datesFor localeCompare services hasServiceConfiguration serviceId w).
Proof.
  unfold datesFor, checkServiceConfiguration.
  set (afterProbe := fun serviceConfig : option (list Id) => _).
  assert (Hbranch : forall cfg w0,
            now w0 = now w ->
            fst (afterProbe cfg w0) = Val tt
            /\ dates_ok (toISODate (now w))
                        (availableDates (form (exec (afterProbe cfg) w0)))).
  { intros cfg w0 Hnow. subst afterProbe. cbv beta.
    set (hasConfig := match cfg with Some (_ :: _) => true | _ => false end).
    set (w1 := exec (setHasServiceConfiguration hasConfig) w0).
    assert (Hnow1 : now w1 = now w) by (subst w1; destruct w0; exact Hnow).
    destruct hasConfig.
    - split.
      + rewrite (fst_bind _ _ tt) by reflexivity.
        rewrite (fst_bind _ _ tt) by apply fetchAvailableDatesForService_returns.
        unfold generateServiceSuggestion. unfold_handler.
        destruct hasServiceConfiguration; simpl; [|reflexivity].
        match goal with |- context [schedule ?x] => destruct (schedule x) as [|[] ?] end;
          simpl; try reflexivity;
          match goal with |- context [suggestion_query ?a ?b ?c] =>
            destruct (suggestion_query a b c) end; reflexivity.
      + rewrite (exec_bind _ _ tt) by reflexivity.
        rewrite (exec_bind _ _ tt) by apply fetchAvailableDatesForService_returns.
        rewrite generateServiceSuggestion_keeps_dates.
        rewrite <- Hnow1. apply fetchAvailableDatesForService_ok.
    - split.
      + rewrite (fst_bind _ _ tt) by reflexivity.
        rewrite (fst_bind _ _ tt) by apply fetchGeneralAvailableDates_returns.
        reflexivity.
      + rewrite (exec_bind _ _ tt) by reflexivity.
        rewrite (exec_bind _ _ tt) by apply fetchGeneralAvailableDates_returns.
        fold w1.
        change (dates_ok (toISODate (now w))
                  (availableDates (form (exec fetchGeneralAvailableDates w1)))).
        rewrite <- Hnow1. apply fetchGeneralAvailableDates_ok. }
  clearbody afterProbe.
  destruct w as [d t s j e f m].
  unfold exec, try_catch, bind, select, next_outcome.
  destruct s as [|[] s]; cbn [schedule tl db now journal effects form manager].
  - match goal with |- context [afterProbe ?c ?x] =>
      destruct (Hbranch c x eq_refl) as [Hv Hok];
      unfold exec in Hok; destruct (afterProbe c x) as [r w'] end.
    simpl in Hv. subst r. exact Hok.
  - match goal with |- context [afterProbe ?c ?x] =>
      destruct (Hbranch c x eq_refl) as [Hv Hok];
      unfold exec in Hok; destruct (afterProbe c x) as [r w'] end.
    simpl in Hv. subst r. exact Hok.
  - match goal with |- context [afterProbe ?c ?x] =>
      destruct (Hbranch c x eq_refl) as [Hv Hok];
      unfold exec in Hok; destruct (afterProbe c x) as [r w'] end.
    simpl in Hv. subst r. exact Hok.
  - unfold_handler. simpl. apply dates_ok_nil.
Qed.

(** C6, as the code has it. Whatever the store answers, the dates offered
    for a service are in ascending order and none is before today, where
    today is the calendar date in UTC of the current instant (the date part
    of [toISOString]); this holds in the service-specific branch, in the
    general branch, and for the dispatcher that chooses between them. *)
Theorem C6_dates_not_before_utc_today
    (localeCompare : string -> string -> comparison) (services : list Service)
    (hasServiceConfiguration : bool) (serviceId : string) (w : World) :
  let todayDate := toISODate (now w) in
  dates_ok todayDate
    (availableDates (form (exec (fetchAvailableDatesForService serviceId) w)))
  /\ dates_ok todayDate
       (availableDates (form (exec fetchGeneralAvailableDates w)))
  /\ dates_ok todayDate
       (datesFor localeCompare services hasServiceConfiguration serviceId w).
Proof.
  split; [apply fetchAvailableDatesForService_ok|].
  split; [apply fetchGeneralAvailableDates_ok|].
  apply datesFor_ok.
Qed.

(** C6 as stated fails when today is read on the caller's wall clock: at
    23:30 UTC on 1 November it is already 2 November nine hours east of UTC,
    and both branches still offer 1 November. *)
Lemma C6_counterexample :
  let w := quiet_world november_db late_evening_utc in
  let localToday := localDate (now w) nine_hours_east in
  localToday = "2026-11-02"
  /\ datesFor code_unit_compare [] false "corte" w = ["2026-11-01"]
  /\ datesFor code_unit_compare [] false "barba" w
     = ["2026-11-01"; "2026-11-03"]
  /\ str_leb localToday "2026-11-01" = false.
Proof. repeat split; reflexivity. Qed.

(** ** The suggestion *)

Section Collation.
Variable localeCompare : string -> string -> comparison.

Lemma slot_le_iff (a b : string * string) :
  slot_le localeCompare a b = true <->
  localeCompare (fst a) (fst b) = Lt
  \/ (localeCompare (fst a) (fst b) = Eq
      /\ localeCompare (snd a) (snd b) <> Gt).
Proof.
  unfold slot_le, slot_compare.
  destruct (localeCompare (fst a) (fst b)).
  - destruct (localeCompare (snd a) (snd b)); split; intros H;
      try reflexivity; try discriminate.
    + right. split; [reflexivity|discriminate].
    + right. split; [reflexivity|discriminate].
    + destruct H as [H|[_ H]]; [discriminate|]. now contradiction H.
  - split; auto.
  - split; [discriminate|]. intros [H|[H _]]; discriminate.
Qed.

(** Membership needs nothing of the collation. *)
Lemma earliest_in (item : string * string) (items : list (string * string)) :
  In (hd item (sort_by (slot_le localeCompare) (item :: items))) (item :: items).
Proof.
  assert (Hperm := sort_by_perm (slot_le localeCompare) (item :: items)).
  destruct (sort_by (slot_le localeCompare) (item :: items)) as [|x rest] eqn:Hs.
  - apply Permutation_length in Hperm. discriminate.
  - apply (Permutation_in _ (Permutation_sym Hperm)). now left.
Qed.

Hypothesis consistent : consistent_collation localeCompare.

Lemma collation_refl (a : string) : localeCompare a a = Eq.
Proof.
  destruct consistent as [Hopp _]. specialize (Hopp a a).
  destruct (localeCompare a a); simpl in Hopp; congruence.
Qed.

Lemma collation_lt_le (a b c : string) :
  localeCompare a b = Lt -> localeCompare b c <> Gt -> localeCompare a c = Lt.
Proof.
  destruct consistent as [Hopp Htrans]. intros Hab Hbc.
  assert (Hac : localeCompare a c <> Gt)
    by (apply (Htrans a b c); [rewrite Hab; discriminate|exact Hbc]).
  destruct (localeCompare a c) eqn:E; [|reflexivity|now contradiction Hac].
  exfalso. apply (Htrans b c a Hbc).
  - rewrite (Hopp a c), E. discriminate.
  - rewrite (Hopp a b), Hab. reflexivity.
Qed.

Lemma collation_le_lt (a b c : string) :
  localeCompare a b <> Gt -> localeCompare b c = Lt -> localeCompare a c = Lt.
Proof.
  destruct consistent as [Hopp Htrans]. intros Hab Hbc.
  assert (Hac : localeCompare a c <> Gt)
    by (apply (Htrans a b c); [exact Hab|rewrite Hbc; discriminate]).
  destruct (localeCompare a c) eqn:E; [|reflexivity|now contradiction Hac].
  exfalso. assert (Hca : localeCompare c a <> Gt)
    by (rewrite (Hopp a c), E; discriminate).
  apply (Htrans c a b Hca Hab). rewrite (Hopp b c), Hbc. reflexivity.
Qed.

Lemma collation_eq_eq (a b c : string) :
  localeCompare a b = Eq -> localeCompare b c = Eq -> localeCompare a c = Eq.
Proof.
  destruct consistent as [Hopp Htrans]. intros Hab Hbc.
  assert (Hac : localeCompare a c <> Gt)
    by (apply (Htrans a b c); [rewrite Hab|rewrite Hbc]; discriminate).
  assert (Hca : localeCompare c a <> Gt).
  { apply (Htrans c b a).
    - rewrite (Hopp b c), Hbc. discriminate.
    - rewrite (Hopp a b), Hab. discriminate. }
  rewrite (Hopp a c) in Hca.
  destruct (localeCompare a c); [reflexivity| |]; simpl in Hca; congruence.
Qed.

Lemma slot_le_total (a b : string * string) :
  slot_le localeCompare a b = false -> slot_le localeCompare b a = true.
Proof.
  destruct consistent as [Hopp _].
  unfold slot_le, slot_compare.
  rewrite (Hopp (fst a) (fst b)), (Hopp (snd a) (snd b)).
  destruct (localeCompare (fst a) (fst b)); simpl;
    destruct (localeCompare (snd a) (snd b)); simpl; congruence.
Qed.

Lemma slot_le_trans (a b c : string * string) :
  slot_le localeCompare a b = true -> slot_le localeCompare b c = true ->
  slot_le localeCompare a c = true.
Proof.
  rewrite !slot_le_iff.
  intros [Hab | [Hab Hab']] [Hbc | [Hbc Hbc']].
  - left. apply (collation_lt_le _ (fst b)); [exact Hab|].
    rewrite Hbc. discriminate.
  - left. apply (collation_lt_le _ (fst b)); [exact Hab|].
    rewrite Hbc. discriminate.
  - left. apply (collation_le_lt _ (fst b)); [|exact Hbc].
    rewrite Hab. discriminate.
  - right. split; [now apply (collation_eq_eq _ (fst b))|].
    destruct consistent as [_ Htrans]. now apply (Htrans _ (snd b)).
Qed.

Lemma slot_le_refl (a : string * string) : slot_le localeCompare a a = true.
Proof.
  apply slot_le_iff. right. rewrite !collation_refl.
  split; [reflexivity|discriminate].
Qed.

Lemma earliest_is_least (item : string * string) (items : list (string * string)) :
  forall other, In other (item :: items) ->
    slot_le localeCompare
      (hd item (sort_by (slot_le localeCompare) (item :: items))) other = true.
Proof.
  assert (Hperm := sort_by_perm (slot_le localeCompare) (item :: items)).
  assert (Hasc := sort_by_ascending (slot_le localeCompare)
                    slot_le_total slot_le_trans (item :: items)).
  destruct (sort_by (slot_le localeCompare) (item :: items)) as [|x rest] eqn:Hs.
  - apply Permutation_length in Hperm. discriminate.
  - simpl. intros other Hother.
    apply (Permutation_in _ Hperm) in Hother.
    destruct Hother as [<-|Hother]; [apply slot_le_refl|].
    eapply ascending_head; eauto.
Qed.

End Collation.

Lemma code_unit_compare_consistent : consistent_collation code_unit_compare.
Proof.
  split.
  - intros a b. apply String.compare_antisym.
  - intros a b c Hab Hbc.
    assert (Hle : forall x y, code_unit_compare x y <> Gt <-> str_leb x y = true).
    { intros x y. unfold code_unit_compare, str_leb, String.leb.
      destruct (String.compare x y); split; intros H;
        try reflexivity; try discriminate. now contradiction H. }
    apply Hle. apply (str_leb_trans a b c); now apply Hle.
Qed.

Lemma qualifying_slot_origin (serviceId todayDate : string) (d : Db)
    (date time : string) :
  In (date, time) (qualifying_slots serviceId todayDate d) <->
  exists r a,
    In r (service_availability d) /\ In a (available_dates d)
    /\ sa_service_id r = serviceId /\ sa_is_available r = true
    /\ ad_id a = sa_date_id r /\ ad_date a = date /\ sa_time r = time
    /\ str_leb todayDate date = true.
Proof.
  unfold qualifying_slots, joined_dates. split.
  - intros H.
    apply in_flat_map in H. destruct H as (r & Hr & H).
    apply in_map_iff in H. destruct H as (a & [= <- <-] & Ha).
    apply filter_In in Hr. destruct Hr as [Hr Hp].
    apply filter_In in Ha. destruct Ha as [Ha Hge].
    apply filter_In in Ha. destruct Ha as [Ha Hid].
    apply andb_true_iff in Hp. destruct Hp as [Hs Hav].
    rewrite bool_eqb_true in Hav.
    exists r, a. repeat split; auto.
    + now apply String.eqb_eq.
    + now apply Nat.eqb_eq.
  - intros (r & a & Hr & Ha & Hs & Hav & Hid & Hd & Ht & Hge).
    apply in_flat_map. exists r. split.
    + apply filter_In. split; [exact Hr|].
      apply andb_true_iff. split; [now apply String.eqb_eq|].
      now rewrite bool_eqb_true.
    + apply in_map_iff. exists a. split; [now rewrite Hd, Ht|].
      apply filter_In. split.
      * apply filter_In. split; [exact Ha|]. now apply Nat.eqb_eq.
      * unfold str_geb. rewrite Hd. exact Hge.
Qed.

Lemma string_length_append (a b : string) :
  String.length (a ++ b) = String.length a + String.length b.
Proof. induction a as [|c a IH]; simpl; [reflexivity|]. now rewrite IH. Qed.

Lemma digits_length (width : nat) (n : Z) : String.length (digits width n) = width.
Proof.
  revert n. induction width as [|w IH]; intros n; simpl; [reflexivity|].
  rewrite string_length_append, IH. simpl. lia.
Qed.

Lemma year_in_range (ms : Z) :
  four_digit_year ms ->
  let '(y, m, d) := civil_from_days (ms / ms_per_day) in
  (1970 <= y <= 9999)%Z.
Proof.
  intros H. unfold four_digit_year in H. unfold civil_from_days, ms_per_day.
  set (days := (ms / 86400000)%Z).
  assert (Hd : (0 <= days <= 2932896)%Z).
  { subst days. split.
    - apply Z.div_pos; lia.
    - apply Z.lt_succ_r. apply Z.div_lt_upper_bound; lia. }
  clearbody days. clear H.
  cbv zeta.
  destruct (_ <? 10)%Z eqn:E1; destruct (_ <=? 2)%Z eqn:E2;
    Z.to_euclidean_division_equations; lia.
Qed.

(** From 1970 to 9999 today is a ten-character text, [YYYY-MM-DD]. *)
Lemma today_is_ten_characters (ms : Z) :
  four_digit_year ms -> String.length (toISODate ms) = 10.
Proof.
  intros H. pose proof (year_in_range ms H) as Hy.
  unfold toISODate.
  destruct (civil_from_days (ms / ms_per_day)) as [[y m] d].
  unfold year_string.
  replace ((0 <=? y) && (y <=? 9999))%Z with true
    by (symmetry; apply andb_true_iff; split; apply Z.leb_le; lia).
  rewrite !string_length_append, !digits_length. reflexivity.
Qed.

Lemma suggest_with_flag (localeCompare : string -> string -> comparison)
    (services : list Service) (serviceId : string) (w : World) :
  schedule w = [] ->
  let c := generateServiceSuggestion localeCompare services true serviceId in
  suggest localeCompare services true serviceId w
  = match suggestion_query serviceId (toISODate (now w)) (db w) with
    | item :: items =>
        let earliest :=
          hd item (sort_by (slot_le localeCompare) (item :: items)) in
        EarliestSlot (serviceNameOf services serviceId)
                     (fst earliest) (snd earliest)
    | [] => PickADate (serviceNameOf services serviceId)
    end
  /\ new_journal w (exec c w) = [Fulfilled]
  /\ db (exec c w) = db w.
Proof.
  destruct w as [d t s j e f m]; simpl; intros ->.
  unfold suggest, generateServiceSuggestion, new_journal. unfold_handler. simpl.
  destruct (suggestion_query serviceId (toISODate t) d); simpl;
    rewrite skipn_own_length; repeat split; reflexivity.
Qed.

Lemma suggest_without_flag (localeCompare : string -> string -> comparison)
    (services : list Service) (serviceId : string) (w : World) :
  exec (generateServiceSuggestion localeCompare services false serviceId) w = w.
Proof. destruct w. reflexivity. Qed.




(** ** Storage errors on the resolution path *)

Ltac journal_added :=
  unfold rejected_during, failed_during, new_journal;
  cbn [journal]; rewrite <- ?app_assoc; rewrite skipn_own_length;
  cbn [app existsb is_rejected is_failure orb].

Ltac next_call :=
  match goal with
  | |- context [match ?s with [] => Fulfilled | _ :: _ => _ end] =>
      is_var s; let s' := fresh "s" in destruct s as [|[] s']; simpl
  | |- context [maybeSingle ?l] => destruct (maybeSingle l); simpl
  | |- context [service_config_probe ?a ?b] =>
      destruct (service_config_probe a b); simpl
  | |- context [suggestion_query ?a ?b ?c] =>
      destruct (suggestion_query a b c); simpl
  end.

Lemma fetchServiceSpecificTimes_rejected (date serviceId : string) (w : World) :
  let w' := exec (fetchServiceSpecificTimes date serviceId) w in
  returns_normally (fetchServiceSpecificTimes date serviceId) w = true
  /\ (rejected_during w w' = true -> availableTimes (form w') = []).
Proof.
  destruct w as [d t s j e f m].
  unfold returns_normally, fetchServiceSpecificTimes. unfold_handler. simpl.
  repeat next_call; (split; [reflexivity|]); journal_added;
    intros H; try reflexivity; discriminate H.
Qed.

Lemma fetchAvailableTimes_rejected (date : string) (w : World) :
  let w' := exec (fetchAvailableTimes date) w in
  returns_normally (fetchAvailableTimes date) w = true
  /\ (rejected_during w w' = true -> availableTimes (form w') = []).
Proof.
  destruct w as [d t s j e f m].
  unfold returns_normally, fetchAvailableTimes. unfold_handler. simpl.
  repeat next_call; (split; [reflexivity|]); journal_added;
    intros H; try reflexivity; discriminate H.
Qed.

Lemma fetchAvailableDatesForService_failed (serviceId : string) (w : World) :
  let w' := exec (fetchAvailableDatesForService serviceId) w in
  returns_normally (fetchAvailableDatesForService serviceId) w = true
  /\ (failed_during w w' = true -> availableDates (form w') = []).
Proof.
  destruct w as [d t s j e f m].
  unfold returns_normally, fetchAvailableDatesForService. unfold_handler. simpl.
  repeat next_call; (split; [reflexivity|]); journal_added;
    intros H; try reflexivity; discriminate H.
Qed.

Lemma fetchGeneralAvailableDates_failed (w : World) :
  let w' := exec fetchGeneralAvailableDates w in
  returns_normally fetchGeneralAvailableDates w = true
  /\ (failed_during w w' = true -> availableDates (form w') = []).
Proof.
  destruct w as [d t s j e f m].
  unfold returns_normally, fetchGeneralAvailableDates. unfold_handler. simpl.
  repeat next_call; (split; [reflexivity|]); journal_added;
    intros H; try reflexivity; discriminate H.
Qed.

Lemma generateServiceSuggestion_rejected
    (localeCompare : string -> string -> comparison) (services : list Service)
    (hasServiceConfiguration : bool) (serviceId : string) (w : World) :
  let c := generateServiceSuggestion localeCompare services
             hasServiceConfiguration serviceId in
  let w' := exec c w in
  returns_normally c w = true
  /\ (rejected_during w w' = true -> serviceSuggestion (form w') = NoSuggestion).
Proof.
  destruct w as [d t s j e f m].
  unfold returns_normally, generateServiceSuggestion. unfold_handler.
  destruct hasServiceConfiguration; simpl.
  - repeat next_call; (split; [reflexivity|]); journal_added;
      intros H; try reflexivity; discriminate H.
  - split; [reflexivity|].
    unfold rejected_during, new_journal. simpl.
    rewrite skipn_all. discriminate.
Qed.

Lemma checkServiceConfiguration_rejected
    (localeCompare : string -> string -> comparison) (services : list Service)
    (hasServiceConfiguration : bool) (serviceId : string) (w : World) :
  let c := checkServiceConfiguration localeCompare services
             hasServiceConfiguration serviceId in
  let w' := exec c w in
  returns_normally c w = true
  /\ (hd_error (new_journal w w') = Some Rejected ->
        availableDates (form w') = []
        /\ serviceSuggestion (form w') = NoSuggestion
        /\ hasServiceConfigurationState (form w') = false).
Proof.
  destruct w as [d t s j e f m].
  unfold returns_normally, checkServiceConfiguration,
    fetchAvailableDatesForService, fetchGeneralAvailableDates,
    generateServiceSuggestion.
  unfold_handler.
  destruct hasServiceConfiguration; simpl;
    repeat next_call; (split; [reflexivity|]); journal_added;
      intros H; try discriminate H; auto.
Qed.

(** C8, as the code has it. No resolution-path operation propagates an
    error: each returns to its caller whatever the store does. When a store
    call throws (its promise is rejected), the date fetchers leave an empty
    date list, the time fetchers an empty time list and the suggestion is
    cleared, and the dispatcher whose own probe throws clears all three; the
    date fetchers also leave an empty list when their call reports the error
    in its result object. *)
Theorem C8_thrown_errors_degrade_to_empty
    (localeCompare : string -> string -> comparison) (services : list Service)
    (hasServiceConfiguration : bool) (serviceId date : string) (w : World) :
  (let c := fetchAvailableDatesForService serviceId in
   returns_normally c w = true
   /\ (failed_during w (exec c w) = true ->
         availableDates (form (exec c w)) = []))
  /\ (let c := fetchGeneralAvailableDates in
      returns_normally c w = true
      /\ (failed_during w (exec c w) = true ->
            availableDates (form (exec c w)) = []))
  /\ (let c := fetchServiceSpecificTimes date serviceId in
      returns_normally c w = true
      /\ (rejected_during w (exec c w) = true ->
            availableTimes (form (exec c w)) = []))
  /\ (let c := fetchAvailableTimes date in
      returns_normally c w = true
      /\ (rejected_during w (exec c w) = true ->
            availableTimes (form (exec c w)) = []))
  /\ (let c := generateServiceSuggestion localeCompare services
                   hasServiceConfiguration serviceId in
      returns_normally c w = true
      /\ (rejected_during w (exec c w) = true ->
            serviceSuggestion (form (exec c w)) = NoSuggestion))
  /\ (let c := checkServiceConfiguration localeCompare services
                   hasServiceConfiguration serviceId in
      returns_normally c w = true
      /\ (hd_error (new_journal w (exec c w)) = Some Rejected ->
            availableDates (form (exec c w)) = []
            /\ serviceSuggestion (form (exec c w)) = NoSuggestion
            /\ hasServiceConfigurationState (form (exec c w)) = false)).
Proof.
  split; [apply fetchAvailableDatesForService_failed|].
  split; [apply fetchGeneralAvailableDates_failed|].
  split; [apply fetchServiceSpecificTimes_rejected|].
  split; [apply fetchAvailableTimes_rejected|].
  split; [apply generateServiceSuggestion_rejected|].
  apply checkServiceConfiguration_rejected.
Qed.

Lemma C8_thrown_errors_degrade_to_empty_witness :
  let w := scheduled_world salon_db noon_utc [Fulfilled; Fulfilled; Rejected] in
  slotsFor "corte" "2026-11-10" w = []
  /\ suggest code_unit_compare [] true "corte"
             (scheduled_world november_db noon_utc [Rejected])
     = NoSuggestion.
Proof.
  pose proof (C8_thrown_errors_degrade_to_empty code_unit_compare [] true
                "corte" "2026-11-10"
                (scheduled_world salon_db noon_utc
                                 [Fulfilled; Fulfilled; Rejected]))
    as (_ & _ & (_ & Htimes) & _).
  pose proof (C8_thrown_errors_degrade_to_empty code_unit_compare [] true
                "corte" "2026-11-10"
                (scheduled_world november_db noon_utc [Rejected]))
    as (_ & _ & _ & _ & (_ & Hsuggest) & _).
  split; [exact (Htimes eq_refl)|exact (Hsuggest eq_refl)].
Defined.

(** C8 as stated fails for errors the store reports in the result object.
    When the configuration probe of a configured service fails that way,
    [slotsFor] answers from the general tier; when the query of the claimed
    times fails, nothing is subtracted and a claimed time is listed. *)
Lemma C8_counterexample :
  let probeFails := scheduled_world salon_db noon_utc [Fulfilled; ErrorResult] in
  let claimsFail :=
    scheduled_world salon_db noon_utc
                    [Fulfilled; Fulfilled; Fulfilled; ErrorResult] in
  hasConfiguration "corte" salon_db = true
  /\ failed_during probeFails
       (exec (fetchServiceSpecificTimes "2026-11-10" "corte") probeFails) = true
  /\ slotsFor "corte" "2026-11-10" probeFails = [("10:00", true)]
  /\ failed_during claimsFail
       (exec (fetchServiceSpecificTimes "2026-11-10" "barba") claimsFail) = true
  /\ slotsFor "barba" "2026-11-10" claimsFail
     = [("09:00", true); ("10:00", true)].
Proof. repeat split; reflexivity. Qed.

(** ** Booking the same slot again *)

Lemma maybeSingle_map {A B : Type} (g : A -> B) (l : list A) :
  maybeSingle (map g l) = option_map g (maybeSingle l).
Proof. destruct l as [|x [|y l]]; reflexivity. Qed.

Lemma service_slot_lookup_reflagged (serviceId : string) (dateId : Id)
    (time : string) (g : ServiceSlot -> ServiceSlot) (d : Db) :
  (forall r, exists v, g r = service_slot_flagged v r) ->
  service_slot_lookup serviceId dateId time (with_service_availability (map g) d)
  = map g (service_slot_lookup serviceId dateId time d).
Proof.
  intros Hg. unfold service_slot_lookup. simpl.
  induction (service_availability d) as [|r l IH]; simpl; [reflexivity|].
  destruct (Hg r) as [v Hv].
  assert (Hkey : sa_service_id (g r) = sa_service_id r
                 /\ sa_date_id (g r) = sa_date_id r
                 /\ sa_time (g r) = sa_time r) by now rewrite Hv.
  destruct Hkey as (-> & -> & ->).
  destruct (String.eqb (sa_service_id r) serviceId && Nat.eqb (sa_date_id r) dateId
            && String.eqb (sa_time r) time); simpl; now rewrite IH.
Qed.

Lemma set_service_available_reflags (id : Id) (v : bool) (r : ServiceSlot) :
  exists v',
    (if Nat.eqb (sa_id r) id then service_slot_flagged v r else r)
    = service_slot_flagged v' r.
Proof.
  destruct (Nat.eqb (sa_id r) id).
  - now exists v.
  - exists (sa_is_available r). now destruct r.
Qed.

Lemma set_service_available_twice (id : Id) (v : bool) (l : list ServiceSlot) :
  let upd := fun r => if Nat.eqb (sa_id r) id then service_slot_flagged v r else r in
  map upd (map upd l) = map upd l.
Proof.
  intros upd. rewrite map_map. apply map_ext. intros r. unfold upd.
  destruct (Nat.eqb (sa_id r) id) eqn:E; simpl; now rewrite E.
Qed.

Lemma set_general_unavailable_twice (dateId : Id) (time : string)
    (l : list GeneralSlot) :
  let upd := fun r =>
    if Nat.eqb (at_date_id r) dateId && String.eqb (at_time r) time
    then general_slot_flagged false r else r in
  map upd (map upd l) = map upd l.
Proof.
  intros upd. rewrite map_map. apply map_ext. intros r. unfold upd.
  destruct (Nat.eqb (at_date_id r) dateId && String.eqb (at_time r) time) eqn:E;
    simpl; now rewrite E.
Qed.

Lemma forget_flags_after_booking (w : World) (formData : FormData) :
  schedule w = [] ->
  valid_form formData = true ->
  forget_flags (db (exec (handleSubmit formData) w))
  = with_appointments (fun l => l ++ [appointment_of formData])
                      (forget_flags (db w)).
Proof.
  intros Hq Hvalid.
  destruct (handleSubmit_quiet w formData Hq Hvalid) as (_ & Hdb & _).
  rewrite Hdb.
  destruct (maybeSingle (dates_with_date (fd_date formData) (db w)))
    as [dateRow|]; [|reflexivity].
  destruct (maybeSingle (service_slot_lookup _ _ _ (db w))) as [slot|].
  - unfold forget_flags, set_service_available, with_available_times,
      with_service_availability, with_appointments. simpl. f_equal.
    rewrite map_map. apply map_ext. intros r.
    destruct (Nat.eqb (sa_id r) (sa_id slot)); reflexivity.
  - unfold forget_flags, set_general_unavailable, with_available_times,
      with_service_availability, with_appointments. simpl. f_equal.
    rewrite map_map. apply map_ext. intros r.
    destruct (Nat.eqb (at_date_id r) (ad_id dateRow)
              && String.eqb (at_time r) (fd_time formData)); reflexivity.
Qed.

Lemma handleSubmit_quiet_appointments (w : World) (formData : FormData) :
  schedule w = [] ->
  valid_form formData = true ->
  appointments (db (exec (handleSubmit formData) w))
  = appointments (db w) ++ [appointment_of formData].
Proof.
  intros Hq Hvalid.
  destruct (handleSubmit_quiet w formData Hq Hvalid) as (_ & Hdb & _).
  rewrite Hdb.
  destruct (maybeSingle (dates_with_date _ _)) as [dateRow|]; [|reflexivity].
  destruct (maybeSingle (service_slot_lookup _ _ _ _)); reflexivity.
Qed.

Lemma booked_db_twice (formData : FormData) (d : Db) :
  available_times (booked_db formData (booked_db formData d))
  = available_times (booked_db formData d)
  /\ service_availability (booked_db formData (booked_db formData d))
     = service_availability (booked_db formData d).
Proof.
  remember (booked_db formData d) as d1 eqn:Hd1.
  unfold booked_db in Hd1.
  destruct (maybeSingle (dates_with_date (fd_date formData) d))
    as [dateRow|] eqn:Hd.
  - destruct (maybeSingle (service_slot_lookup (fd_service formData)
                (ad_id dateRow) (fd_time formData) d)) as [slot|] eqn:Hs.
    + assert (Hdates : dates_with_date (fd_date formData) d1
                       = dates_with_date (fd_date formData) d) by now subst d1.
      assert (Hlookup :
        maybeSingle (service_slot_lookup (fd_service formData) (ad_id dateRow)
                       (fd_time formData) d1)
        = Some (service_slot_flagged false slot)).
      { subst d1. unfold set_service_available.
        rewrite (service_slot_lookup_reflagged (fd_service formData)
                   (ad_id dateRow) (fd_time formData) _
                   (with_appointments (fun l => l ++ [appointment_of formData]) d))
          by (intros r; apply set_service_available_reflags).
        change (service_slot_lookup (fd_service formData) (ad_id dateRow)
                  (fd_time formData)
                  (with_appointments (fun l => l ++ [appointment_of formData]) d))
          with (service_slot_lookup (fd_service formData) (ad_id dateRow)
                  (fd_time formData) d).
        rewrite maybeSingle_map, Hs. simpl. now rewrite Nat.eqb_refl. }
      unfold booked_db. rewrite Hdates, Hd, Hlookup. simpl.
      split; [reflexivity|].
      subst d1. simpl. apply set_service_available_twice.
    + assert (Hdates : dates_with_date (fd_date formData) d1
                       = dates_with_date (fd_date formData) d) by now subst d1.
      assert (Hlookup :
        service_slot_lookup (fd_service formData) (ad_id dateRow)
                            (fd_time formData) d1
        = service_slot_lookup (fd_service formData) (ad_id dateRow)
                              (fd_time formData) d) by now subst d1.
      unfold booked_db. rewrite Hdates, Hd, Hlookup, Hs. simpl.
      split; [|reflexivity].
      subst d1. simpl. apply set_general_unavailable_twice.
  - assert (Hdates : dates_with_date (fd_date formData) d1
                     = dates_with_date (fd_date formData) d) by now subst d1.
    unfold booked_db. rewrite Hdates, Hd. split; reflexivity.
Qed.

Lemma forallb_skipn {A : Type} (p : A -> bool) (n : nat) (l : list A) :
  forallb p l = true -> forallb p (skipn n l) = true.
Proof.
  revert l. induction n as [|n IH]; intros [|x l]; simpl; auto.
  intros H. apply andb_true_iff in H. now apply IH.
Qed.

(** A booking none of whose store calls throws, and whose insert is
    accepted, reports success whatever the later calls answer. *)
Lemma handleSubmit_unrejected (w : World) (formData : FormData) :
  valid_form formData = true ->
  hd Fulfilled (schedule w) = Fulfilled ->
  forallb (fun o => negb (is_rejected o)) (schedule w) = true ->
  let w' := exec (handleSubmit formData) w in
  book_succeeded w w' = true
  /\ appointments (db w') = appointments (db w) ++ [appointment_of formData]
  /\ exists n, schedule w' = skipn n (schedule w).
Proof.
  intros Hvalid Hhd Hall.
  destruct w as [d t s j e f m]; simpl in *.
  unfold handleSubmit.
  unfold valid_form in Hvalid. apply negb_true_iff in Hvalid. rewrite Hvalid.
  unfold book_succeeded. unfold_handler. simpl.
  repeat next_call; simpl in Hhd, Hall; try discriminate;
    (split; [rewrite <- ?app_assoc; rewrite skipn_own_length; reflexivity|]);
    (split; [reflexivity|]);
    first [ now exists 0 | now exists 1 | now exists 2 | now exists 3
          | now exists 4 ].
Qed.

Lemma lowered_service_rows (id : Id) (l : list ServiceSlot) (r : ServiceSlot) :
  In r (map (fun r0 => if Nat.eqb (sa_id r0) id
                       then service_slot_flagged false r0 else r0) l) ->
  sa_id r = id -> sa_is_available r = false.
Proof.
  intros Hin Hid. apply in_map_iff in Hin. destruct Hin as (r0 & <- & _).
  destruct (Nat.eqb (sa_id r0) id) eqn:E; [reflexivity|].
  apply Nat.eqb_neq in E. contradiction.
Qed.

Lemma lowered_general_rows (dateId : Id) (time : string) (l : list GeneralSlot)
    (g : GeneralSlot) :
  In g (map (fun g0 =>
               if Nat.eqb (at_date_id g0) dateId && String.eqb (at_time g0) time
               then general_slot_flagged false g0 else g0) l) ->
  at_date_id g = dateId -> at_time g = time -> at_is_available g = false.
Proof.
  intros Hin Hd Ht. apply in_map_iff in Hin. destruct Hin as (g0 & <- & _).
  destruct (Nat.eqb (at_date_id g0) dateId && String.eqb (at_time g0) time)
    eqn:E; [reflexivity|].
  rewrite Hd, Ht, Nat.eqb_refl, String.eqb_refl in E. discriminate.
Qed.

(** C10, as the code has it. Booking the same valid form twice in a row
    creates an appointment each time and reports success each time, provided
    each insert is accepted and no store call throws. With the store
    answering every call: when the service has a slot row of its own for the
    date and time, the first booking sets the flag of the rows with that id
    to false and changes no other slot row and no general row, and the second
    booking finds the same row, now unavailable, and sets it to false again;
    otherwise both bookings set to false every general row of that date and
    time and change no other general row and no slot row. Either way both
    slot tables are after the second booking exactly as after the first. The
    flag found in the store plays no part: on any store that differs from
    this one in flags only, the booking has the same effects and leaves the
    same store up to flags. *)
Theorem C10_second_booking_succeeds (w : World) (formData : FormData) :
  valid_form formData = true ->
  let w1 := exec (handleSubmit formData) w in
  let w2 := exec (handleSubmit formData) w1 in
  (hd Fulfilled (schedule w) = Fulfilled ->
   hd Fulfilled (schedule w1) = Fulfilled ->
   forallb (fun o => negb (is_rejected o)) (schedule w) = true ->
   book_succeeded w w1 = true
   /\ book_succeeded w1 w2 = true
   /\ appointments (db w2)
      = appointments (db w)
        ++ [appointment_of formData; appointment_of formData])
  /\ (schedule w = [] ->
      available_times (db w2) = available_times (db w1)
      /\ service_availability (db w2) = service_availability (db w1)
      /\ (forall dateRow slot,
            maybeSingle (dates_with_date (fd_date formData) (db w))
            = Some dateRow ->
            maybeSingle (service_slot_lookup (fd_service formData)
                           (ad_id dateRow) (fd_time formData) (db w))
            = Some slot ->
            service_availability (db w1)
            = map (fun r => if Nat.eqb (sa_id r) (sa_id slot)
                            then mkServiceSlot (sa_id r) (sa_service_id r)
                                               (sa_date_id r) (sa_time r) false
                            else r)
                  (service_availability (db w))
            /\ available_times (db w1) = available_times (db w)
            /\ maybeSingle (service_slot_lookup (fd_service formData)
                              (ad_id dateRow) (fd_time formData) (db w1))
               = Some (mkServiceSlot (sa_id slot) (sa_service_id slot)
                                     (sa_date_id slot) (sa_time slot) false)
            /\ (forall r, In r (service_availability (db w1)) ->
                          sa_id r = sa_id slot -> sa_is_available r = false)
            /\ (forall r, In r (service_availability (db w2)) ->
                          sa_id r = sa_id slot -> sa_is_available r = false))
      /\ (forall dateRow,
            maybeSingle (dates_with_date (fd_date formData) (db w))
            = Some dateRow ->
            maybeSingle (service_slot_lookup (fd_service formData)
                           (ad_id dateRow) (fd_time formData) (db w))
            = None ->
            available_times (db w1)
            = map (fun g => if Nat.eqb (at_date_id g) (ad_id dateRow)
                               && String.eqb (at_time g) (fd_time formData)
                            then mkGeneral (at_id g) (at_date_id g) (at_time g)
                                           false
                            else g)
                  (available_times (db w))
            /\ service_availability (db w1) = service_availability (db w)
            /\ (forall g, In g (available_times (db w1)) ->
                          at_date_id g = ad_id dateRow ->
                          at_time g = fd_time formData ->
                          at_is_available g = false)
            /\ (forall g, In g (available_times (db w2)) ->
                          at_date_id g = ad_id dateRow ->
                          at_time g = fd_time formData ->
                          at_is_available g = false))
      /\ (forall other,
            schedule other = [] ->
            forget_flags (db other) = forget_flags (db w) ->
            let other1 := exec (handleSubmit formData) other in
            book_succeeded other other1 = true
            /\ new_effects other other1 = new_effects w w1
            /\ forget_flags (db other1) = forget_flags (db w1))).
Proof.
  intros Hvalid w1 w2. split.
  - intros Hhd Hhd1 Hall.
    destruct (handleSubmit_unrejected w formData Hvalid Hhd Hall)
      as (Hok1 & Happ1 & n & Hn).
    fold w1 in Hok1, Happ1, Hn.
    assert (Hall1 : forallb (fun o => negb (is_rejected o)) (schedule w1) = true)
      by (rewrite Hn; now apply forallb_skipn).
    destruct (handleSubmit_unrejected w1 formData Hvalid Hhd1 Hall1)
      as (Hok2 & Happ2 & _).
    fold w2 in Hok2, Happ2.
    split; [exact Hok1|]. split; [exact Hok2|].
    rewrite Happ2, Happ1, <- app_assoc. reflexivity.
  - intros Hq.
    destruct (handleSubmit_quiet w formData Hq Hvalid) as (Heff1 & Hdb1 & Hq1).
    fold w1 in Heff1, Hdb1, Hq1.
    destruct (handleSubmit_quiet w1 formData Hq1 Hvalid) as (_ & Hdb2 & _).
    fold w2 in Hdb2.
    assert (Hb1 : db w1 = booked_db formData (db w)) by exact Hdb1.
    assert (Hb2 : db w2 = booked_db formData (db w1)) by exact Hdb2.
    assert (Htimes : available_times (db w2) = available_times (db w1))
      by (rewrite Hb2, Hb1; apply booked_db_twice).
    assert (Hslots : service_availability (db w2) = service_availability (db w1))
      by (rewrite Hb2, Hb1; apply booked_db_twice).
    split; [exact Htimes|]. split; [exact Hslots|].
    split.
    { intros dateRow slot Hdate Hslot.
      rewrite Hdate, Hslot in Hdb1.
      assert (Hrows : service_availability (db w1)
                = map (fun r => if Nat.eqb (sa_id r) (sa_id slot)
                                then service_slot_flagged false r else r)
                      (service_availability (db w)))
        by now rewrite Hdb1.
      split; [exact Hrows|].
      split; [now rewrite Hdb1|].
      split.
      - rewrite Hdb1. unfold set_service_available.
        rewrite (service_slot_lookup_reflagged (fd_service formData)
                   (ad_id dateRow) (fd_time formData) _
                   (with_appointments
                      (fun l => l ++ [appointment_of formData]) (db w)))
          by (intros r; apply set_service_available_reflags).
        change (service_slot_lookup (fd_service formData) (ad_id dateRow)
                  (fd_time formData)
                  (with_appointments
                     (fun l => l ++ [appointment_of formData]) (db w)))
          with (service_slot_lookup (fd_service formData) (ad_id dateRow)
                  (fd_time formData) (db w)).
        rewrite maybeSingle_map, Hslot. simpl. now rewrite Nat.eqb_refl.
      - split.
        + intros r Hr. rewrite Hrows in Hr.
          now apply (lowered_service_rows (sa_id slot)
                       (service_availability (db w)) r).
        + intros r Hr. rewrite Hslots, Hrows in Hr.
          now apply (lowered_service_rows (sa_id slot)
                       (service_availability (db w)) r). }
    split.
    { intros dateRow Hdate Hslot.
      rewrite Hdate, Hslot in Hdb1.
      assert (Hrows : available_times (db w1)
                = map (fun g => if Nat.eqb (at_date_id g) (ad_id dateRow)
                                   && String.eqb (at_time g) (fd_time formData)
                                then general_slot_flagged false g else g)
                      (available_times (db w)))
        by now rewrite Hdb1.
      split; [exact Hrows|].
      split; [now rewrite Hdb1|].
      split.
      - intros g Hg. rewrite Hrows in Hg.
        now apply (lowered_general_rows (ad_id dateRow) (fd_time formData)
                     (available_times (db w)) g).
      - intros g Hg. rewrite Htimes, Hrows in Hg.
        now apply (lowered_general_rows (ad_id dateRow) (fd_time formData)
                     (available_times (db w)) g). }
    intros other Hqo Hsame other1.
    destruct (handleSubmit_quiet other formData Hqo Hvalid) as (Heffo & _ & _).
    fold other1 in Heffo.
    split; [now rewrite (book_succeeded_iff _ _ _ Heffo)|].
    split.
    + now rewrite (new_effects_app _ _ _ Heffo), (new_effects_app _ _ _ Heff1).
    + unfold other1, w1.
      rewrite !forget_flags_after_booking by assumption. now rewrite Hsame.
Qed.

Lemma C10_second_booking_succeeds_witness :
  let w := quiet_world salon_db noon_utc in
  let w1 := exec (handleSubmit ana_at_nine) w in
  let w2 := exec (handleSubmit ana_at_nine) w1 in
  book_succeeded w w1 = true
  /\ book_succeeded w1 w2 = true
  /\ appointments (db w2)
     = [appointment_of ana_at_nine; appointment_of ana_at_nine]
  /\ service_availability (db w1) = [mkServiceSlot 1 "corte" 1 "09:00" false]
  /\ service_availability (db w2) = service_availability (db w1).
Proof.
  pose proof (C10_second_booking_succeeds (quiet_world salon_db noon_utc)
                ana_at_nine eq_refl) as (Hany & Hquiet).
  destruct (Hany eq_refl eq_refl eq_refl) as (H1 & H2 & H3).
  destruct (Hquiet eq_refl) as (_ & H4 & Hown & _).
  destruct (Hown (mkDate 1 "2026-11-10")
                 (mkServiceSlot 1 "corte" 1 "09:00" true) eq_refl eq_refl)
    as (H5 & _).
  split; [exact H1|]. split; [exact H2|]. split; [exact H3|].
  split; [exact H5|exact H4].
Defined.

(** C10 as stated fails when the insert is accepted and a later store call
    of the booking throws: the appointment is created, and the booking ends
    with an alert instead of reporting success. *)
Lemma C10_counterexample :
  let w := scheduled_world salon_db noon_utc [Fulfilled; Rejected] in
  let w1 := exec (handleSubmit ana_at_nine) w in
  valid_form ana_at_nine = true
  /\ new_journal w w1 = [Fulfilled; Rejected]
  /\ appointments (db w1) = [appointment_of ana_at_nine]
  /\ book_succeeded w w1 = false
  /\ new_effects w w1
     = [consoleLog "Form data:";
        consoleLog "Appointment created successfully:";
        consoleError "Error in appointment submission:";
        alert fetch_error]
  /\ service_availability (db w1) = service_availability salon_db.
Proof. vm_compute. repeat split; reflexivity. Qed.

(** ** Two sessions booking the same slot *)

(** Cutting [handleSubmit] at its awaits loses nothing: whatever the store
    answers, the segments run one after the other are the handler. *)
Lemma handleSubmit_by_segments_is_handleSubmit (formData : FormData) (w : World) :
  handleSubmit_by_segments formData w = handleSubmit formData w.
Proof.
  destruct w as [d t s j e f m].
  unfold handleSubmit_by_segments, handleSubmit, begin.
  destruct (falsy (fd_name formData) || falsy (fd_service formData)
            || falsy (fd_date formData) || falsy (fd_time formData)).
  - reflexivity.
  - unfold resume, segment. unfold_handler. simpl.
    repeat next_call; reflexivity.
Qed.

Ltac session_facts :=
  unfold written, failed, finished, succeeded, alerted;
  cbn [pc view effects];
  rewrite ?existsb_app; cbn [existsb is_onSubmit orb andb negb];
  rewrite ?orb_true_r, ?orb_false_r.

(** What one step does to the session that takes it. *)
Lemma step_cases (guard : StoreGuard) (formData : FormData) (s : Session)
    (d : Db) :
  (pc s = AtInsert -> succeeded s = false) ->
  (failed s = true -> alerted s = true) ->
  let s' := fst (step guard formData s d) in
  let d' := snd (step guard formData s d) in
  let refused :=
    unique_appointment guard
    && existsb (same_slot (appointment_of formData)) (appointments d) in
  pc s' <> AtInsert
  /\ (failed s' = true -> alerted s' = true)
  /\ ((pc s = AtInsert /\ refused = false
       /\ written formData s' = [appointment_of formData]
       /\ failed s' = false
       /\ appointments d' = appointments d ++ [appointment_of formData])
      \/ (pc s = AtInsert /\ refused = true
          /\ written formData s' = []
          /\ failed s' = true
          /\ appointments d' = appointments d)
      \/ (pc s <> AtInsert
          /\ written formData s' = written formData s
          /\ failed s' = failed s
          /\ appointments d' = appointments d)).
Proof.
  intros Hwait Halert. destruct s as [p [dv t sch j e f m]].
  unfold step, resume, segment, attach, store_outcome.
  cbn [pc view now journal effects form manager].
  destruct p.
  - specialize (Hwait eq_refl). unfold succeeded in Hwait. cbn in Hwait.
    destruct (unique_appointment guard
              && existsb (same_slot (appointment_of formData)) (appointments d))
      eqn:Hrefused; unfold_handler; cbn.
    + split; [discriminate|]. split; [session_facts; reflexivity|].
      right. left. session_facts. rewrite Hwait. auto.
    + split; [discriminate|]. split; [session_facts; discriminate|].
      left. session_facts. auto.
  - unfold_handler. cbn.
    destruct (maybeSingle (dates_with_date (fd_date formData) d)); cbn;
      (split; [discriminate|]); (split; [session_facts; discriminate|]);
      right; right; session_facts; (split; [discriminate|auto]).
  - unfold_handler. cbn.
    destruct (maybeSingle (service_slot_lookup _ _ _ d)); cbn;
      (split; [discriminate|]); (split; [session_facts; discriminate|]);
      right; right; session_facts; (split; [discriminate|auto]).
  - match goal with |- context [if ?c then ErrorResult else Fulfilled] =>
      destruct c end; unfold_handler; cbn;
      (split; [discriminate|]); (split; [session_facts; discriminate|]);
      right; right; session_facts; (split; [discriminate|auto]).
  - match goal with |- context [if ?c then ErrorResult else Fulfilled] =>
      destruct c end; unfold_handler; cbn;
      (split; [discriminate|]); (split; [session_facts; discriminate|]);
      right; right; session_facts; (split; [discriminate|auto]).
  - cbn. split; [discriminate|]. split; [exact Halert|].
    right. right. split; [discriminate|auto].
Qed.

Lemma same_slot_swap (a b : Appointment) (x : Appointment) :
  same_slot a b = true -> same_slot b x = same_slot a x.
Proof.
  unfold same_slot. intros H.
  repeat (apply andb_true_iff in H; destruct H as [H ?]).
  repeat match goal with
         | E : String.eqb _ _ = true |- _ => apply String.eqb_eq in E
         end.
  congruence.
Qed.

Lemma same_slot_refl (a : Appointment) : same_slot a a = true.
Proof. unfold same_slot. now rewrite !String.eqb_refl. Qed.

Lemma same_slot_sym (a b : Appointment) :
  same_slot a b = true -> same_slot b a = true.
Proof.
  intros H. rewrite (same_slot_swap a b a H). apply same_slot_refl.
Qed.

Lemma existsb_permutation {A : Type} (p : A -> bool) (l l' : list A) :
  Permutation l l' -> existsb p l = existsb p l'.
Proof.
  induction 1 as [|x l l' _ IH|x y l|l l' l'' _ IH1 _ IH2]; simpl.
  - reflexivity.
  - now rewrite IH.
  - destruct (p x), (p y); reflexivity.
  - congruence.
Qed.

Lemma existsb_pointwise {A : Type} (p q : A -> bool) (l : list A) :
  (forall x, p x = q x) -> existsb p l = existsb q l.
Proof.
  intros H. induction l as [|x l IH]; simpl; [reflexivity|].
  now rewrite H, IH.
Qed.

Lemma written_cases (formData : FormData) (s : Session) :
  written formData s = [] \/ written formData s = [appointment_of formData].
Proof.
  unfold written. destruct (pc s); auto. destruct (succeeded s); auto.
Qed.

Lemma written_waiting (formData : FormData) (s : Session) :
  pc s = AtInsert -> written formData s = [].
Proof. unfold written. now intros ->. Qed.

(** Whether the table holds an appointment for the slot, in terms of what
    the other session has written. *)
Lemma slot_taken (formData otherForm : FormData) (old added : list Appointment)
    (o : Session) :
  same_slot (appointment_of formData) (appointment_of otherForm) = true ->
  existsb (same_slot (appointment_of formData)) old = false ->
  Permutation added (written otherForm o) ->
  existsb (same_slot (appointment_of formData)) (old ++ added)
  = match written otherForm o with [] => false | _ :: _ => true end.
Proof.
  intros Hsame Hold Hperm.
  rewrite existsb_app, Hold, (existsb_permutation _ _ _ Hperm). simpl.
  destruct (written_cases otherForm o) as [-> | ->]; simpl; [reflexivity|].
  now rewrite Hsame.
Qed.

Lemma invariant_step (guard : StoreGuard) (formData otherForm : FormData)
    (old : list Appointment) (s o : Session) (d : Db) :
  same_slot (appointment_of formData) (appointment_of otherForm) = true ->
  (unique_appointment guard = true ->
   existsb (same_slot (appointment_of formData)) old = false) ->
  (exists added,
     appointments d = old ++ added
     /\ Permutation added (written formData s ++ written otherForm o)) ->
  (pc s = AtInsert -> succeeded s = false) ->
  (failed s = true -> alerted s = true) ->
  (if unique_appointment guard
   then List.length (written formData s ++ written otherForm o) <= 1
        /\ (failed s = true -> written otherForm o <> [])
        /\ (failed o = true -> written formData s <> [])
   else failed s = false /\ failed o = false) ->
  let s' := fst (step guard formData s d) in
  let d' := snd (step guard formData s d) in
  (exists added,
     appointments d' = old ++ added
     /\ Permutation added (written formData s' ++ written otherForm o))
  /\ (pc s' = AtInsert -> succeeded s' = false)
  /\ (failed s' = true -> alerted s' = true)
  /\ (if unique_appointment guard
      then List.length (written formData s' ++ written otherForm o) <= 1
           /\ (failed s' = true -> written otherForm o <> [])
           /\ (failed o = true -> written formData s' <> [])
      else failed s' = false /\ failed o = false).
Proof.
  intros Hsame Hold (added & Happs & Hperm) Hwait Halert Hinv s' d'.
  destruct (step_cases guard formData s d Hwait Halert) as (Hpc & Hal & Hcases).
  fold s' in Hpc, Hal, Hcases. fold d' in Hcases.
  cbv zeta in Hcases.
  destruct Hcases
    as [(Hs & Hacc & Hw & Hf & Hd) | [(Hs & Hacc & Hw & Hf & Hd)
                                     | (_ & Hw & Hf & Hd)]].
  - (* the insert is accepted *)
    rewrite (written_waiting formData s Hs) in Hperm, Hinv. simpl in Hperm, Hinv.
    split.
    { exists (added ++ [appointment_of formData]).
      rewrite Hd, Happs, Hw, <- app_assoc. split; [reflexivity|].
      etransitivity; [apply Permutation_app_comm|].
      simpl. now constructor. }
    split; [intros E; contradiction|]. split; [exact Hal|].
    rewrite Hw, Hf.
    destruct (unique_appointment guard).
    + simpl in Hacc.
      rewrite Happs, (slot_taken formData otherForm old added o Hsame
                        (Hold eq_refl) Hperm) in Hacc.
      destruct (written otherForm o); [|discriminate].
      simpl. split; [lia|]. split; [discriminate|]. intros _. discriminate.
    + destruct Hinv as [_ Hfo]. split; [reflexivity|exact Hfo].
  - (* the insert is refused *)
    rewrite (written_waiting formData s Hs) in Hperm, Hinv. simpl in Hperm, Hinv.
    split.
    { exists added. rewrite Hd, Hw. simpl. split; assumption. }
    split; [intros E; contradiction|]. split; [exact Hal|].
    rewrite Hw, Hf.
    destruct (unique_appointment guard); [|discriminate Hacc].
    simpl in Hacc.
    rewrite Happs, (slot_taken formData otherForm old added o Hsame
                      (Hold eq_refl) Hperm) in Hacc.
    destruct Hinv as (Hle & _ & Hfo). simpl.
    split; [exact Hle|]. split.
    + intros _ E. rewrite E in Hacc. discriminate.
    + intros Hfail. exfalso. now apply (Hfo Hfail).
  - split; [exists added; rewrite Hw, Hd; split; assumption|].
    split; [intros E; contradiction|]. split; [exact Hal|].
    rewrite Hw, Hf. exact Hinv.
Qed.

Lemma invariant_turn (guard : StoreGuard) (firstForm secondForm : FormData)
    (old : list Appointment) (t : bool) (st : Sessions) :
  same_slot (appointment_of firstForm) (appointment_of secondForm) = true ->
  (unique_appointment guard = true ->
   existsb (same_slot (appointment_of firstForm)) old = false) ->
  booking_invariant guard firstForm secondForm old st ->
  booking_invariant guard firstForm secondForm old
                    (turn_of guard firstForm secondForm t st).
Proof.
  intros Hsame Hold (Happs & Hw1 & Hw2 & Ha1 & Ha2 & Hinv).
  unfold booking_invariant, turn_of. destruct t.
  - pose proof (invariant_step guard firstForm secondForm old (first st)
                  (second st) (shared st) Hsame Hold Happs Hw1 Ha1 Hinv)
      as (Ha & Hw & Hal & Hi).
    destruct (step guard firstForm (first st) (shared st)) as [s' d'].
    cbn [fst snd first second shared] in *.
    split; [exact Ha|]. split; [exact Hw|]. split; [exact Hw2|].
    split; [exact Hal|]. split; [exact Ha2|exact Hi].
  - assert (Hsame' : same_slot (appointment_of secondForm)
                               (appointment_of firstForm) = true)
      by now apply same_slot_sym.
    assert (Hold' : unique_appointment guard = true ->
                    existsb (same_slot (appointment_of secondForm)) old = false).
    { intros Hu. rewrite <- (Hold Hu). apply existsb_pointwise. intros x.
      apply (same_slot_swap _ _ x Hsame). }
    assert (Happs' : exists added,
              appointments (shared st) = old ++ added
              /\ Permutation added (written secondForm (second st)
                                    ++ written firstForm (first st))).
    { destruct Happs as (added & E & P). exists added. split; [exact E|].
      etransitivity; [exact P|apply Permutation_app_comm]. }
    assert (Hinv' :
      if unique_appointment guard
      then List.length (written secondForm (second st)
                        ++ written firstForm (first st)) <= 1
           /\ (failed (second st) = true -> written firstForm (first st) <> [])
           /\ (failed (first st) = true -> written secondForm (second st) <> [])
      else failed (second st) = false /\ failed (first st) = false).
    { destruct (unique_appointment guard).
      - destruct Hinv as (Hle & H1 & H2).
        rewrite length_app, Nat.add_comm, <- length_app. auto.
      - destruct Hinv; split; assumption. }
    pose proof (invariant_step guard secondForm firstForm old (second st)
                  (first st) (shared st) Hsame' Hold' Happs' Hw2 Ha2 Hinv')
      as (Ha & Hw & Hal & Hi).
    destruct (step guard secondForm (second st) (shared st)) as [s' d'].
    cbn [fst snd first second shared] in *.
    split.
    { destruct Ha as (added & E & P). exists added. split; [exact E|].
      etransitivity; [exact P|apply Permutation_app_comm]. }
    split; [exact Hw1|]. split; [exact Hw|].
    split; [exact Ha1|]. split; [exact Hal|].
    destruct (unique_appointment guard).
    + destruct Hi as (Hle & H1 & H2).
      rewrite length_app, Nat.add_comm, <- length_app. auto.
    + destruct Hi; split; assumption.
Qed.

Lemma invariant_interleave (guard : StoreGuard)
    (firstForm secondForm : FormData) (old : list Appointment)
    (turns : list bool) :
  same_slot (appointment_of firstForm) (appointment_of secondForm) = true ->
  (unique_appointment guard = true ->
   existsb (same_slot (appointment_of firstForm)) old = false) ->
  forall st,
    booking_invariant guard firstForm secondForm old st ->
    booking_invariant guard firstForm secondForm old
                      (interleave guard firstForm secondForm turns st).
Proof.
  intros Hsame Hold. induction turns as [|t turns IH]; intros st Hinv; simpl.
  - exact Hinv.
  - apply IH. now apply invariant_turn.
Qed.

Lemma rank_step (guard : StoreGuard) (formData : FormData) (s : Session)
    (d : Db) :
  Nat.min 4 (S (rank s)) <= rank (fst (step guard formData s d)).
Proof.
  destruct s as [p [dv t sch j e f m]].
  unfold step, resume, segment, attach, store_outcome, rank.
  cbn [pc view now journal effects form manager].
  destruct p; unfold_handler; cbn; try lia.
  - destruct (unique_appointment guard && _); cbn; lia.
  - destruct (maybeSingle _); cbn; lia.
  - destruct (maybeSingle _); cbn; lia.
  - destruct (conditional_update guard && _); cbn; lia.
  - destruct (conditional_update guard && _); cbn; lia.
Qed.

Lemma turns_of_cons (who t : bool) (turns : list bool) :
  turns_of who (t :: turns)
  = (if Bool.eqb who t then 1 else 0) + turns_of who turns.
Proof. unfold turns_of. simpl. now destruct (Bool.eqb who t). Qed.

Lemma rank_interleave (guard : StoreGuard) (firstForm secondForm : FormData)
    (turns : list bool) :
  forall st,
    Nat.min 4 (rank (first st) + turns_of true turns)
      <= rank (first (interleave guard firstForm secondForm turns st))
    /\ Nat.min 4 (rank (second st) + turns_of false turns)
         <= rank (second (interleave guard firstForm secondForm turns st)).
Proof.
  induction turns as [|t turns IH]; intros st.
  - unfold turns_of. cbn [filter List.length interleave].
    rewrite !Nat.add_0_r. split; apply Nat.le_min_r.
  - simpl interleave. rewrite !turns_of_cons.
    destruct (IH (turn_of guard firstForm secondForm t st)) as [H1 H2].
    unfold turn_of in *. destruct t; simpl Bool.eqb; cbv iota.
    + pose proof (rank_step guard firstForm (first st) (shared st)) as Hr.
      destruct (step guard firstForm (first st) (shared st)) as [s' d'].
      cbn [first second fst] in *. lia.
    + pose proof (rank_step guard secondForm (second st) (shared st)) as Hr.
      destruct (step guard secondForm (second st) (shared st)) as [s' d'].
      cbn [first second fst] in *. lia.
Qed.

Lemma rank_finished (s : Session) : 4 <= rank s -> finished s = true.
Proof.
  unfold rank, finished. destruct (pc s); simpl; intros; first [reflexivity|lia].
Qed.

Lemma written_finished (formData : FormData) (s : Session) :
  finished s = true ->
  written formData s = if succeeded s then [appointment_of formData] else [].
Proof.
  unfold finished, written. destruct (pc s); try discriminate. reflexivity.
Qed.

Lemma start_valid (formData : FormData) (d : Db) (clock : Z) :
  valid_form formData = true ->
  pc (start formData d clock) = AtInsert
  /\ effects (view (start formData d clock)) = [consoleLog "Form data:"].
Proof.
  intros Hvalid. unfold start, begin.
  unfold valid_form in Hvalid. apply negb_true_iff in Hvalid. rewrite Hvalid.
  split; reflexivity.
Qed.

Lemma same_slot_of_forms (firstForm secondForm : FormData) :
  fd_service firstForm = fd_service secondForm ->
  fd_date firstForm = fd_date secondForm ->
  fd_time firstForm = fd_time secondForm ->
  same_slot (appointment_of firstForm) (appointment_of secondForm) = true.
Proof.
  intros Hs Hd Ht. unfold same_slot, appointment_of. simpl.
  rewrite Hs, Hd, Ht, !String.eqb_refl. reflexivity.
Qed.

(** C9, against the store of the design. Two sessions submit valid forms for
    the same (service, date, time), for whatever clients, and their store
    calls interleave in any order, each session being given the turns it
    needs; the store answers every call that its concurrency control does
    not refuse. Both bookings end. On a store without the unique constraint
    on appointments, with or without the conditional update of the flag,
    both report success and the table gains the appointments of both. On a
    store with the unique constraint and no appointment for the slot yet,
    exactly one reports success, the other ends with an alert, and the table
    gains the one appointment of the session that succeeded. *)
Theorem C9_interleaved_bookings (guard : StoreGuard)
    (firstForm secondForm : FormData) (d : Db) (clock : Z)
    (turns : list bool) :
  valid_form firstForm = true ->
  valid_form secondForm = true ->
  fd_service firstForm = fd_service secondForm ->
  fd_date firstForm = fd_date secondForm ->
  fd_time firstForm = fd_time secondForm ->
  4 <= turns_of true turns ->
  4 <= turns_of false turns ->
  (unique_appointment guard = true ->
   existsb (same_slot (appointment_of firstForm)) (appointments d) = false) ->
  let st := both_book guard firstForm secondForm turns d clock in
  finished (first st) = true
  /\ finished (second st) = true
  /\ (unique_appointment guard = false ->
        succeeded (first st) = true
        /\ succeeded (second st) = true
        /\ exists added,
             appointments (shared st) = appointments d ++ added
             /\ Permutation added [appointment_of firstForm;
                                   appointment_of secondForm])
  /\ (unique_appointment guard = true ->
        (succeeded (first st) = true
         /\ succeeded (second st) = false /\ alerted (second st) = true
         /\ appointments (shared st)
            = appointments d ++ [appointment_of firstForm])
        \/ (succeeded (second st) = true
            /\ succeeded (first st) = false /\ alerted (first st) = true
            /\ appointments (shared st)
               = appointments d ++ [appointment_of secondForm])).
Proof.
  intros Hvalid1 Hvalid2 Hs Hd Ht Hfirst Hsecond Hold st.
  pose proof (same_slot_of_forms firstForm secondForm Hs Hd Ht) as Hsame.
  destruct (start_valid firstForm d clock Hvalid1) as [Hpc1 Heff1].
  destruct (start_valid secondForm d clock Hvalid2) as [Hpc2 Heff2].
  assert (Hinit : booking_invariant guard firstForm secondForm (appointments d)
                    (mkSessions (start firstForm d clock)
                                (start secondForm d clock) d)).
  { unfold booking_invariant, written, failed, finished, succeeded.
    cbn [first second shared]. rewrite Hpc1, Hpc2, Heff1, Heff2. simpl.
    split; [exists []; rewrite app_nil_r; split; [reflexivity|constructor]|].
    repeat (split; [auto; discriminate|]).
    destruct (unique_appointment guard); repeat split; auto; discriminate. }
  pose proof (invariant_interleave guard firstForm secondForm (appointments d)
                turns Hsame Hold _ Hinit)
    as ((added & Happs & Hperm) & _ & _ & Ha1 & Ha2 & Hinv).
  destruct (rank_interleave guard firstForm secondForm turns
              (mkSessions (start firstForm d clock)
                          (start secondForm d clock) d)) as [Hr1 Hr2].
  fold (both_book guard firstForm secondForm turns d clock)
    in Happs, Hperm, Ha1, Ha2, Hinv, Hr1, Hr2.
  fold st in Happs, Hperm, Ha1, Ha2, Hinv, Hr1, Hr2.
  cbn [first second] in Hr1, Hr2.
  unfold rank in Hr1 at 1. unfold rank in Hr2 at 1.
  rewrite Hpc1 in Hr1. rewrite Hpc2 in Hr2.
  assert (Hf1 : finished (first st) = true) by (apply rank_finished; lia).
  assert (Hf2 : finished (second st) = true) by (apply rank_finished; lia).
  rewrite (written_finished _ _ Hf1), (written_finished _ _ Hf2) in Hperm, Hinv.
  unfold failed in Hinv, Ha1, Ha2. rewrite Hf1 in Hinv, Ha1.
  rewrite Hf2 in Hinv, Ha2. simpl in Hinv, Ha1, Ha2.
  split; [exact Hf1|]. split; [exact Hf2|].
  split; intros Hu; rewrite Hu in Hinv.
  - destruct Hinv as [H1 H2].
    apply negb_false_iff in H1, H2. rewrite H1, H2 in Hperm.
    split; [exact H1|]. split; [exact H2|].
    exists added. split; assumption.
  - destruct Hinv as (Hle & H1 & H2).
    destruct (succeeded (first st)), (succeeded (second st));
      simpl in Hle, H1, H2, Hperm, Ha1, Ha2.
    + lia.
    + left. split; [reflexivity|]. split; [reflexivity|].
      split; [now apply Ha2|].
      apply Permutation_sym, Permutation_length_1_inv in Hperm.
      now rewrite Happs, Hperm.
    + right. split; [reflexivity|]. split; [reflexivity|].
      split; [now apply Ha1|].
      apply Permutation_sym, Permutation_length_1_inv in Hperm.
      now rewrite Happs, Hperm.
    + exfalso. now apply (H1 eq_refl).
Qed.

Lemma C9_interleaved_bookings_witness :
  let st := both_book unique_only ana_at_nine bia_at_nine alternating
                      salon_db noon_utc in
  succeeded (first st) = true
  /\ succeeded (second st) = false
  /\ alerted (second st) = true
  /\ appointments (shared st) = [appointment_of ana_at_nine].
Proof.
  pose proof (C9_interleaved_bookings unique_only ana_at_nine bia_at_nine
                salon_db noon_utc alternating eq_refl eq_refl eq_refl eq_refl
                eq_refl (le_n 4) (le_n 4) (fun _ => eq_refl))
    as (_ & _ & _ & H).
  destruct (H eq_refl) as [(H1 & H2 & H3 & H4) | (H1 & H2 & _)].
  - split; [exact H1|]. split; [exact H2|]. split; [exact H3|exact H4].
  - exfalso. vm_compute in H2. discriminate H2.
Defined.

(** C9 as stated fails on a store that the design allows: one that makes
    the update of the flag conditional and puts no unique constraint on the
    appointments. Two clients book the same slot with their calls
    alternating; the update of the second is refused, which [book] only
    logs; both bookings report success, neither is alerted, and the slot has
    two appointments. *)
Lemma C9_counterexample :
  let st := both_book conditional_only ana_at_nine bia_at_nine alternating
                      salon_db noon_utc in
  finished (first st) = true
  /\ finished (second st) = true
  /\ succeeded (first st) = true
  /\ succeeded (second st) = true
  /\ alerted (first st) = false
  /\ alerted (second st) = false
  /\ journal (view (second st)) = [Fulfilled; Fulfilled; Fulfilled; ErrorResult]
  /\ appointments (shared st)
     = [appointment_of ana_at_nine; appointment_of bia_at_nine].
Proof. vm_compute. repeat split; reflexivity. Qed.

(** On a store that refuses nothing, a step of a session is the segment of
    the handler run in the world of the session. *)
Lemma step_unguarded (formData : FormData) (p : Pc) (w : World) :
  schedule w = [] ->
  step (mkGuard false false) formData (mkSession p w) (db w)
  = match resume formData p w with
    | (Val next, w') => (mkSession next w', db w')
    | (Thrown _, w') => (mkSession Finished w', db w')
    end
  /\ schedule (snd (resume formData p w)) = []
  /\ exists next, fst (resume formData p w) = Val next.
Proof.
  destruct w as [d t s j e f m]. cbn [schedule db]. intros ->.
  unfold step, attach, store_outcome, resume, segment.
  cbn [pc view now journal effects form manager conditional_update
       unique_appointment andb].
  destruct p; unfold_handler; cbn;
    repeat match goal with
           | |- context [maybeSingle ?l] => destruct (maybeSingle l); cbn
           end;
    (split; [reflexivity|]); (split; [reflexivity|]); eexists; reflexivity.
Qed.

(** One session running alone on a store that refuses nothing does what
    [handleSubmit] does on a store that answers every call: it ends in the
    same world, store included. *)
Lemma solo_session_is_handleSubmit (formData otherForm : FormData)
    (other : Session) (d : Db) (clock : Z) :
  let st := interleave (mkGuard false false) formData otherForm
              [true; true; true; true]
              (mkSessions (start formData d clock) other d) in
  view (first st) = exec (handleSubmit formData) (quiet_world d clock)
  /\ shared st = db (view (first st))
  /\ second st = other.
Proof.
  cbv zeta. unfold exec. rewrite <- handleSubmit_by_segments_is_handleSubmit.
  unfold handleSubmit_by_segments, start, bind.
  assert (Hbegin : exists p0 w0,
            begin formData (quiet_world d clock) = (Val p0, w0)
            /\ schedule w0 = [] /\ db w0 = d).
  { unfold begin.
    destruct (falsy (fd_name formData) || falsy (fd_service formData)
              || falsy (fd_date formData) || falsy (fd_time formData));
      eexists; eexists; (split; [reflexivity|split; reflexivity]). }
  destruct Hbegin as (p0 & w0 & -> & Hq0 & <-).
  cbn [interleave turn_of first second shared].
  destruct (step_unguarded formData p0 w0 Hq0) as (-> & Hq1 & p1 & Hp1).
  destruct (resume formData p0 w0) as [r1 w1]. cbn [fst snd] in *. subst r1.
  cbn [first second shared].
  destruct (step_unguarded formData p1 w1 Hq1) as (-> & Hq2 & p2 & Hp2).
  destruct (resume formData p1 w1) as [r2 w2]. cbn [fst snd] in *. subst r2.
  cbn [first second shared].
  destruct (step_unguarded formData p2 w2 Hq2) as (-> & Hq3 & p3 & Hp3).
  destruct (resume formData p2 w2) as [r3 w3]. cbn [fst snd] in *. subst r3.
  cbn [first second shared].
  destruct (step_unguarded formData p3 w3 Hq3) as (-> & Hq4 & p4 & Hp4).
  destruct (resume formData p3 w3) as [r4 w4]. cbn [fst snd] in *. subst r4.
  cbn [first second shared view]. repeat split; reflexivity.
Qed.


(** * Further properties of the two components

    ** The service-specific tier of [slotsFor] *)

Lemma probe_with_configuration (serviceId : string) (d : Db) :
  hasConfiguration serviceId d = true ->
  exists id ids, service_config_probe serviceId d = id :: ids.
Proof.
  unfold hasConfiguration, service_config_probe.
  induction (service_availability d) as [|r l IH]; simpl; [discriminate|].
  destruct (String.eqb (sa_service_id r) serviceId); simpl.
  - intros _. now exists (sa_id r), [].
  - exact IH.
Qed.

Lemma slotsFor_service_tier_eval (w : World) (serviceId date : string)
    (dateRow : DateRecord) :
  schedule w = [] ->
  maybeSingle (dates_with_date date (db w)) = Some dateRow ->
  hasConfiguration serviceId (db w) = true ->
  slotsFor serviceId date w
  = service_times_query serviceId (ad_id dateRow) (db w).
Proof.
  intros Hq Hdate Hcfg.
  destruct (probe_with_configuration _ _ Hcfg) as (id & ids & Hprobe).
  destruct w as [d t s j e f m]; simpl in *; subst s.
  unfold slotsFor, fetchServiceSpecificTimes. unfold_handler. simpl.
  rewrite Hdate. simpl. rewrite Hprobe. reflexivity.
Qed.

(** X1. For a service that has slot rows of its own, [slotsFor] lists
    exactly the available slot rows of that service on that date, in
    ascending order of time: rows of other services, rows of other dates,
    unavailable rows and general rows are never offered. *)
Theorem slotsFor_service_tier (w : World) (serviceId date : string)
    (dateRow : DateRecord) :
  schedule w = [] ->
  maybeSingle (dates_with_date date (db w)) = Some dateRow ->
  hasConfiguration serviceId (db w) = true ->
  let slots := slotsFor serviceId date w in
  Permutation slots
    (map (fun r => (sa_time r, sa_is_available r))
         (open_service_rows serviceId (ad_id dateRow) (db w)))
  /\ ascending time_row_le slots
  /\ (forall time flag, In (time, flag) slots ->
        flag = true
        /\ exists r, In r (service_availability (db w))
                     /\ sa_service_id r = serviceId
                     /\ sa_date_id r = ad_id dateRow
                     /\ sa_time r = time
                     /\ sa_is_available r = true).
Proof.
  intros Hq Hdate Hcfg slots.
  assert (Hperm : Permutation slots
    (map (fun r => (sa_time r, sa_is_available r))
         (open_service_rows serviceId (ad_id dateRow) (db w)))).
  { subst slots. rewrite (slotsFor_service_tier_eval _ _ _ _ Hq Hdate Hcfg).
    unfold service_times_query, open_service_rows.
    apply Permutation_map, Permutation_sym.
    erewrite filter_ext; [apply sort_by_perm|].
    intros r. simpl. now rewrite bool_eqb_true. }
  split; [exact Hperm|split].
  - subst slots. rewrite (slotsFor_service_tier_eval _ _ _ _ Hq Hdate Hcfg).
    unfold service_times_query.
    apply ascending_map with (leA := service_time_le); [auto|].
    apply sort_by_ascending.
    + intros a b. apply str_leb_false.
    + intros a b c. apply str_leb_trans.
  - intros time flag Hin.
    apply (Permutation_in _ Hperm) in Hin.
    apply in_map_iff in Hin. destruct Hin as (r & [= <- <-] & Hr).
    apply filter_In in Hr. destruct Hr as [Hr Hp].
    rewrite !andb_true_iff in Hp. destruct Hp as [[Hs Hd] Ha].
    split; [exact Ha|]. exists r. repeat split; auto.
    + now apply String.eqb_eq.
    + now apply Nat.eqb_eq.
Qed.

Lemma slotsFor_service_tier_witness :
  Permutation (slotsFor "corte" "2026-11-10" (quiet_world salon_db noon_utc))
              [("09:00", true)].
Proof.
  exact (proj1 (slotsFor_service_tier (quiet_world salon_db noon_utc) "corte"
                  "2026-11-10" (mkDate 1 "2026-11-10")
                  eq_refl eq_refl eq_refl)).
Defined.

(** X2. For a date that has no record (or more than one), [slotsFor] is
    empty whatever the service, after a single store call, and leaves the
    form neither loading nor holding a selected time. *)
Theorem slotsFor_unknown_date (w : World) (serviceId date : string) :
  schedule w = [] ->
  maybeSingle (dates_with_date date (db w)) = None ->
  let w' := exec (fetchServiceSpecificTimes date serviceId) w in
  slotsFor serviceId date w = []
  /\ calls_made w w' = 1
  /\ loadingTimes (form w') = false
  /\ selectedTime (form w') = ""
  /\ db w' = db w.
Proof.
  intros Hq Hdate.
  destruct w as [d t s j e f m]; simpl in *; subst s.
  unfold slotsFor, calls_made, new_journal, fetchServiceSpecificTimes.
  unfold_handler. simpl. rewrite Hdate. simpl.
  rewrite skipn_own_length. auto.
Qed.

Lemma slotsFor_unknown_date_witness :
  slotsFor "corte" "2026-12-25" (quiet_world salon_db noon_utc) = [].
Proof.
  exact (proj1 (slotsFor_unknown_date (quiet_world salon_db noon_utc) "corte"
                  "2026-12-25" eq_refl eq_refl)).
Defined.



(** ** The dispatcher [checkServiceConfiguration] *)

Lemma probe_reflects_configuration (serviceId : string) (d : Db) :
  match service_config_probe serviceId d with
  | _ :: _ => true
  | [] => false
  end = hasConfiguration serviceId d.
Proof.
  destruct (hasConfiguration serviceId d) eqn:H.
  - destruct (probe_with_configuration _ _ H) as (id & ids & ->). reflexivity.
  - now rewrite (probe_without_configuration _ _ H).
Qed.

Lemma service_date_origin (serviceId : string) (d : Db) (date : string) :
  In date (service_dates_query serviceId d) <->
  exists r a,
    In r (service_availability d) /\ In a (available_dates d)
    /\ sa_service_id r = serviceId /\ sa_is_available r = true
    /\ ad_id a = sa_date_id r /\ ad_date a = date.
Proof.
  unfold service_dates_query, joined_dates. split.
  - intros H. apply in_flat_map in H. destruct H as (r & Hr & H).
    apply in_map_iff in H. destruct H as (a & <- & Ha).
    apply filter_In in Hr. destruct Hr as [Hr Hp].
    apply filter_In in Ha. destruct Ha as [Ha Hid].
    apply andb_true_iff in Hp. destruct Hp as [Hs Hav].
    rewrite bool_eqb_true in Hav.
    exists r, a. repeat split; auto.
    + now apply String.eqb_eq.
    + now apply Nat.eqb_eq.
  - intros (r & a & Hr & Ha & Hs & Hav & Hid & Hdate).
    apply in_flat_map. exists r. split.
    + apply filter_In. split; [exact Hr|].
      rewrite Hav. simpl. rewrite andb_true_r. now apply String.eqb_eq.
    + apply in_map_iff. exists a. split; [exact Hdate|].
      apply filter_In. split; [exact Ha|]. now apply Nat.eqb_eq.
Qed.

(** X4. With the store answering, the dispatcher sets [hasServiceConfiguration]
    to whether the service has any slot row, on any date and with any flag.
    For a service without one it clears the suggestion and offers every
    registered date not before today, whatever slots that date has; for a
    service with one it offers exactly the dates, not before today, on which
    the service has an available slot row. *)
Theorem checkServiceConfiguration_selects_tier
    (localeCompare : string -> string -> comparison) (services : list Service)
    (hasServiceConfiguration : bool) (serviceId : string) (w : World) :
  schedule w = [] ->
  let w' := exec (checkServiceConfiguration localeCompare services
                    hasServiceConfiguration serviceId) w in
  let todayDate := toISODate (now w) in
  hasServiceConfigurationState (form w') = hasConfiguration serviceId (db w)
  /\ (hasConfiguration serviceId (db w) = false ->
        serviceSuggestion (form w') = NoSuggestion
        /\ Permutation (availableDates (form w'))
             (filter (fun date => str_geb date todayDate)
                     (map ad_date (available_dates (db w)))))
  /\ (hasConfiguration serviceId (db w) = true ->
        forall date,
          In date (availableDates (form w')) <->
          str_leb todayDate date = true
          /\ exists r a,
               In r (service_availability (db w))
               /\ In a (available_dates (db w))
               /\ sa_service_id r = serviceId /\ sa_is_available r = true
               /\ ad_id a = sa_date_id r /\ ad_date a = date).
Proof.
  intros Hq w' todayDate.
  assert (Heval :
    hasServiceConfigurationState (form w') = hasConfiguration serviceId (db w)
    /\ (hasConfiguration serviceId (db w) = false ->
          serviceSuggestion (form w') = NoSuggestion
          /\ availableDates (form w')
             = sort_by str_leb
                 (filter (fun date => str_geb date todayDate)
                         (general_dates_query (db w))))
    /\ (hasConfiguration serviceId (db w) = true ->
          availableDates (form w')
          = sort_by str_leb
              (filter (fun date => str_geb date todayDate)
                      (service_dates_query serviceId (db w))))).
  { subst w' todayDate.
    rewrite <- (probe_reflects_configuration serviceId (db w)).
    destruct w as [d t s j e f m]; simpl in *; subst s.
    unfold checkServiceConfiguration, fetchAvailableDatesForService,
      fetchGeneralAvailableDates, generateServiceSuggestion.
    unfold_handler. simpl.
    destruct (service_config_probe serviceId d) as [|id ids]; simpl.
    - split; [reflexivity|]. split; [auto|discriminate].
    - destruct hasServiceConfiguration; simpl.
      + destruct (suggestion_query serviceId (toISODate t) d); simpl;
          (split; [reflexivity|]); (split; [discriminate|auto]).
      + split; [reflexivity|]. split; [discriminate|auto]. }
  destruct Heval as (Hflag & Hgen & Hsvc).
  split; [exact Hflag|]. split.
  - intros Hcfg. destruct (Hgen Hcfg) as [Hs Hd].
    split; [exact Hs|]. rewrite Hd.
    etransitivity; [apply Permutation_sym, sort_by_perm|].
    apply filter_permutation. unfold general_dates_query.
    apply Permutation_sym, sort_by_perm.
  - intros Hcfg date. rewrite (Hsvc Hcfg), sort_by_in, filter_In.
    rewrite service_date_origin. unfold str_geb, str_leb. tauto.
Qed.

Lemma checkServiceConfiguration_selects_tier_witness :
  let w' := exec (checkServiceConfiguration code_unit_compare [] false "barba")
                 (quiet_world november_db noon_utc) in
  hasServiceConfigurationState (form w') = false
  /\ serviceSuggestion (form w') = NoSuggestion.
Proof.
  destruct (checkServiceConfiguration_selects_tier code_unit_compare [] false
              "barba" (quiet_world november_db noon_utc) eq_refl)
    as (Hflag & Hgen & _).
  split; [exact Hflag|exact (proj1 (Hgen eq_refl))].
Defined.



(** ** Submitting the form *)

(** X6. A submission with any of the four fields empty is refused before
    anything else happens: one alert, no store call, the store and the form
    state (the submitting flag included) as they were, and no success
    report. *)
Theorem handleSubmit_missing_field (w : World) (formData : FormData) :
  valid_form formData = false ->
  let w' := exec (handleSubmit formData) w in
  new_effects w w' = [alert "Por favor, preencha todos os campos obrigatórios"]
  /\ calls_made w w' = 0
  /\ db w' = db w
  /\ form w' = form w
  /\ schedule w' = schedule w
  /\ book_succeeded w w' = false.
Proof.
  intros Hvalid.
  unfold valid_form in Hvalid. apply negb_false_iff in Hvalid.
  destruct w as [d t s j e f m].
  unfold handleSubmit. rewrite Hvalid.
  unfold calls_made, new_journal, new_effects, book_succeeded.
  unfold_handler. simpl.
  rewrite !skipn_own_length, !skipn_all. simpl. repeat split; reflexivity.
Qed.

Lemma handleSubmit_missing_field_witness :
  let w := quiet_world salon_db noon_utc in
  let w' := exec (handleSubmit (mkFormData "Ana" "corte" "2026-11-10" "")) w in
  db w' = db w /\ book_succeeded w w' = false.
Proof.
  destruct (handleSubmit_missing_field (quiet_world salon_db noon_utc)
              (mkFormData "Ana" "corte" "2026-11-10" "") eq_refl)
    as (_ & _ & Hdb & _ & _ & Hok).
  split; [exact Hdb|exact Hok].
Defined.

(** X7. When the appointment insert fails, by an error in its result or by a
    rejected call, the submission stops there: no appointment is written, no
    slot of either tier is touched, no further store call is made, the user
    gets an alert and no success is reported. *)
Theorem handleSubmit_insert_fails (w : World) (formData : FormData) :
  valid_form formData = true ->
  hd Fulfilled (schedule w) <> Fulfilled ->
  let w' := exec (handleSubmit formData) w in
  db w' = db w
  /\ calls_made w w' = 1
  /\ book_succeeded w w' = false
  /\ existsb is_alert (new_effects w w') = true
  /\ submitting (form w') = false.
Proof.
  intros Hvalid Hhd.
  unfold valid_form in Hvalid. apply negb_true_iff in Hvalid.
  destruct w as [d t s j e f m]. simpl in Hhd.
  unfold handleSubmit. rewrite Hvalid.
  unfold calls_made, new_journal, new_effects, book_succeeded.
  unfold_handler. simpl.
  destruct s as [|[] s]; simpl in *; try congruence;
    rewrite <- ?app_assoc; rewrite !skipn_own_length; auto.
Qed.

Lemma handleSubmit_insert_fails_witness :
  let w := scheduled_world salon_db noon_utc [ErrorResult] in
  let w' := exec (handleSubmit ana_at_nine) w in
  db w' = db w /\ book_succeeded w w' = false.
Proof.
  destruct (handleSubmit_insert_fails
              (scheduled_world salon_db noon_utc [ErrorResult]) ana_at_nine
              eq_refl)
    as (Hdb & _ & Hok & _).
  - discriminate.
  - split; [exact Hdb|exact Hok].
Defined.

Ltac effects_added :=
  unfold book_succeeded, new_effects, calls_made, rejected_during, new_journal;
  cbn [effects journal]; rewrite <- ?app_assoc; rewrite ?skipn_own_length;
  cbn [app existsb is_onSubmit is_alert is_rejected orb xorb List.length].

(** X8. Whatever the store answers, a submission with the four fields filled
    returns to its caller with the submitting flag cleared, and ends in
    exactly one of two ways: [onSubmit] is called, or the user gets an alert;
    never both and never neither. *)
Theorem handleSubmit_reports_or_alerts (w : World) (formData : FormData) :
  valid_form formData = true ->
  let w' := exec (handleSubmit formData) w in
  returns_normally (handleSubmit formData) w = true
  /\ submitting (form w') = false
  /\ xorb (book_succeeded w w') (existsb is_alert (new_effects w w')) = true.
Proof.
  intros Hvalid.
  unfold valid_form in Hvalid. apply negb_true_iff in Hvalid.
  destruct w as [d t s j e f m].
  unfold returns_normally, handleSubmit. rewrite Hvalid.
  unfold_handler. simpl.
  repeat next_call; effects_added; auto.
Qed.

Lemma handleSubmit_reports_or_alerts_witness :
  let w := scheduled_world salon_db noon_utc [Fulfilled; Rejected] in
  let w' := exec (handleSubmit ana_at_nine) w in
  xorb (book_succeeded w w') (existsb is_alert (new_effects w w')) = true.
Proof.
  exact (proj2 (proj2 (handleSubmit_reports_or_alerts
                         (scheduled_world salon_db noon_utc [Fulfilled; Rejected])
                         ana_at_nine eq_refl))).
Defined.

(** X9. The appointment is written before the slot is looked up, and is not
    taken back: when the insert is accepted and a later store call throws, the
    appointment stays in the store although the user gets an alert and no
    success is reported. *)
Theorem handleSubmit_keeps_appointment_on_later_throw (w : World)
    (formData : FormData) :
  valid_form formData = true ->
  hd Fulfilled (schedule w) = Fulfilled ->
  let w' := exec (handleSubmit formData) w in
  rejected_during w w' = true ->
  appointments (db w') = appointments (db w) ++ [appointment_of formData]
  /\ book_succeeded w w' = false
  /\ existsb is_alert (new_effects w w') = true.
Proof.
  intros Hvalid Hhd.
  unfold valid_form in Hvalid. apply negb_true_iff in Hvalid.
  destruct w as [d t s j e f m]. simpl in Hhd.
  unfold handleSubmit. rewrite Hvalid.
  unfold_handler. simpl.
  repeat next_call; simpl in Hhd; try discriminate Hhd;
    effects_added; intros H; try discriminate H; auto.
Qed.

Lemma handleSubmit_keeps_appointment_on_later_throw_witness :
  let w := scheduled_world salon_db noon_utc [Fulfilled; Rejected] in
  let w' := exec (handleSubmit ana_at_nine) w in
  appointments (db w') = [appointment_of ana_at_nine]
  /\ book_succeeded w w' = false.
Proof.
  destruct (handleSubmit_keeps_appointment_on_later_throw
              (scheduled_world salon_db noon_utc [Fulfilled; Rejected])
              ana_at_nine eq_refl eq_refl eq_refl) as (Happ & Hok & _).
  split; [exact Happ|exact Hok].
Defined.

Lemma Forall2_same {A : Type} (R : A -> A -> Prop) (l : list A) :
  (forall x, R x x) -> Forall2 R l l.
Proof. intros HR. induction l; constructor; auto. Qed.

Lemma Forall2_update {A : Type} (R : A -> A -> Prop) (f : A -> A) (l : list A) :
  (forall x, R x (f x)) -> Forall2 R l (map f l).
Proof. intros HR. induction l; simpl; constructor; auto. Qed.

(** X10. Whatever the store answers and whatever the form holds, a
    submission never adds, removes or reorders a slot row and never makes a
    slot available: every row of either tier is afterwards untouched or the
    same row set unavailable. The date records are untouched, and the
    appointments gain at most the one appointment of the form. *)
Theorem handleSubmit_only_lowers_flags (w : World) (formData : FormData) :
  let w' := exec (handleSubmit formData) w in
  Forall2 general_kept_or_lowered
          (available_times (db w)) (available_times (db w'))
  /\ Forall2 service_kept_or_lowered
             (service_availability (db w)) (service_availability (db w'))
  /\ available_dates (db w') = available_dates (db w)
  /\ (appointments (db w') = appointments (db w)
      \/ appointments (db w')
         = appointments (db w) ++ [appointment_of formData]).
Proof.
  assert (Hg : forall l, Forall2 general_kept_or_lowered l l)
    by (intros l; apply Forall2_same; now left).
  assert (Hs : forall l, Forall2 service_kept_or_lowered l l)
    by (intros l; apply Forall2_same; now left).
  destruct w as [d t s j e f m].
  unfold handleSubmit.
  destruct (falsy (fd_name formData) || falsy (fd_service formData)
            || falsy (fd_date formData) || falsy (fd_time formData)).
  - unfold_handler. simpl. auto.
  - unfold_handler. simpl.
    repeat next_call; (split; [|split; [|split; [reflexivity|auto]]]);
      first [ apply Hg | apply Hs
            | apply Forall2_update; intros r;
              match goal with
              | |- context [if ?c then _ else _] => destruct c
              end; [now right|now left] ].
Qed.

(** ** Adding a time for a service *)

Lemma handleAddTime_known_date (w : World)
    (selectedService selectedDate time : string) (dateRow : DateRecord) :
  schedule w = [] ->
  valid_slot_input selectedService selectedDate time = true ->
  maybeSingle (dates_with_date selectedDate (db w)) = Some dateRow ->
  let w' := exec (handleAddTime selectedService selectedDate time) w in
  schedule w' = []
  /\ match maybeSingle (service_slot_lookup selectedService (ad_id dateRow)
                                            time (db w)) with
     | Some _ =>
         db w' = db w
         /\ errorMessage (manager w')
            = "Este horário já está cadastrado para este serviço"
         /\ loading (manager w') = false
     | None =>
         service_availability (db w')
         = service_availability (db w)
           ++ [mkServiceSlot (fresh_id (map sa_id (service_availability (db w))))
                             selectedService (ad_id dateRow) time true]
         /\ available_times (db w')
            = displaced (ad_id dateRow) time (available_times (db w))
         /\ available_dates (db w') = available_dates (db w)
         /\ appointments (db w') = appointments (db w)
         /\ errorMessage (manager w') = ""
         /\ successMessage (manager w') = "Horário adicionado com sucesso!"
         /\ timeInput (manager w') = ""
         /\ loading (manager w') = false
     end.
Proof.
  intros Hq Hvalid Hdate.
  unfold valid_slot_input in Hvalid. apply negb_true_iff in Hvalid.
  destruct w as [d t s j e f m]; simpl in *; subst s.
  unfold handleAddTime. rewrite Hvalid.
  unfold addTimeForDate, removeFromGeneralAvailability, fetchServiceAvailability.
  unfold_handler. simpl. rewrite Hdate. simpl.
  destruct (maybeSingle (service_slot_lookup selectedService (ad_id dateRow)
                                             time d)) as [existing|]; simpl.
  - destruct d; auto.
  - unfold displaced.
    change (general_slot_lookup (ad_id dateRow) time
              (insert_service_slot selectedService (ad_id dateRow) time d))
      with (general_slot_lookup (ad_id dateRow) time d).
    change (filter (fun r => Nat.eqb (at_date_id r) (ad_id dateRow)
                             && String.eqb (at_time r) time)
                   (available_times d))
      with (general_slot_lookup (ad_id dateRow) time d).
    destruct (maybeSingle (general_slot_lookup (ad_id dateRow) time d))
      as [g|]; simpl.
    + change (dates_with_date selectedDate
                (delete_general (at_id g)
                   (insert_service_slot selectedService (ad_id dateRow) time d)))
        with (dates_with_date selectedDate d).
      rewrite Hdate. simpl. repeat split; reflexivity.
    + change (dates_with_date selectedDate
                (insert_service_slot selectedService (ad_id dateRow) time d))
        with (dates_with_date selectedDate d).
      rewrite Hdate. simpl. repeat split; reflexivity.
Qed.

Lemma filter_swap {A : Type} (p q : A -> bool) (l : list A) :
  filter p (filter q l) = filter q (filter p l).
Proof.
  rewrite !filter_twice. apply filter_ext. intros x. apply andb_comm.
Qed.

Lemma displaced_leaves_none (dateId : Id) (time : string)
    (rows : list GeneralSlot) :
  List.length (filter (fun r => Nat.eqb (at_date_id r) dateId
                                && String.eqb (at_time r) time) rows) <= 1 ->
  filter (fun r => Nat.eqb (at_date_id r) dateId && String.eqb (at_time r) time)
         (displaced dateId time rows) = [].
Proof.
  unfold displaced. intros Hlen.
  destruct (filter _ rows) as [|g [|g' l]] eqn:Hrows; simpl in *; try lia.
  - exact Hrows.
  - rewrite filter_swap, Hrows. simpl. now rewrite Nat.eqb_refl.
Qed.

Lemma displaced_keeps_others (dateId : Id) (time : string)
    (rows : list GeneralSlot) (g : GeneralSlot) :
  In g rows ->
  (forall found,
     maybeSingle (filter (fun r => Nat.eqb (at_date_id r) dateId
                                   && String.eqb (at_time r) time) rows)
     = Some found -> at_id g <> at_id found) ->
  In g (displaced dateId time rows).
Proof.
  unfold displaced. intros Hin Hother.
  destruct (maybeSingle _) as [found|]; [|exact Hin].
  apply filter_In. split; [exact Hin|].
  apply negb_true_iff, Nat.eqb_neq. now apply Hother.
Qed.

(** X11. [handleAddTime] refuses, without writing anything, an input with an
    empty service, date or time (before any store call) and a time the service
    already has on that date: the store is left as it was and the error
    message says why. *)
Theorem handleAddTime_refuses (w : World)
    (selectedService selectedDate time : string) :
  let w' := exec (handleAddTime selectedService selectedDate time) w in
  (valid_slot_input selectedService selectedDate time = false ->
     db w' = db w /\ calls_made w w' = 0
     /\ errorMessage (manager w') = "Selecione um serviço, data e horário")
  /\ (valid_slot_input selectedService selectedDate time = true ->
      schedule w = [] ->
      forall dateRow existing,
        maybeSingle (dates_with_date selectedDate (db w)) = Some dateRow ->
        maybeSingle (service_slot_lookup selectedService (ad_id dateRow) time
                                         (db w)) = Some existing ->
        db w' = db w
        /\ errorMessage (manager w')
           = "Este horário já está cadastrado para este serviço"
        /\ loading (manager w') = false).
Proof.
  split.
  - intros Hvalid.
    unfold valid_slot_input in Hvalid. apply negb_false_iff in Hvalid.
    destruct w as [d t s j e f m].
    unfold handleAddTime. rewrite Hvalid.
    unfold calls_made, new_journal. unfold_handler. simpl.
    rewrite skipn_all. auto.
  - intros Hvalid Hq dateRow existing Hdate Hslot.
    destruct (handleAddTime_known_date w selectedService selectedDate time
                dateRow Hq Hvalid Hdate) as [_ H].
    rewrite Hslot in H. exact H.
Qed.

Lemma handleAddTime_refuses_witness :
  let w := quiet_world salon_db noon_utc in
  db (exec (handleAddTime "corte" "2026-11-10" "09:00") w) = db w
  /\ db (exec (handleAddTime "corte" "" "09:00") w) = db w.
Proof.
  split.
  - exact (proj1 (proj2 (handleAddTime_refuses (quiet_world salon_db noon_utc)
                           "corte" "2026-11-10" "09:00") eq_refl eq_refl
                    (mkDate 1 "2026-11-10")
                    (mkServiceSlot 1 "corte" 1 "09:00" true) eq_refl eq_refl)).
  - exact (proj1 (proj1 (handleAddTime_refuses (quiet_world salon_db noon_utc)
                           "corte" "" "09:00") eq_refl)).
Defined.

(** X12. Adding a time the service does not have yet on a registered date
    appends one available slot row for (service, date, time), creates no date
    record, and takes the general row of that (date, time) away when exactly
    one is found, keeping every general row with another id. Afterwards the
    service is configured, and no service without slot rows of its own is
    offered that time on that date. *)
Theorem handleAddTime_claims_the_time (w : World)
    (selectedService selectedDate time : string) (dateRow : DateRecord) :
  schedule w = [] ->
  valid_slot_input selectedService selectedDate time = true ->
  maybeSingle (dates_with_date selectedDate (db w)) = Some dateRow ->
  maybeSingle (service_slot_lookup selectedService (ad_id dateRow) time (db w))
  = None ->
  let w' := exec (handleAddTime selectedService selectedDate time) w in
  service_availability (db w')
  = service_availability (db w)
    ++ [mkServiceSlot (fresh_id (map sa_id (service_availability (db w))))
                      selectedService (ad_id dateRow) time true]
  /\ available_dates (db w') = available_dates (db w)
  /\ hasConfiguration selectedService (db w') = true
  /\ (general_count (ad_id dateRow) time (db w) <= 1 ->
        general_count (ad_id dateRow) time (db w') = 0)
  /\ (forall g, In g (available_times (db w)) ->
        (forall found,
           maybeSingle (general_slot_lookup (ad_id dateRow) time (db w))
           = Some found -> at_id g <> at_id found) ->
        In g (available_times (db w')))
  /\ (forall other,
        hasConfiguration other (db w') = false ->
        ~ In time (map fst (slotsFor other selectedDate w'))).
Proof.
  intros Hq Hvalid Hdate Hslot w'.
  destruct (handleAddTime_known_date w selectedService selectedDate time
              dateRow Hq Hvalid Hdate) as [Hq' H].
  fold w' in Hq', H. rewrite Hslot in H.
  destruct H as (Hsvc & Hgen & Hdates & _).
  assert (Hnew : In (mkServiceSlot
                       (fresh_id (map sa_id (service_availability (db w))))
                       selectedService (ad_id dateRow) time true)
                    (service_availability (db w'))).
  { rewrite Hsvc. apply in_or_app. right. now left. }
  split; [exact Hsvc|]. split; [exact Hdates|]. split; [|split; [|split]].
  - unfold hasConfiguration. apply existsb_exists.
    eexists. split; [exact Hnew|]. simpl. apply String.eqb_refl.
  - unfold general_count, general_slot_lookup. rewrite Hgen. intros Hle.
    now rewrite displaced_leaves_none.
  - intros g Hin Hother. rewrite Hgen.
    now apply displaced_keeps_others.
  - intros other Hcfg Hin.
    assert (Hdate' : maybeSingle (dates_with_date selectedDate (db w'))
                     = Some dateRow).
    { unfold dates_with_date in *. now rewrite Hdates. }
    rewrite (slotsFor_general_tier w' other selectedDate dateRow Hq' Hdate' Hcfg)
      in Hin.
    apply in_map_iff in Hin. destruct Hin as (row & Ht & Hrow).
    apply filter_In in Hrow. destruct Hrow as [_ Hclaim].
    apply negb_true_iff in Hclaim.
    assert (Hc : claimed (ad_id dateRow) (fst row) (db w') = true).
    { unfold claimed. apply existsb_exists. eexists. split; [exact Hnew|].
      simpl. rewrite Nat.eqb_refl, Ht. simpl. apply String.eqb_refl. }
    congruence.
Qed.

Lemma handleAddTime_claims_the_time_witness :
  let w' := exec (handleAddTime "barba" "2026-11-10" "10:00")
                 (quiet_world salon_db noon_utc) in
  general_count 1 "10:00" (db w') = 0
  /\ hasConfiguration "barba" (db w') = true.
Proof.
  destruct (handleAddTime_claims_the_time (quiet_world salon_db noon_utc)
              "barba" "2026-11-10" "10:00" (mkDate 1 "2026-11-10")
              eq_refl eq_refl eq_refl eq_refl)
    as (_ & _ & Hcfg & Hcount & _).
  split; [exact (Hcount (le_n 1))|exact Hcfg].
Defined.

Lemma fresh_id_above (ids : list Id) (id : Id) :
  In id ids -> id < fresh_id ids.
Proof.
  intros Hin. unfold fresh_id.
  assert (H : Forall (fun k => k <= list_max ids) ids)
    by now apply list_max_le.
  rewrite Forall_forall in H. specialize (H id Hin). lia.
Qed.

Lemma filter_all_false {A : Type} (p : A -> bool) (l : list A) :
  (forall x, In x l -> p x = false) -> filter p l = [].
Proof.
  induction l as [|x l IH]; simpl; intros H; [reflexivity|].
  rewrite (H x (or_introl eq_refl)). apply IH. auto.
Qed.

Lemma filter_all_true {A : Type} (p : A -> bool) (l : list A) :
  (forall x, In x l -> p x = true) -> filter p l = l.
Proof.
  induction l as [|x l IH]; simpl; intros H; [reflexivity|].
  rewrite (H x (or_introl eq_refl)). f_equal. apply IH. auto.
Qed.

(** X13. Adding a time on a date that has no record yet registers the date
    first: one date record with a new id is appended, the slot row points to
    it, and the date resolves from then on. Slot rows pointing to existing
    dates only, the general tier is left as it was. *)
Theorem handleAddTime_registers_the_date (w : World)
    (selectedService selectedDate time : string) :
  schedule w = [] ->
  valid_slot_input selectedService selectedDate time = true ->
  dates_with_date selectedDate (db w) = [] ->
  slots_have_dates (db w) ->
  let w' := exec (handleAddTime selectedService selectedDate time) w in
  let dateId := fresh_id (map ad_id (available_dates (db w))) in
  (forall a, In a (available_dates (db w)) -> ad_id a <> dateId)
  /\ available_dates (db w')
     = available_dates (db w) ++ [mkDate dateId selectedDate]
  /\ maybeSingle (dates_with_date selectedDate (db w'))
     = Some (mkDate dateId selectedDate)
  /\ service_availability (db w')
     = service_availability (db w)
       ++ [mkServiceSlot (fresh_id (map sa_id (service_availability (db w))))
                         selectedService dateId time true]
  /\ available_times (db w') = available_times (db w)
  /\ successMessage (manager w') = "Horário adicionado com sucesso!".
Proof.
  intros Hq Hvalid Hnone [Hsvc Hgen] w' dateId.
  assert (Hnew : forall a, In a (available_dates (db w)) -> ad_id a <> dateId).
  { intros a Ha E.
    pose proof (fresh_id_above (map ad_id (available_dates (db w))) (ad_id a)
                  (in_map ad_id _ _ Ha)) as Hlt.
    fold dateId in Hlt. lia. }
  assert (Hslots : service_slot_lookup selectedService dateId time (db w) = []).
  { unfold service_slot_lookup. apply filter_all_false. intros r Hr.
    destruct (Hsvc r Hr) as (a & Ha & Hid).
    assert (Hne : Nat.eqb (sa_date_id r) dateId = false).
    { apply Nat.eqb_neq. rewrite <- Hid. now apply Hnew. }
    rewrite Hne. now rewrite andb_false_r. }
  assert (Hgens : general_slot_lookup dateId time (db w) = []).
  { unfold general_slot_lookup. apply filter_all_false. intros g Hg.
    destruct (Hgen g Hg) as (a & Ha & Hid).
    assert (Hne : Nat.eqb (at_date_id g) dateId = false).
    { apply Nat.eqb_neq. rewrite <- Hid. now apply Hnew. }
    now rewrite Hne. }
  split; [exact Hnew|].
  subst w' dateId.
  unfold valid_slot_input in Hvalid. apply negb_true_iff in Hvalid.
  destruct w as [d t s j e f m]; simpl in *; subst s.
  unfold handleAddTime. rewrite Hvalid.
  unfold addTimeForDate, removeFromGeneralAvailability, fetchServiceAvailability.
  unfold_handler. simpl. rewrite Hnone. simpl.
  change (service_slot_lookup selectedService
            (fresh_id (map ad_id (available_dates d))) time
            (with_available_dates
               (fun l => l ++ [mkDate (fresh_id (map ad_id (available_dates d)))
                                      selectedDate]) d))
    with (service_slot_lookup selectedService
            (fresh_id (map ad_id (available_dates d))) time d).
  rewrite Hslots. simpl.
  match goal with
  | |- context [maybeSingle (general_slot_lookup ?a ?b ?c)] =>
      change (general_slot_lookup a b c)
        with (general_slot_lookup (fresh_id (map ad_id (available_dates d)))
                                  time d)
  end.
  rewrite Hgens. simpl.
  assert (Hresolved :
    dates_with_date selectedDate
      (insert_service_slot selectedService
         (fresh_id (map ad_id (available_dates d))) time
         (with_available_dates
            (fun l => l ++ [mkDate (fresh_id (map ad_id (available_dates d)))
                                   selectedDate]) d))
    = [mkDate (fresh_id (map ad_id (available_dates d))) selectedDate]).
  { unfold dates_with_date in *. simpl. rewrite filter_app, Hnone. simpl.
    now rewrite String.eqb_refl. }
  rewrite Hresolved. simpl. rewrite ?Hresolved. repeat split; reflexivity.
Qed.

Lemma handleAddTime_registers_the_date_witness :
  let w' := exec (handleAddTime "corte" christmas "09:00")
                 (quiet_world salon_db noon_utc) in
  available_dates (db w')
  = [mkDate 1 "2026-11-10"; mkDate 2 christmas]
  /\ available_times (db w') = available_times salon_db.
Proof.
  assert (H : slots_have_dates salon_db).
  { split; intros r Hr; exists (mkDate 1 "2026-11-10");
      (split; [now left|]); simpl in Hr;
      repeat (destruct Hr as [<-|Hr]; [reflexivity|]); destruct Hr. }
  destruct (handleAddTime_registers_the_date (quiet_world salon_db noon_utc)
              "corte" christmas "09:00" eq_refl eq_refl eq_refl H)
    as (_ & Hdates & _ & _ & Hgen & _).
  split; [exact Hdates|exact Hgen].
Defined.

(** ** Adding a time and removing it again *)

(** X14. Adding a time for a service and then removing that slot row leaves
    the slot rows of the services and the date records exactly as they were,
    and leaves the general tier with exactly one row for that (date, time),
    which is available, even when the general row that the addition took away
    was unavailable or when there was none. *)
Theorem add_then_remove_restores (w : World)
    (selectedService selectedDate time : string) (dateRow : DateRecord) :
  schedule w = [] ->
  valid_slot_input selectedService selectedDate time = true ->
  maybeSingle (dates_with_date selectedDate (db w)) = Some dateRow ->
  maybeSingle (service_slot_lookup selectedService (ad_id dateRow) time (db w))
  = None ->
  general_count (ad_id dateRow) time (db w) <= 1 ->
  let w1 := exec (handleAddTime selectedService selectedDate time) w in
  let slotId := fresh_id (map sa_id (service_availability (db w))) in
  let w2 := exec (handleRemoveTime true selectedService selectedDate
                                   slotId time) w1 in
  service_availability (db w2) = service_availability (db w)
  /\ available_dates (db w2) = available_dates (db w)
  /\ appointments (db w2) = appointments (db w)
  /\ exists id,
       general_slot_lookup (ad_id dateRow) time (db w2)
       = [mkGeneral id (ad_id dateRow) time true].
Proof.
  intros Hq Hvalid Hdate Hslot Hcount w1 slotId w2.
  destruct (handleAddTime_known_date w selectedService selectedDate time
              dateRow Hq Hvalid Hdate) as [Hq1 H1].
  fold w1 in Hq1, H1. rewrite Hslot in H1.
  destruct H1 as (Hsvc1 & Hgen1 & Hdates1 & Happ1 & _).
  destruct (handleRemoveTime_quiet w1 selectedService selectedDate slotId time
              Hq1) as (_ & Hdates2 & Hsvc2 & Hgen2).
  fold w2 in Hdates2, Hsvc2, Hgen2.
  assert (Hdate1 : maybeSingle (dates_with_date selectedDate (db w1))
                   = Some dateRow).
  { unfold dates_with_date in *. now rewrite Hdates1. }
  assert (Hnone1 : general_slot_lookup (ad_id dateRow) time (db w1) = []).
  { unfold general_slot_lookup. rewrite Hgen1.
    now apply displaced_leaves_none. }
  rewrite Hdate1, Hnone1 in Hgen2. simpl in Hgen2.
  split; [|split; [congruence|split]].
  - rewrite Hsvc2, Hsvc1, filter_app. simpl.
    fold slotId. rewrite Nat.eqb_refl. simpl. rewrite app_nil_r.
    apply filter_all_true. intros r Hr.
    apply negb_true_iff, Nat.eqb_neq.
    pose proof (fresh_id_above (map sa_id (service_availability (db w)))
                  (sa_id r) (in_map sa_id _ _ Hr)) as Hlt.
    fold slotId in Hlt. lia.
  - assert (Happ2 : appointments (db w2) = appointments (db w1)).
    { clear -Hq1. subst w2. destruct w1 as [d t s j e f m]; simpl in *; subst s.
      unfold handleRemoveTime, fetchServiceAvailability. unfold_handler. simpl.
      repeat next_call; reflexivity. }
    congruence.
  - eexists. unfold general_slot_lookup in *. rewrite Hgen2, filter_app, Hnone1.
    simpl. rewrite Nat.eqb_refl, String.eqb_refl. reflexivity.
Qed.

Lemma add_then_remove_restores_witness :
  let w1 := exec (handleAddTime "barba" "2026-11-10" "10:00")
                 (quiet_world salon_db noon_utc) in
  let w2 := exec (handleRemoveTime true "barba" "2026-11-10" 2 "10:00") w1 in
  service_availability (db w2) = service_availability salon_db.
Proof.
  exact (proj1 (add_then_remove_restores (quiet_world salon_db noon_utc)
                  "barba" "2026-11-10" "10:00" (mkDate 1 "2026-11-10")
                  eq_refl eq_refl eq_refl eq_refl (le_n 1))).
Defined.

(** ** Toggling a slot of a service *)

Lemma handleToggleAvailability_quiet (w : World)
    (selectedService selectedDate : string) (timeId : Id)
    (currentAvailability : bool) :
  schedule w = [] ->
  let w' := exec (handleToggleAvailability selectedService selectedDate
                                           timeId currentAvailability) w in
  schedule w' = []
  /\ db w' = set_service_available timeId (negb currentAvailability) (db w)
  /\ errorMessage (manager w') = ""
  /\ loading (manager w') = false.
Proof.
  intros Hq.
  destruct w as [d t s j e f m]; simpl in *; subst s.
  unfold handleToggleAvailability, fetchServiceAvailability.
  unfold_handler. simpl.
  change (dates_with_date selectedDate
            (set_service_available timeId (negb currentAvailability) d))
    with (dates_with_date selectedDate d).
  destruct (maybeSingle (dates_with_date selectedDate d)); simpl; auto.
Qed.

(** X15. Toggling a slot of a service sets the flag of the rows with that id
    to the opposite of the flag the caller passes, and touches nothing else:
    no row of the general tier, no date record, no appointment. Toggling
    twice, each time with the flag then shown, brings every slot row back to
    what it was. *)
Theorem toggle_twice_restores (w : World)
    (selectedService selectedDate : string) (timeId : Id) (shown : bool) :
  schedule w = [] ->
  (forall r, In r (service_availability (db w)) ->
             sa_id r = timeId -> sa_is_available r = shown) ->
  let w1 := exec (handleToggleAvailability selectedService selectedDate
                                           timeId shown) w in
  let w2 := exec (handleToggleAvailability selectedService selectedDate
                                           timeId (negb shown)) w1 in
  (forall r, In r (service_availability (db w1)) ->
             sa_id r = timeId -> sa_is_available r = negb shown)
  /\ available_times (db w1) = available_times (db w)
  /\ available_dates (db w1) = available_dates (db w)
  /\ appointments (db w1) = appointments (db w)
  /\ db w2 = db w.
Proof.
  intros Hq Hshown w1 w2.
  destruct (handleToggleAvailability_quiet w selectedService selectedDate
              timeId shown Hq) as (Hq1 & Hdb1 & _).
  fold w1 in Hq1, Hdb1.
  destruct (handleToggleAvailability_quiet w1 selectedService selectedDate
              timeId (negb shown) Hq1) as (_ & Hdb2 & _).
  fold w2 in Hdb2.
  split; [|split; [|split; [|split]]]; try (rewrite Hdb1; reflexivity).
  - rewrite Hdb1. simpl. intros r Hr Hid.
    apply in_map_iff in Hr. destruct Hr as (r0 & <- & _).
    destruct (Nat.eqb (sa_id r0) timeId) eqn:E; [reflexivity|].
    apply Nat.eqb_neq in E. contradiction.
  - rewrite Hdb2, Hdb1, negb_involutive.
    destruct (db w) as [dates gens svcs apps servs] eqn:Hd.
    unfold set_service_available, with_service_availability. simpl. f_equal.
    rewrite map_map. rewrite <- (map_id svcs) at 2. apply map_ext_in.
    intros r Hr. simpl in Hshown.
    destruct (Nat.eqb (sa_id r) timeId) eqn:E; simpl; rewrite E; [|reflexivity].
    apply Nat.eqb_eq in E. rewrite <- (Hshown r Hr E). now destruct r.
Qed.

Lemma toggle_twice_restores_witness :
  let w1 := exec (handleToggleAvailability "corte" "2026-11-10" 1 true)
                 (quiet_world salon_db noon_utc) in
  let w2 := exec (handleToggleAvailability "corte" "2026-11-10" 1 false) w1 in
  db w2 = salon_db.
Proof.
  assert (H : forall r, In r (service_availability salon_db) ->
                        sa_id r = 1 -> sa_is_available r = true).
  { intros r [<-|[]] _. reflexivity. }
  destruct (toggle_twice_restores (quiet_world salon_db noon_utc) "corte"
              "2026-11-10" 1 true eq_refl H) as (_ & _ & _ & _ & Hback).
  exact Hback.
Defined.

(** X16. Whatever the store answers, toggling never adds or removes a row,
    leaves the general tier, the date records and the appointments as they
    were, returns to its caller and clears the loading flag. When the update is
    refused with an error in its result, no row changes and the error is
    shown, with no success message. *)
Theorem toggle_frame (w : World) (selectedService selectedDate : string)
    (timeId : Id) (currentAvailability : bool) :
  let c := handleToggleAvailability selectedService selectedDate timeId
                                    currentAvailability in
  let w' := exec c w in
  returns_normally c w = true
  /\ loading (manager w') = false
  /\ (db w' = db w
      \/ db w' = set_service_available timeId (negb currentAvailability) (db w))
  /\ (hd Fulfilled (schedule w) = ErrorResult ->
        db w' = db w
        /\ errorMessage (manager w') <> ""
        /\ successMessage (manager w') = "").
Proof.
  destruct w as [d t s j e f m].
  unfold returns_normally, handleToggleAvailability, fetchServiceAvailability.
  unfold_handler. simpl.
  repeat next_call; repeat split; auto; discriminate.
Qed.

(** ** Removing a time when the store refuses a write *)

(** X17. [handleRemoveTime] does not read the result of its delete or of its
    insert: as long as no store call throws, a confirmed removal ends with the
    success message and no error message, even when the store refused a write.
    In particular, when the insert of the general row is refused, the slot
    row is gone and the general tier has gained nothing. *)
Theorem handleRemoveTime_ignores_refused_writes (w : World)
    (selectedService selectedDate : string) (timeId : Id) (timeValue : string) :
  forallb (fun o => negb (is_rejected o)) (firstn 4 (schedule w)) = true ->
  let w' := exec (handleRemoveTime true selectedService selectedDate
                                   timeId timeValue) w in
  successMessage (manager w')
  = "Horário removido e adicionado de volta aos horários gerais"
  /\ errorMessage (manager w') = ""
  /\ loading (manager w') = false
  /\ (forall rest,
        schedule w = Fulfilled :: Fulfilled :: Fulfilled :: ErrorResult :: rest ->
        service_availability (db w')
        = filter (fun r => negb (Nat.eqb (sa_id r) timeId))
                 (service_availability (db w))
        /\ available_times (db w') = available_times (db w)).
Proof.
  intros Hall.
  destruct w as [d t s j e f m]. simpl in Hall.
  unfold handleRemoveTime, fetchServiceAvailability. unfold_handler. simpl.
  repeat next_call; simpl in Hall; try discriminate Hall;
    (split; [reflexivity|]); (split; [reflexivity|]); (split; [reflexivity|]);
    intros rest Hrest; try discriminate Hrest; split; reflexivity.
Qed.

Lemma handleRemoveTime_ignores_refused_writes_witness :
  let w := scheduled_world empty_day_db noon_utc
             [Fulfilled; Fulfilled; Fulfilled; ErrorResult] in
  let w' := exec (handleRemoveTime true "corte" "2026-11-10" 1 "09:00") w in
  successMessage (manager w')
  = "Horário removido e adicionado de volta aos horários gerais"
  /\ available_times (db w') = [].
Proof.
  destruct (handleRemoveTime_ignores_refused_writes
              (scheduled_world empty_day_db noon_utc
                 [Fulfilled; Fulfilled; Fulfilled; ErrorResult])
              "corte" "2026-11-10" 1 "09:00" eq_refl) as (Hs & _ & _ & Hdb).
  split; [exact Hs|exact (proj2 (Hdb [] eq_refl))].
Defined.

(** ** The list the manager shows *)

Lemma flat_map_singletons {A B : Type} (g : A -> list B) (h : A -> B)
    (l : list A) :
  (forall x, In x l -> g x = [h x]) -> flat_map g l = map h l.
Proof.
  induction l as [|x l IH]; simpl; intros H; [reflexivity|].
  rewrite (H x (or_introl eq_refl)). simpl. f_equal. apply IH. auto.
Qed.

Lemma flat_map_empties {A B : Type} (g : A -> list B) (l : list A) :
  (forall x, In x l -> g x = []) -> flat_map g l = [].
Proof.
  induction l as [|x l IH]; simpl; intros H; [reflexivity|].
  rewrite (H x (or_introl eq_refl)). simpl. apply IH. auto.
Qed.

(** X18. The manager lists, for the selected service and date, every slot row
    of that service on that date, available or not, once each and in ascending
    order of time, under the name the service has in the catalog. A service
    missing from the catalog gets an empty list even when it has slot rows,
    and so does a date without a record. *)
Theorem fetchServiceAvailability_lists_slots (w : World)
    (selectedService selectedDate : string) :
  schedule w = [] ->
  let w' := exec (fetchServiceAvailability selectedService selectedDate) w in
  let listed := serviceAvailabilityList (manager w') in
  db w' = db w
  /\ (maybeSingle (dates_with_date selectedDate (db w)) = None -> listed = [])
  /\ (services_with_id selectedService (db w) = [] -> listed = [])
  /\ (forall dateRow service,
        maybeSingle (dates_with_date selectedDate (db w)) = Some dateRow ->
        services_with_id selectedService (db w) = [service] ->
        Permutation listed
          (map (fun r => mkManaged (sa_id r) (sa_time r) (sa_is_available r)
                                   (sv_name service))
               (filter (fun r => String.eqb (sa_service_id r) selectedService
                                 && Nat.eqb (sa_date_id r) (ad_id dateRow))
                       (service_availability (db w))))
        /\ ascending managed_time_le listed).
Proof.
  intros Hq w' listed.
  assert (Heval :
    db w' = db w
    /\ listed = match maybeSingle (dates_with_date selectedDate (db w)) with
                | Some dateRow =>
                    managed_times_query selectedService (ad_id dateRow) (db w)
                | None => []
                end).
  { subst listed w'.
    destruct w as [d t s j e f m]; simpl in *; subst s.
    unfold fetchServiceAvailability. unfold_handler. simpl.
    destruct (maybeSingle (dates_with_date selectedDate d)); simpl; auto. }
  destruct Heval as [Hdb Hlist].
  assert (Hrows : forall dateRow r,
            In r (sort_by service_time_le
                    (filter (fun r => String.eqb (sa_service_id r) selectedService
                                      && Nat.eqb (sa_date_id r) (ad_id dateRow))
                            (service_availability (db w)))) ->
            filter (fun s => String.eqb (sv_id s) (sa_service_id r))
                   (services_table (db w))
            = services_with_id selectedService (db w)).
  { intros dateRow r Hr. apply sort_by_in, filter_In in Hr.
    destruct Hr as [_ Hp]. apply andb_true_iff in Hp. destruct Hp as [Hs _].
    apply String.eqb_eq in Hs. now rewrite Hs. }
  split; [exact Hdb|]. split; [|split].
  - intros Hnone. now rewrite Hlist, Hnone.
  - intros Hmissing. rewrite Hlist.
    destruct (maybeSingle (dates_with_date selectedDate (db w))) as [dateRow|];
      [|reflexivity].
    unfold managed_times_query. apply flat_map_empties. intros r Hr.
    now rewrite (Hrows dateRow r Hr), Hmissing.
  - intros dateRow service Hdate Hservice. rewrite Hlist, Hdate.
    unfold managed_times_query.
    rewrite (flat_map_singletons _
               (fun r => mkManaged (sa_id r) (sa_time r) (sa_is_available r)
                                   (sv_name service))).
    + split.
      * apply Permutation_map, Permutation_sym, sort_by_perm.
      * apply ascending_map with (leA := service_time_le); [auto|].
        apply sort_by_ascending.
        -- intros a b. apply str_leb_false.
        -- intros a b c. apply str_leb_trans.
    + intros r Hr. now rewrite (Hrows dateRow r Hr), Hservice.
Qed.

Lemma fetchServiceAvailability_lists_slots_witness :
  Permutation
    (serviceAvailabilityList
       (manager (exec (fetchServiceAvailability "corte" "2026-11-10")
                      (quiet_world salon_db noon_utc))))
    [mkManaged 1 "09:00" true "Corte"].
Proof.
  destruct (fetchServiceAvailability_lists_slots (quiet_world salon_db noon_utc)
              "corte" "2026-11-10" eq_refl) as (_ & _ & _ & H).
  exact (proj1 (H (mkDate 1 "2026-11-10") (mkService "corte" "Corte")
                  eq_refl eq_refl)).
Defined.

(** ** The form data *)

(** X19. The submit button and the handler agree: the button reads "Agendar
    Horário", and is enabled while nothing is being submitted, exactly for the
    forms that [handleSubmit] sends to the store; for every other form the
    handler makes no store call. *)
Theorem submit_button_agrees_with_handler (formData : FormData) (w : World) :
  let w' := exec (handleSubmit formData) w in
  isFormValid formData = valid_form formData
  /\ submitDisabled formData false = negb (isFormValid formData)
  /\ (submitLabel formData = "Agendar Horário" <-> isFormValid formData = true)
  /\ (isFormValid formData = true -> 1 <= calls_made w w')
  /\ (isFormValid formData = false -> calls_made w w' = 0).
Proof.
  assert (Hsame : isFormValid formData = valid_form formData).
  { unfold isFormValid, valid_form.
    destruct (falsy (fd_name formData)), (falsy (fd_service formData)),
      (falsy (fd_date formData)), (falsy (fd_time formData)); reflexivity. }
  split; [exact Hsame|]. split; [apply orb_false_r|]. split; [|split].
  - unfold submitLabel, isFormValid.
    destruct (falsy (fd_name formData)), (falsy (fd_service formData)),
      (falsy (fd_date formData)), (falsy (fd_time formData)); simpl;
      split; intros H; try reflexivity; discriminate H.
  - rewrite Hsame. intros Hvalid.
    unfold valid_form in Hvalid. apply negb_true_iff in Hvalid.
    destruct w as [d t s j e f m].
    unfold handleSubmit. rewrite Hvalid.
    unfold calls_made, new_journal. unfold_handler. simpl.
    repeat next_call; rewrite <- ?app_assoc; rewrite skipn_own_length;
      simpl; lia.
  - rewrite Hsame. intros Hvalid.
    apply (handleSubmit_missing_field w formData Hvalid).
Qed.

(** X20. Changing the service discards the chosen date and time, and changing
    the date discards the chosen time: the form that results cannot be
    submitted until a time is picked again, the selected time is cleared, and
    after a change of service the times effect empties the offered times
    without calling the store. Picking a time completes the form exactly when
    name, service, date and the time picked are all present. *)
Theorem changes_force_a_new_time (formData : FormData)
    (serviceId date time : string) (w : World) :
  (exists afterService w1,
     handleServiceChange formData serviceId w = (Val afterService, w1)
     /\ fd_service afterService = serviceId
     /\ fd_name afterService = fd_name formData
     /\ isFormValid afterService = false
     /\ selectedTime (form w1) = ""
     /\ availableTimes (form (exec (timesEffect afterService) w1)) = []
     /\ calls_made w1 (exec (timesEffect afterService) w1) = 0)
  /\ (exists afterDate w1,
        onDateSelect formData date w = (Val afterDate, w1)
        /\ fd_date afterDate = date
        /\ fd_service afterDate = fd_service formData
        /\ isFormValid afterDate = false
        /\ selectedTime (form w1) = "")
  /\ (exists afterTime w1,
        handleTimeSelect formData time w = (Val afterTime, w1)
        /\ selectedTime (form w1) = time
        /\ isFormValid afterTime
           = negb (falsy (fd_name formData))
             && negb (falsy (fd_service formData))
             && negb (falsy (fd_date formData)) && negb (falsy time)).
Proof.
  destruct w as [d t s j e f m].
  split; [|split].
  - eexists. eexists. split; [reflexivity|].
    unfold isFormValid, timesEffect, calls_made, new_journal.
    unfold_handler. simpl. rewrite skipn_all.
    rewrite !andb_false_r. repeat split; reflexivity.
  - eexists. eexists. split; [reflexivity|].
    unfold isFormValid. simpl. rewrite !andb_false_r. repeat split; reflexivity.
  - eexists. eexists. split; [reflexivity|]. split; reflexivity.
Qed.

Lemma submit_button_agrees_with_handler_witness :
  submitLabel ana_form = "Agendar Horário"
  /\ 1 <= calls_made (quiet_world salon_db noon_utc)
            (exec (handleSubmit ana_form) (quiet_world salon_db noon_utc)).
Proof.
  destruct (submit_button_agrees_with_handler ana_form
              (quiet_world salon_db noon_utc)) as (_ & _ & Hlabel & Hcalls & _).
  split; [exact (proj2 Hlabel eq_refl)|exact (Hcalls eq_refl)].
Defined.

Lemma toggle_frame_witness :
  let w := scheduled_world salon_db noon_utc [ErrorResult] in
  db (exec (handleToggleAvailability "corte" "2026-11-10" 1 true) w) = db w.
Proof.
  destruct (toggle_frame (scheduled_world salon_db noon_utc [ErrorResult])
              "corte" "2026-11-10" 1 true) as (_ & _ & _ & H).
  exact (proj1 (H eq_refl)).
Defined.

(** ** Booking and resolving together *)

Lemma hasConfiguration_booked (serviceId : string) (formData : FormData)
    (d : Db) :
  hasConfiguration serviceId (booked_db formData d)
  = hasConfiguration serviceId d.
Proof.
  unfold booked_db, hasConfiguration.
  destruct (maybeSingle (dates_with_date _ d)) as [dateRow|]; [|reflexivity].
  destruct (maybeSingle (service_slot_lookup _ _ _ d)) as [slot|];
    [|reflexivity].
  simpl. rewrite existsb_of_map. 
  induction (service_availability d) as [|r l IH]; simpl; [reflexivity|].
  rewrite IH. now destruct (Nat.eqb (sa_id r) (sa_id slot)).
Qed.

(** X21. After a booking that the store answers throughout, the booked time
    is no longer offered for that service on that date, whichever tier
    governs the service, provided the service has at most one slot row for
    that (date, time). *)
Theorem booked_time_is_no_longer_offered (w : World) (formData : FormData)
    (dateRow : DateRecord) :
  schedule w = [] ->
  valid_form formData = true ->
  maybeSingle (dates_with_date (fd_date formData) (db w)) = Some dateRow ->
  List.length (service_slot_lookup (fd_service formData) (ad_id dateRow)
                                   (fd_time formData) (db w)) <= 1 ->
  let w' := exec (handleSubmit formData) w in
  ~ In (fd_time formData)
       (map fst (slotsFor (fd_service formData) (fd_date formData) w')).
Proof.
  intros Hq Hvalid Hdate Hlen w' Hin.
  destruct (handleSubmit_quiet w formData Hq Hvalid) as (_ & Hdb & Hq').
  fold w' in Hdb, Hq'.
  assert (Hb : db w' = booked_db formData (db w)) by exact Hdb.
  rewrite Hdate in Hdb.
  assert (Hdate' : maybeSingle (dates_with_date (fd_date formData) (db w'))
                   = Some dateRow).
  { rewrite Hdb.
    destruct (maybeSingle (service_slot_lookup _ _ _ (db w))); exact Hdate. }
  apply in_map_iff in Hin. destruct Hin as ([time flag] & Ht & Hin).
  simpl in Ht. subst time.
  destruct (hasConfiguration (fd_service formData) (db w)) eqn:Hcfg.
  - assert (Hcfg' : hasConfiguration (fd_service formData) (db w') = true)
      by (rewrite Hb, hasConfiguration_booked; exact Hcfg).
    rewrite (slotsFor_service_tier_eval w' _ _ dateRow Hq' Hdate' Hcfg') in Hin.
    unfold service_times_query in Hin.
    apply in_map_iff in Hin. destruct Hin as (r' & [= Htime _] & Hr').
    apply sort_by_in, filter_In in Hr'. destruct Hr' as [Hr' Hp].
    rewrite !andb_true_iff, bool_eqb_true in Hp. destruct Hp as [[Hs Hd] Ha].
    destruct (service_slot_lookup (fd_service formData) (ad_id dateRow)
                (fd_time formData) (db w)) as [|slot [|x l]] eqn:Hlook;
      simpl in Hlen; try lia; simpl in Hdb.
    + rewrite Hdb in Hr'. simpl in Hr'.
      assert (Hmem : In r' (service_slot_lookup (fd_service formData)
                              (ad_id dateRow) (fd_time formData) (db w))).
      { apply filter_In. split; [exact Hr'|].
        rewrite Hs, Hd, Htime, String.eqb_refl. reflexivity. }
      rewrite Hlook in Hmem. destruct Hmem.
    + rewrite Hdb in Hr'. simpl in Hr'.
      apply in_map_iff in Hr'. destruct Hr' as (r & Hupd & Hr).
      destruct (Nat.eqb (sa_id r) (sa_id slot)) eqn:E.
      * subst r'. simpl in Ha. discriminate.
      * subst r'.
        assert (Hmem : In r (service_slot_lookup (fd_service formData)
                               (ad_id dateRow) (fd_time formData) (db w))).
        { apply filter_In. split; [exact Hr|].
          rewrite Hs, Hd, Htime, String.eqb_refl. reflexivity. }
        rewrite Hlook in Hmem. destruct Hmem as [<-|[]].
        rewrite Nat.eqb_refl in E. discriminate.
  - assert (Hcfg' : hasConfiguration (fd_service formData) (db w') = false)
      by (rewrite Hb, hasConfiguration_booked; exact Hcfg).
    rewrite (slotsFor_general_tier w' _ _ dateRow Hq' Hdate' Hcfg') in Hin.
    apply filter_In in Hin. destruct Hin as [Hin _].
    unfold general_times_query in Hin.
    apply in_map_iff in Hin. destruct Hin as (g' & [= Htime _] & Hg').
    apply sort_by_in, filter_In in Hg'. destruct Hg' as [Hg' Hp].
    rewrite andb_true_iff, bool_eqb_true in Hp. destruct Hp as [Hd Ha].
    assert (Hnone : service_slot_lookup (fd_service formData) (ad_id dateRow)
                      (fd_time formData) (db w) = []).
    { unfold service_slot_lookup. apply filter_all_false. intros r Hr.
      unfold hasConfiguration in Hcfg.
      assert (Hs : String.eqb (sa_service_id r) (fd_service formData) = false).
      { destruct (String.eqb (sa_service_id r) (fd_service formData)) eqn:E;
          [|reflexivity].
        assert (existsb (fun r => String.eqb (sa_service_id r)
                                             (fd_service formData))
                        (service_availability (db w)) = true)
          by (apply existsb_exists; eauto).
        congruence. }
      now rewrite Hs. }
    rewrite Hnone in Hdb. simpl in Hdb.
    rewrite Hdb in Hg'. simpl in Hg'.
    apply in_map_iff in Hg'. destruct Hg' as (g & Hupd & Hg).
    destruct (Nat.eqb (at_date_id g) (ad_id dateRow)
              && String.eqb (at_time g) (fd_time formData)) eqn:E.
    + subst g'. simpl in Ha. discriminate.
    + subst g'. rewrite Hd, Htime, String.eqb_refl in E. discriminate.
Qed.

Lemma booked_time_is_no_longer_offered_witness :
  ~ In "09:00"
       (map fst (slotsFor "corte" "2026-11-10"
                   (exec (handleSubmit ana_at_nine)
                         (quiet_world salon_db noon_utc)))).
Proof.
  exact (booked_time_is_no_longer_offered (quiet_world salon_db noon_utc)
           ana_at_nine (mkDate 1 "2026-11-10") eq_refl eq_refl eq_refl
           (le_n 1)).
Defined.

Lemma suggest_quiet (localeCompare : string -> string -> comparison)
    (services : list Service) (serviceId : string) (w : World) :
  schedule w = [] ->
  suggest localeCompare services true serviceId w
  = match suggestion_query serviceId (toISODate (now w)) (db w) with
    | item :: items =>
        let earliest :=
          hd item (sort_by (slot_le localeCompare) (item :: items)) in
        EarliestSlot (serviceNameOf services serviceId)
                     (fst earliest) (snd earliest)
    | [] => PickADate (serviceNameOf services serviceId)
    end.
Proof.
  intros Hq. destruct w as [d t s j e f m]; simpl in *; subst s.
  unfold suggest, generateServiceSuggestion. unfold_handler. simpl.
  destruct (suggestion_query serviceId (toISODate t) d); reflexivity.
Qed.

Lemma fetchAvailableDatesForService_quiet (serviceId : string) (w : World) :
  schedule w = [] ->
  availableDates (form (exec (fetchAvailableDatesForService serviceId) w))
  = sort_by str_leb
      (filter (fun date => str_geb date (toISODate (now w)))
              (service_dates_query serviceId (db w))).
Proof.
  intros Hq. destruct w as [d t s j e f m]; simpl in *; subst s.
  unfold fetchAvailableDatesForService. unfold_handler. reflexivity.
Qed.

(** X22. The suggestion can be followed: with the store answering and no
    date registered twice, the date of a suggested slot is among the dates
    offered for the service, and the suggested time is among the times
    offered for the service on that date. *)
Theorem suggestion_is_bookable
    (localeCompare : string -> string -> comparison) (services : list Service)
    (serviceId serviceName date time : string) (w : World) :
  schedule w = [] ->
  (forall day, List.length (dates_with_date day (db w)) <= 1) ->
  suggest localeCompare services true serviceId w
  = EarliestSlot serviceName date time ->
  In date (availableDates
             (form (exec (fetchAvailableDatesForService serviceId) w)))
  /\ In (time, true) (slotsFor serviceId date w).
Proof.
  intros Hq Hunique Hsuggest.
  rewrite (suggest_quiet localeCompare services serviceId w Hq) in Hsuggest.
  destruct (suggestion_query serviceId (toISODate (now w)) (db w))
    as [|item items] eqn:Hscan; [discriminate|].
  pose proof (earliest_in localeCompare item items) as Hin.
  cbv zeta in Hin, Hsuggest.
  remember (hd item (sort_by (slot_le localeCompare) (item :: items)))
    as earliest eqn:He.
  destruct earliest as [date' time']. simpl in Hsuggest.
  injection Hsuggest as _ Hd Ht. subst date' time'.
  assert (Hqual : In (date, time)
                     (qualifying_slots serviceId (toISODate (now w)) (db w))).
  { rewrite <- (firstn_skipn 100 (qualifying_slots _ _ _)).
    apply in_or_app. left. fold (suggestion_query serviceId
                                   (toISODate (now w)) (db w)).
    rewrite Hscan. exact Hin. }
  destruct (proj1 (qualifying_slot_origin _ _ _ _ _) Hqual)
    as (r & a & Hr & Ha & Hs & Hav & Hid & Hdate & Htime & Hge).
  split.
  - rewrite (fetchAvailableDatesForService_quiet serviceId w Hq).
    apply sort_by_in, filter_In. split; [|exact Hge].
    apply service_date_origin. exists r, a. repeat split; assumption.
  - assert (Hresolves : maybeSingle (dates_with_date date (db w)) = Some a).
    { assert (Hmem : In a (dates_with_date date (db w))).
      { apply filter_In. split; [exact Ha|]. now apply String.eqb_eq. }
      specialize (Hunique date).
      destruct (dates_with_date date (db w)) as [|x [|y l]];
        simpl in Hunique; try lia; [destruct Hmem|].
      destruct Hmem as [->|[]]. reflexivity. }
    assert (Hcfg : hasConfiguration serviceId (db w) = true).
    { unfold hasConfiguration. apply existsb_exists. exists r.
      split; [exact Hr|]. now apply String.eqb_eq. }
    rewrite (slotsFor_service_tier_eval w serviceId date a Hq Hresolves Hcfg).
    unfold service_times_query. apply in_map_iff. exists r. split.
    + now rewrite Htime, Hav.
    + apply sort_by_in, filter_In. split; [exact Hr|].
      rewrite Hav. simpl. rewrite andb_true_r. apply andb_true_iff. split.
      * now apply String.eqb_eq.
      * apply Nat.eqb_eq. now symmetry.
Qed.

Lemma suggestion_is_bookable_witness :
  In ("10:00", true)
     (slotsFor "corte" "2026-11-01" (quiet_world november_db noon_utc)).
Proof.
  assert (Hunique : forall day,
            List.length (dates_with_date day november_db) <= 1).
  { intros day. unfold dates_with_date.
    cbn [filter available_dates november_db ad_date].
    destruct (String.eqb "2026-11-01" day) eqn:E1.
    - apply String.eqb_eq in E1. subst day. vm_compute. lia.
    - destruct (String.eqb "2026-11-03" day); cbn [List.length]; lia. }
  assert (Hs : suggest code_unit_compare [] true "corte"
                 (quiet_world november_db noon_utc)
               = EarliestSlot "Serviço" "2026-11-01" "10:00")
    by (vm_compute; reflexivity).
  exact (proj2 (suggestion_is_bookable code_unit_compare [] "corte" "Serviço"
                  "2026-11-01" "10:00" (quiet_world november_db noon_utc)
                  eq_refl Hunique Hs)).
Defined.

(** ** Adding a time, whatever the store answers *)

(** X23. Whatever the store answers, [handleAddTime] returns to its caller,
    leaves the appointments as they were and adds at most the one slot row
    asked for; and it takes a row out of the general tier only after that slot
    row has been written: when no slot row was added, the general tier is
    exactly as it was. *)
Theorem handleAddTime_displaces_only_after_insert (w : World)
    (selectedService selectedDate time : string) :
  let c := handleAddTime selectedService selectedDate time in
  let w' := exec c w in
  returns_normally c w = true
  /\ appointments (db w') = appointments (db w)
  /\ (service_availability (db w') = service_availability (db w)
      \/ exists dateId,
           service_availability (db w')
           = service_availability (db w)
             ++ [mkServiceSlot
                   (fresh_id (map sa_id (service_availability (db w))))
                   selectedService dateId time true])
  /\ (service_availability (db w') = service_availability (db w) ->
        available_times (db w') = available_times (db w)).
Proof.
  destruct w as [d t s j e f m].
  unfold returns_normally, handleAddTime.
  destruct (falsy selectedService || falsy selectedDate || falsy time).
  - unfold_handler. simpl. auto.
  - unfold addTimeForDate, removeFromGeneralAvailability,
      fetchServiceAvailability.
    unfold_handler. simpl.
    repeat next_call;
      (split; [reflexivity|]); (split; [reflexivity|]);
      (split; [first [now left | right; eexists; reflexivity]|]);
      intros H; try reflexivity;
      exfalso; revert H; clear;
      generalize (service_availability d); intros l H;
      apply (f_equal (@List.length ServiceSlot)) in H;
      rewrite length_app in H; simpl in H; lia.
Qed.

Lemma handleAddTime_displaces_only_after_insert_witness :
  let w := scheduled_world salon_db noon_utc
             [Fulfilled; Fulfilled; ErrorResult] in
  available_times (db (exec (handleAddTime "barba" "2026-11-10" "10:00") w))
  = available_times (db w).
Proof.
  destruct (handleAddTime_displaces_only_after_insert
              (scheduled_world salon_db noon_utc
                 [Fulfilled; Fulfilled; ErrorResult])
              "barba" "2026-11-10" "10:00") as (_ & _ & _ & H).
  exact (H eq_refl).
Defined.
